(** * 4most-4gp: the 4FS wrapper (fourgp_fourfs) and SpectrumArray (fourgp_speclib)

    A shallow embedding of
    - [src/pythonModules/fourgp_fourfs/fourgp_fourfs/fourfs.py] (class [FourFS]:
      [__init__], [make_fits_spectral_template], [generate_4fs_template_list],
      [combine_spectra], [process_spectra]) and
    - [src/pythonModules/fourgp_speclib/fourgp_speclib/spectrum_array.py]
      (class [SpectrumArray]: [extract_item]).

    Conventions of the embedding:
    - numpy float64 values are Rocq's primitive binary64 floats, so comparisons
      against NaN, signed zeros and rounding behave as they do in numpy;
    - one-dimensional numpy arrays are lists of floats;
    - a Python exception is the [Raise] branch of [result];
    - Python dictionaries that are shared and mutated (the metadata of a
      spectrum, the entries of [metadata_store]) live in a heap of dictionary
      objects addressed by locations, so that aliasing is visible;
    - the builtins and the parts of the package that are not in these two
      files ([int], [float], string formatting of floats, [pow],
      [Spectrum.photometry], [hash_numpy_array], the texts and the function
      of [config_files]) are the fields of the [PyRuntime] interface. *)

From Stdlib Require Import ZArith List String Ascii Floats Bool Lia.
From Stdlib Require Import Sorting.Sorted.
From stdpp Require Import base option list gmap strings pretty.

Set Warnings "-inexact-float,-clear-no-such-hyp,-level-tolerance".
Local Open Scope Z_scope.

(* ===================================================================== *)
(** * Python exceptions *)
(* ===================================================================== *)

Inductive exn : Set :=
  | AssertionError | IndexError | KeyError | ValueError | TypeError | IOError.

Inductive result (A : Type) : Type :=
  | Ok (a : A)
  | Raise (e : exn).
Arguments Ok {A} a.
Arguments Raise {A} e.

#[global] Instance result_ret : MRet result := fun A a => Ok a.
#[global] Instance result_bind : MBind result := fun A B f m =>
  match m with Ok a => f a | Raise e => Raise e end.

Definition or_raise {A} (e : exn) (o : option A) : result A :=
  match o with Some a => Ok a | None => Raise e end.

Definition py_assert (b : bool) : result unit :=
  if b then Ok tt else Raise AssertionError.

Definition is_ok {A} (r : result A) : Prop := exists a, r = Ok a.

Definition succeeded {A} (r : result A) : bool :=
  match r with Ok _ => true | Raise _ => false end.

(** [for x in l: acc = body acc x], stopping at the first exception. *)
Fixpoint for_each {S X} (body : S -> X -> result S) (l : list X) (s : S) : result S :=
  match l with
  | [] => Ok s
  | x :: l' => s' ← body s x; for_each body l' s'
  end.

(** A list comprehension whose element expression may raise. *)
Fixpoint map_result {X Y} (f : X -> result Y) (l : list X) : result (list Y) :=
  match l with
  | [] => Ok []
  | x :: l' => y ← f x; ys ← map_result f l'; Ok (y :: ys)
  end.

(* ===================================================================== *)
(** * float64 *)
(* ===================================================================== *)

Definition flt (a b : float) : bool := PrimFloat.ltb a b.
Definition fle (a b : float) : bool := PrimFloat.leb a b.
Definition fgt (a b : float) : bool := PrimFloat.ltb b a.
Definition fmul (a b : float) : float := PrimFloat.mul a b.
Definition fdiv (a b : float) : float := PrimFloat.div a b.
Definition fsub (a b : float) : float := PrimFloat.sub a b.

Definition f_zero : float := 0%float.
Definition f_one : float := 1%float.
Definition f_two : float := 2%float.
Definition f_nan : float := PrimFloat.nan.

(** [float(z)] for a Python int: round to nearest even; Python raises
    [OverflowError] (a [ValueError] here) where the result would be infinite. *)
Definition float_of_Z (z : Z) : result float :=
  let f := SF2Prim (binary_normalize prec emax z 0 false) in
  if PrimFloat.is_infinity f then Raise ValueError else Ok f.

(* ===================================================================== *)
(** * numpy on one-dimensional arrays *)
(* ===================================================================== *)

Fixpoint where_from (k : nat) (mask : list bool) : list nat :=
  match mask with
  | [] => []
  | b :: m => (if b then [k] else []) ++ where_from (S k) m
  end.

(** [np.where(mask)[0]]: the indices at which the mask holds, ascending. *)
Definition np_where (mask : list bool) : list nat := where_from 0 mask.

(** [item[indices]] with an integer index array. *)
Definition np_take {A} (item : list A) (indices : list nat) : result (list A) :=
  map_result (fun i => or_raise IndexError (item !! i)) indices.

(** [arr[indices] = v]: an index out of range raises. *)
Definition np_put {A} (arr : list A) (indices : list nat) (v : A) : result (list A) :=
  for_each (fun a i => if decide (i < length a)%nat then Ok (<[i := v]> a)
                       else Raise IndexError) indices arr.

(** [np.concatenate(arrays)]: an empty list of arrays is a [ValueError]. *)
Definition np_concatenate {A} (arrays : list (list A)) : result (list A) :=
  match arrays with
  | [] => Raise ValueError
  | _ => Ok (concat arrays)
  end.

(** Elementwise binary operation with broadcasting of one-dimensional
    arrays: equal lengths pair up, a length-1 operand is stretched, any other
    combination is a [ValueError]. *)
Definition np_broadcast {A B C} (op : A -> B -> C) (a : list A) (b : list B)
  : result (list C) :=
  if decide (length a = length b) then Ok (zip_with op a b)
  else match a, b with
       | [x], _ => Ok (map (op x) b)
       | _, [y] => Ok (map (fun x => op x y) a)
       | _, _ => Raise ValueError
       end.

Definition np_div (a b : list float) : result (list float) := np_broadcast fdiv a b.

(** Python's builtin [max] over an array: the running maximum is replaced
    when [item > maximum]; the empty sequence is a [ValueError]. *)
Definition py_max (l : list float) : result float :=
  match l with
  | [] => Raise ValueError
  | x :: l' => Ok (fold_left (fun m item => if fgt item m then item else m) l' x)
  end.

(** [np.min]: NaN propagates. *)
Definition np_min (l : list float) : result float :=
  match l with
  | [] => Raise ValueError
  | x :: l' =>
      Ok (fold_left (fun m item =>
                       if PrimFloat.is_nan m then m
                       else if PrimFloat.is_nan item then item
                       else if flt item m then item else m) l' x)
  end.

(* ===================================================================== *)
(** * Python values, dictionaries and the heap of dictionary objects *)
(* ===================================================================== *)

Inductive pyval : Type :=
  | PyNone
  | PyInt (z : Z)
  | PyFloat (f : float)
  | PyStr (s : string).

(** A number given by the caller: a Python int or a Python float. *)
Inductive pynum : Type :=
  | NInt (z : Z)
  | NFloat (f : float).

Abbreviation pydict := (gmap string pyval).
Abbreviation loc := positive.
(** Every dictionary object that can be shared lives at a location. *)
Abbreviation heap := (gmap positive (gmap string pyval)).

Definition dict_get (h : heap) (l : loc) : pydict := default ∅ (h !! l).

(** [d[k]] *)
Definition dict_getitem (h : heap) (l : loc) (k : string) : result pyval :=
  or_raise KeyError (dict_get h l !! k).

(** [d[k] = v]: the object at [l] is updated in place. *)
Definition dict_setitem (h : heap) (l : loc) (k : string) (v : pyval) : heap :=
  <[l := <[k := v]> (dict_get h l)]> h.

(** [d.copy()]: a new object with the same items. *)
Definition dict_copy (h : heap) (l : loc) : loc * heap :=
  let l' := fresh (dom h) in (l', <[l' := dict_get h l]> h).

(* ===================================================================== *)
(** * Builtins and package code outside the two modelled files *)
(* ===================================================================== *)

Class PyRuntime : Type := {
  (** [int(s)]; [None] is [ValueError]. *)
  py_int : string -> option Z;
  (** [float(s)]; [None] is [ValueError]. *)
  py_float : string -> option float;
  (** [str(x)] and ['{}'.format(x)] of a float. *)
  py_float_str : float -> string;
  (** ['{:.1f}'.format(x)] of a float. *)
  py_float_fmt1 : float -> string;
  (** [pow(x, y)] on floats. *)
  py_pow : float -> float -> float;
  (** [np.mean]. *)
  np_mean : list float -> float;
  (** [Spectrum.photometry(band)], from the wavelengths and values. *)
  photometry : string -> list float -> list float -> result float;
  (** [hash_numpy_array] of [fourgp_speclib.spectrum]. *)
  hash_numpy_array : list float -> string;
  (** The texts of [fourgp_fourfs.config_files], and its function
      [ruleset(snr_list, snr_definitions)]. *)
  config_ETC_input_params_HRS : string;
  config_ETC_input_params_LRS : string;
  config_rulelist : string;
  config_ruleset : list pynum -> gset string -> result string
}.

(** [str(z)] of a Python int. *)
Definition py_str_int (z : Z) : string := pretty z.

(** [float(x)] of a number. *)
Definition py_float_of_num (x : pynum) : result float :=
  match x with
  | NInt z => float_of_Z z
  | NFloat f => Ok f
  end.

(** ['{:.1f}'.format(x)]: an int is converted to a float first; up to 2^53
    the conversion is exact and the digits are those of the int. *)
Definition fmt_1f `{PyRuntime} (x : pynum) : result string :=
  match x with
  | NInt z =>
      if decide (Z.abs z <= 2 ^ 53) then Ok (pretty z +:+ ".0")
      else f ← float_of_Z z; Ok (py_float_fmt1 f)
  | NFloat f => Ok (py_float_fmt1 f)
  end.

(** ['{}'.format(x)] *)
Definition fmt_num `{PyRuntime} (x : pynum) : string :=
  match x with
  | NInt z => py_str_int z
  | NFloat f => py_float_str f
  end.

(** [sep.join(items)] *)
Fixpoint py_join (sep : string) (items : list string) : string :=
  match items with
  | [] => ""
  | [s] => s
  | s :: rest => s +:+ sep +:+ py_join sep rest
  end.

Fixpoint ends_with_slash (s : string) : bool :=
  match s with
  | EmptyString => false
  | String c EmptyString => bool_decide (c = "/"%char)
  | String _ s' => ends_with_slash s'
  end.

(** [os.path.join(a, b)] for a relative [b]. *)
Definition os_path_join (a b : string) : string :=
  if bool_decide (a = "") then b
  else if ends_with_slash a then a +:+ b
  else a +:+ "/" +:+ b.

(* ===================================================================== *)
(** * Spectrum and SpectrumArray (fourgp_speclib) *)
(* ===================================================================== *)

Record Spectrum : Type := mkSpectrum {
  wavelengths : list float;
  values : list float;
  value_errors : list float;
  metadata : option loc;
  raster_hash : string
}.

(** Modelled from the spec: the constructor of [Spectrum]
    ([fourgp_speclib/spectrum.py] is not among the sources).  A Spectrum is
    a triple of wavelength, value and error sequences of identical length,
    with a metadata mapping and a [raster_hash] derived from the wavelength
    sequence. *)
Definition Spectrum_init `{PyRuntime} (wavelengths values value_errors : list float)
    (metadata : option loc) : result Spectrum :=
  _ ← py_assert (bool_decide (length wavelengths = length values));
  _ ← py_assert (bool_decide (length wavelengths = length value_errors));
  Ok (mkSpectrum wavelengths values value_errors metadata
        (hash_numpy_array wavelengths)).

Record SpectrumArray : Type := mkSpectrumArray {
  sa_wavelengths : list float;
  sa_values : list (list float);
  sa_value_errors : list (list float);
  sa_raster_hash : string
}.

(** [SpectrumArray._update_raster_hash] *)
Definition update_raster_hash `{PyRuntime} (self : SpectrumArray) : SpectrumArray :=
  mkSpectrumArray (sa_wavelengths self) (sa_values self) (sa_value_errors self)
    (hash_numpy_array (sa_wavelengths self)).

(** [SpectrumArray.__init__] *)
Definition SpectrumArray_init `{PyRuntime} (wavelengths : list float)
    (values value_errors : list (list float)) : SpectrumArray :=
  update_raster_hash (mkSpectrumArray wavelengths values value_errors "").

(** [a[index, :]] for an index already known to be non-negative. *)
Definition np_row (a : list (list float)) (index : Z) : result (list float) :=
  or_raise IndexError (a !! Z.to_nat index).

(** [SpectrumArray.extract_item] *)
Definition extract_item `{PyRuntime} (self : SpectrumArray) (index : Z) : result Spectrum :=
  _ ← py_assert (bool_decide (0 <= index) && bool_decide (index < Z.of_nat (length (sa_values self))));
  v ← np_row (sa_values self) index;
  e ← np_row (sa_value_errors self) index;
  Spectrum_init (sa_wavelengths self) v e None.

(* ===================================================================== *)
(** * FourFS: the instance and its constructor *)
(* ===================================================================== *)

Record FourFS : Type := mkFourFS {
  path_to_4fs : string;
  run_lrs : bool;
  run_hrs : bool;
  magnitude : pynum;
  magnitude_unreddened : bool;
  photometric_band : string;
  snr_per_pixel : bool;
  reference_magnitude : float;
  template_counter : Z;
  (** template id -> the dictionary object kept for it *)
  metadata_store : gmap Z loc;
  snr_list : list pynum;
  lrs_use_snr_definitions : list (option string);
  hrs_use_snr_definitions : list (option string);
  distinct_snr_definitions : gset string;
  tmp_dir : string
}.

Definition default_snr_list : list pynum :=
  map NInt [10; 12; 14; 16; 18; 20; 23; 26; 30; 35; 40; 45; 50; 80; 100; 130; 180; 250].

Definition default_use_snr_definitions : list (option string) :=
  [Some "MEDIANSNR"; Some "MEDIANSNR"; Some "MEDIANSNR"]%string.

(** [isinstance(i, str) and len(i) > 0] *)
Definition nonempty_name (i : option string) : option string :=
  match i with
  | Some s => if bool_decide (s = "") then None else Some s
  | None => None
  end.

Definition newline : string := String "010"%char EmptyString.

Fixpoint spaces (n : nat) : string :=
  match n with
  | O => EmptyString
  | S n' => String " "%char (spaces n')
  end.

(** ['{:<13s}'.format(x)]: a string is padded with spaces on the right to
    13 characters; [None] is formatted as its [str]; a number has no format
    code ['s'] ([ValueError]). *)
Definition fmt_left13 (x : pyval) : result string :=
  match x with
  | PyStr s => Ok (s +:+ spaces (13 - String.length s))
  | PyNone => Ok ("None" +:+ spaces 9)
  | PyInt _ | PyFloat _ => Raise ValueError
  end.

(** [x / 10.] *)
Definition div_ten (x : pyval) : result float :=
  match x with
  | PyInt z => f ← float_of_Z z; Ok (fdiv f 10%float)
  | PyFloat f => Ok (fdiv f 10%float)
  | PyNone | PyStr _ => Raise TypeError
  end.

(** The line of [rulelist.txt] for one entry [(name, min, max)] of
    [snr_definitions]; the arguments of [format] are evaluated left to
    right before anything is formatted. *)
Definition rulelist_line `{PyRuntime} (snr_per_pixel : bool) (snr_definition : list pyval)
  : result string :=
  name ← or_raise IndexError (snr_definition !! 0%nat);
  lo ← or_raise IndexError (snr_definition !! 1%nat);
  lo ← div_ten lo;
  hi ← or_raise IndexError (snr_definition !! 2%nat);
  hi ← div_ten hi;
  name ← fmt_left13 name;
  Ok (name +:+ " SNR MEDIAN DIV   1.0  " +:+ py_float_fmt1 lo +:+ " " +:+ py_float_fmt1 hi
      +:+ " NM     1.0    " +:+ (if snr_per_pixel then "PIX" else "AA") +:+ newline)%string.

Definition default_snr_definitions : list (list pyval) :=
  [[PyStr "MEDIANSNR"; PyInt 6180; PyInt 6680]].

Fixpoint string_concat (l : list string) : string :=
  match l with
  | [] => EmptyString
  | x :: l' => (x +:+ string_concat l')%string
  end.

(** [FourFS.__init__]; [pid] is [os.getpid()], and [tmp_dir_writable] says
    whether files can be created in the directory [mkdir -p] is asked to
    make ([os.system] does not raise, [open] does).  An argument left at
    [None] takes its default.  Returned with the instance are the files
    written to the temporary directory, in the order they are written; the
    telescope description files that [tar] extracts there are not part of
    the model. *)
Definition FourFS_init `{PyRuntime} (pid : Z) (tmp_dir_writable : bool)
    (path_to_4fs : string) (magnitude : pynum)
    (magnitude_unreddened : bool) (photometric_band : string)
    (snr_list : option (list pynum)) (snr_per_pixel : bool)
    (snr_definitions : option (list (list pyval)))
    (run_lrs run_hrs : bool)
    (lrs_use_snr_definitions hrs_use_snr_definitions : option (list (option string)))
    (identifier : string) : result (FourFS * list (string * string)) :=
  let snr_list := default default_snr_list snr_list in
  let snr_definitions := default default_snr_definitions snr_definitions in
  let lrs_use := default default_use_snr_definitions lrs_use_snr_definitions in
  let hrs_use := default default_use_snr_definitions hrs_use_snr_definitions in
  let lrs := if run_lrs then lrs_use else [] in
  let hrs := if run_hrs then hrs_use else [] in
  _ ← (if run_lrs then py_assert (bool_decide (length lrs = 3%nat)) else Ok tt);
  _ ← (if run_hrs then py_assert (bool_decide (length hrs = 3%nat)) else Ok tt);
  let distinct : gset string := list_to_set (omap nonempty_name (lrs ++ hrs)) in
  let id_string := ("4fs_" +:+ py_str_int pid +:+ "_" +:+ identifier)%string in
  let tmp_dir := os_path_join "/tmp" id_string in
  let self :=
    {| path_to_4fs := path_to_4fs;
       run_lrs := run_lrs;
       run_hrs := run_hrs;
       magnitude := magnitude;
       magnitude_unreddened := magnitude_unreddened;
       photometric_band := photometric_band;
       snr_per_pixel := snr_per_pixel;
       reference_magnitude := 15%float;
       template_counter := 0;
       metadata_store := ∅;
       snr_list := snr_list;
       lrs_use_snr_definitions := lrs;
       hrs_use_snr_definitions := hrs;
       distinct_snr_definitions := distinct;
       tmp_dir := tmp_dir |} in
  _ ← (if tmp_dir_writable then Ok tt else Raise IOError);
  let files :=
    (if run_hrs
     then [(os_path_join tmp_dir "ETC_input_params_HRS.txt", config_ETC_input_params_HRS)]
     else []) ++
    (if run_lrs
     then [(os_path_join tmp_dir "ETC_input_params_LRS.txt", config_ETC_input_params_LRS)]
     else []) in
  lines ← map_result (rulelist_line snr_per_pixel) snr_definitions;
  let files := files ++ [(os_path_join tmp_dir "rulelist.txt",
                          (config_rulelist +:+ string_concat lines)%string)] in
  ruleset ← config_ruleset snr_list distinct;
  let files := files ++ [(os_path_join tmp_dir "ruleset.txt", ruleset)] in
  Ok (self, files).

Definition set_template_counter (self : FourFS) (c : Z) : FourFS :=
  mkFourFS (path_to_4fs self) (run_lrs self) (run_hrs self) (magnitude self)
    (magnitude_unreddened self) (photometric_band self) (snr_per_pixel self)
    (reference_magnitude self) c (metadata_store self) (snr_list self)
    (lrs_use_snr_definitions self) (hrs_use_snr_definitions self)
    (distinct_snr_definitions self) (tmp_dir self).

Definition set_metadata_store (self : FourFS) (m : gmap Z loc) : FourFS :=
  mkFourFS (path_to_4fs self) (run_lrs self) (run_hrs self) (magnitude self)
    (magnitude_unreddened self) (photometric_band self) (snr_per_pixel self)
    (reference_magnitude self) (template_counter self) m (snr_list self)
    (lrs_use_snr_definitions self) (hrs_use_snr_definitions self)
    (distinct_snr_definitions self) (tmp_dir self).

(* ===================================================================== *)
(** * FourFS.make_fits_spectral_template *)
(* ===================================================================== *)

(** The primary HDU handed to [writeto]: the data and the header cards. *)
Record FitsTemplate : Type := mkFitsTemplate {
  hdu_data : list float;
  CRVAL1 : float;
  CDELT1 : float;
  ABMAG : float;
  RESOLUTN : option float
}.

(** [magnitude -= input_spectrum.metadata["A_<band>"]] *)
Definition unredden (h : heap) (input_spectrum : Spectrum) (band : string)
    (magnitude : float) : result float :=
  md ← or_raise TypeError (metadata input_spectrum);
  a ← dict_getitem h md ("A_" +:+ band);
  match a with
  | PyFloat x => Ok (fsub magnitude x)
  | PyInt z => x ← float_of_Z z; Ok (fsub magnitude x)
  | _ => Raise TypeError
  end.

(** [pow(10, -0.4 * (self.reference_magnitude - magnitude))] *)
Definition renormalisation_factor `{PyRuntime} (self : FourFS) (magnitude : float) : float :=
  py_pow 10%float (fmul (-0.4)%float (fsub (reference_magnitude self) magnitude)).

(** The magnitude the template is renormalised from: the photometry of the
    data about to be emitted, less the reddening when
    [magnitude_unreddened] is set. *)
Definition template_magnitude `{PyRuntime} (self : FourFS) (h : heap)
    (input_spectrum : Spectrum) (data : list float) : result float :=
  magnitude ← photometry (photometric_band self) (wavelengths input_spectrum) data;
  if magnitude_unreddened self
  then unredden h input_spectrum (photometric_band self) magnitude
  else Ok magnitude.

(** The data before renormalisation; the flag tells whether [data] is the
    very array [input_spectrum.values] (then [data *= ...] writes into it). *)
Definition template_data (input_spectrum : Spectrum)
    (input_spectrum_continuum_normalised : option Spectrum) (continuum_only : bool)
  : result (list float * bool) :=
  let flux := values input_spectrum in
  match input_spectrum_continuum_normalised with
  | Some cn =>
      _ ← py_assert (bool_decide (raster_hash input_spectrum = raster_hash cn));
      if negb continuum_only then Ok (flux, true)
      else data ← np_div flux (values cn); Ok (data, false)
  | None => Ok (flux, true)
  end.

(** [hdu_1.header[key] = value] for a float value: astropy refuses NaN and
    the infinities with a [ValueError]. *)
Definition header_card (value : float) : result float :=
  if PrimFloat.is_nan value || PrimFloat.is_infinity value then Raise ValueError
  else Ok value.

(** Returns the HDU written to [output_filename] and the input spectrum as
    it is left behind: its [values] are the renormalised data when [data]
    was that array. [resolution] is what [wavelength_raster / resolution]
    divides by. *)
Definition make_fits_spectral_template `{PyRuntime} (self : FourFS) (h : heap)
    (input_spectrum : Spectrum) (input_spectrum_continuum_normalised : option Spectrum)
    (resolution : option float) (continuum_only : bool)
  : result (FitsTemplate * Spectrum) :=
  let wavelength_raster := wavelengths input_spectrum in
  '(data, in_place) ← template_data input_spectrum input_spectrum_continuum_normalised
                        continuum_only;
  lambda_min ← np_min wavelength_raster;
  delta_lambda ← match wavelength_raster with
                 | w0 :: w1 :: _ => Ok (fsub w1 w0)
                 | _ => Raise IndexError
                 end;
  _ ← Spectrum_init wavelength_raster data (map (fun _ => f_zero) wavelength_raster) None;
  magnitude ← template_magnitude self h input_spectrum data;
  let data := map (fun x => fmul x (renormalisation_factor self magnitude)) data in
  crval1 ← header_card lambda_min;
  cdelt1 ← header_card delta_lambda;
  abmag ← header_card (reference_magnitude self);
  resolutn ← match resolution with
             | Some r =>
                 let fwhm_res := np_mean (map (fun w => fdiv w r) wavelength_raster) in
                 v ← header_card fwhm_res; Ok (Some v)
             | None => Ok None
             end;
  Ok (mkFitsTemplate data crval1 cdelt1 abmag resolutn,
      if (in_place : bool)
      then mkSpectrum (wavelengths input_spectrum) data (value_errors input_spectrum)
             (metadata input_spectrum) (raster_hash input_spectrum)
      else input_spectrum).

(* ===================================================================== *)
(** * FourFS.generate_4fs_template_list *)
(* ===================================================================== *)

Definition template_list_header : string :=
  "#OBJECTNAME           FILENAME                                                 RULESET SIZE REDSHIFT MAG  MAG_RANGE
".

(** One line of the template list for a template, an SNR and an SNR definition. *)
Definition template_line `{PyRuntime} (self : FourFS) (snr : pynum)
    (snr_definition : string) : result string :=
  s ← fmt_1f snr;
  let c := py_str_int (template_counter self) in
  Ok ("template_" +:+ c +:+ "_SNR" +:+ s +:+ "_" +:+ snr_definition +:+ " "
      +:+ os_path_join (tmp_dir self) ("template_" +:+ c +:+ ".fits") +:+ " "
      +:+ ("goodSNR" +:+ s +:+ "_" +:+ snr_definition) +:+ " "
      +:+ "0.0" +:+ " " +:+ "0.0" +:+ " "
      +:+ py_float_str (reference_magnitude self) +:+ " "
      +:+ fmt_num (magnitude self) +:+ newline)%string.

(** The line requesting the continuum-only exposure. *)
Definition continuum_line `{PyRuntime} (self : FourFS) : string :=
  let c := py_str_int (template_counter self) in
  ("template_" +:+ c +:+ "_c" +:+ " "
   +:+ os_path_join (tmp_dir self) ("template_" +:+ c +:+ "_c.fits") +:+ " "
   +:+ "goodSNR250c" +:+ " " +:+ "0.0" +:+ " " +:+ "0.0" +:+ " "
   +:+ py_float_str (reference_magnitude self) +:+ " "
   +:+ fmt_num (magnitude self) +:+ newline)%string.

(** The lines of one template: [for snr_definition in
    self.distinct_snr_definitions: for snr in self.snr_list: writestr += ...],
    with the definitions in the order the set yields them. *)
Definition template_lines `{PyRuntime} (self : FourFS) (definitions : list string)
    (writestr : string) : result string :=
  for_each (fun w snr_definition =>
              for_each (fun w snr => line ← template_line self snr snr_definition;
                                     Ok (w +:+ line)%string)
                (snr_list self) w)
    definitions writestr.

(** What the loop of [generate_4fs_template_list] carries. *)
Record gen_state : Type := mkGenState {
  gs_self : FourFS;
  gs_heap : heap;
  gs_writestr : string;
  gs_star_list : list string;
  (** the FITS templates written so far, by file name *)
  gs_written : list (string * FitsTemplate)
}.

(** The body of [for spectra in spectra_list].  [set_order] is the order in
    which the interpreter iterates over a set of strings. *)
Definition generate_step `{PyRuntime} (set_order : gset string -> list string)
    (resolution : option float) (st : gen_state) (spectra : Spectrum * option Spectrum)
  : result gen_state :=
  let '(input_spectrum, input_spectrum_continuum_normalised) := spectra in
  let self := gs_self st in
  let h := gs_heap st in
  let c := py_str_int (template_counter self) in
  md ← or_raise TypeError (metadata input_spectrum);
  obj_name ← dict_getitem h md "Starname";
  (* self.metadata_store[self.template_counter] = input_spectrum.metadata.copy() *)
  let '(l, h) := dict_copy h md in
  let self := set_metadata_store self (<[template_counter self := l]> (metadata_store self)) in
  '(t, input_spectrum) ← make_fits_spectral_template self h input_spectrum
                           input_spectrum_continuum_normalised resolution false;
  let written := gs_written st ++ [(("template_" +:+ c +:+ ".fits")%string, t)] in
  written ← match input_spectrum_continuum_normalised with
            | Some _ =>
                '(t_c, _) ← make_fits_spectral_template self h input_spectrum
                              input_spectrum_continuum_normalised resolution true;
                Ok (written ++ [(("template_" +:+ c +:+ "_c.fits")%string, t_c)])
            | None => Ok written
            end;
  writestr ← template_lines self (set_order (distinct_snr_definitions self))
               (gs_writestr st);
  let writestr := match input_spectrum_continuum_normalised with
                  | Some _ => (writestr +:+ continuum_line self)%string
                  | None => writestr
                  end in
  star_list ← for_each (fun sl snr => s ← fmt_1f snr;
                          Ok (sl ++ [("template_" +:+ c +:+ "_SNR" +:+ s)%string]))
                (snr_list self) (gs_star_list st);
  let star_list := match input_spectrum_continuum_normalised with
                   | Some _ => star_list ++ [("template_" +:+ c +:+ "_c")%string]
                   | None => star_list
                   end in
  Ok (mkGenState (set_template_counter self (template_counter self + 1)) h
        writestr star_list written).

Record template_list : Type := mkTemplateList {
  template_file : string;
  template_numbers : list Z
}.

(** [resolution] is [None] when the caller passes [resolution=None]; the
    templates are then made with [resolution=False], otherwise with
    [resolution=True]. *)
Definition generate_4fs_template_list `{PyRuntime} (set_order : gset string -> list string)
    (self : FourFS) (h : heap) (spectra_list : list (Spectrum * option Spectrum))
    (resolution : option float) : result (FourFS * heap * template_list) :=
  let template_number_first := template_counter self in
  let res_flag := Some (match resolution with Some _ => f_one | None => f_zero end) in
  st ← for_each (generate_step set_order res_flag) spectra_list
         (mkGenState self h template_list_header [] []);
  let self := gs_self st in
  let template_number_last := template_counter self - 1 in
  Ok (self, gs_heap st,
      mkTemplateList (gs_writestr st)
        (seqZ template_number_first (template_number_last + 1 - template_number_first))).

(* ===================================================================== *)
(** * The files 4FS leaves in its output directory *)
(* ===================================================================== *)

(** One row of the binary table in HDU 2 of a [specout_*.fits] file. *)
Record pixel : Type := mkPixel {
  LAMBDA : float;
  REALISATION : float;
  FLUENCE : float;
  SKY : float;
  SNR : float
}.

Inductive file : Type :=
  | TextFile (lines : list string)
  | FitsFile (table : list pixel).

Abbreviation filesystem := (gmap string file).

(** [fits.open(filename)[2].data] *)
Definition fits_open (fs : filesystem) (filename : string) : result (list pixel) :=
  match fs !! filename with
  | Some (FitsFile t) => Ok t
  | _ => Raise IOError
  end.

(** [open(filename)], read line by line. *)
Definition open_text (fs : filesystem) (filename : string) : result (list string) :=
  match fs !! filename with
  | Some (TextFile ls) => Ok ls
  | _ => Raise IOError
  end.

(** [os.path.exists(filename)] *)
Definition os_path_exists (fs : filesystem) (filename : string) : bool :=
  bool_decide (is_Some (fs !! filename)).

(* ===================================================================== *)
(** * FourFS.combine_spectra: the run summary *)
(* ===================================================================== *)

(** The body of [for line in f]: what one line of [4FS_ETC_summary.txt]
    does to [exposure_times]. *)
Definition summary_line `{PyRuntime} (exposure_times : gmap string float) (line : string)
  : result (gmap string float) :=
  let words := String.words line in
  if decide (length words < 6)%nat then Ok exposure_times
  else
    w0 ← or_raise IndexError (words !! 0%nat);
    match py_int w0 with
    | None => Ok exposure_times
    | Some run_counter =>
        w5 ← or_raise IndexError (words !! 5%nat);
        t_exposure ← (if bool_decide (w5 = "nan") then Ok f_nan
                      else or_raise ValueError (py_float w5));
        Ok (<[py_str_int run_counter := t_exposure]> exposure_times)
    end.

Definition read_exposure_times `{PyRuntime} (fs : filesystem) (path : string)
  : result (gmap string float) :=
  lines ← open_text fs (os_path_join path "4FS_ETC_summary.txt");
  for_each summary_line lines ∅.

(** [exposure_times.get(str(run_counter), np.nan)] *)
Definition exposure_of (exposure_times : gmap string float) (run_counter : Z) : float :=
  default f_nan (exposure_times !! py_str_int run_counter).

(* ===================================================================== *)
(** * FourFS.combine_spectra: stitching the arms *)
(* ===================================================================== *)

Definition bands : list string := ["blue"; "green"; "red"]%string.

Definition lrs_cut_blue : float := 5327.7%float.
Definition lrs_cut_red : float := 7031.7%float.

Definition in_blue_window (w : float) : bool := fle w lrs_cut_blue.
Definition in_green_window (w : float) : bool := fgt w lrs_cut_blue && fle w lrs_cut_red.
Definition in_red_window (w : float) : bool := fgt w lrs_cut_red.

(** The tuple [indices] of the LRS branch, from the three wavelength arrays. *)
Definition lrs_indices (wavelengths : list (list float)) : result (list (list nat)) :=
  w0 ← or_raise IndexError (wavelengths !! 0%nat);
  w1 ← or_raise IndexError (wavelengths !! 1%nat);
  w2 ← or_raise IndexError (wavelengths !! 2%nat);
  Ok [np_where (map in_blue_window w0);
      np_where (map in_green_window w1);
      np_where (map in_red_window w2)].

(** [[item[indices[j]] for j, item in enumerate(items)]] *)
Definition apply_indices {A} (indices : list (list nat)) (items : list (list A))
  : result (list (list A)) :=
  map_result (fun ji => idx ← or_raise IndexError (indices !! ji.1); np_take ji.2 idx)
    (imap (fun j item => (j, item)) items).

(** The file of one arm of one exposure. *)
Definition signal_filename `{PyRuntime} (path setup : string) (i : Z) (snr : pynum)
    (snr_definition band : string) : result string :=
  s ← fmt_1f snr;
  Ok (os_path_join path
        ("specout_template_template_" +:+ py_str_int i +:+ "_SNR" +:+ s +:+ "_"
         +:+ snr_definition +:+ "_" +:+ setup +:+ "_" +:+ band +:+ ".fits")%string).

Definition continuum_filename (path setup : string) (i : Z) (band : string) : string :=
  os_path_join path
    ("specout_template_template_" +:+ py_str_int i +:+ "_c_" +:+ setup +:+ "_"
     +:+ band +:+ ".fits")%string.

(** The body of [for j, band in enumerate(bands)]: the table of one arm, or
    the all-empty placeholder when the arm has no SNR definition. *)
Definition load_band `{PyRuntime} (fs : filesystem) (path setup : string)
    (snr_definitions : list (option string)) (i : Z) (snr : pynum)
    (jband : nat * string) : result (list pixel) :=
  snr_definition ← or_raise IndexError (snr_definitions !! jband.1);
  match nonempty_name snr_definition with
  | Some name =>
      filename ← signal_filename path setup i snr name jband.2;
      fits_open fs filename
  | None => Ok []
  end.

(** What the stitching leaves for the rest of the iteration. *)
Record stitched : Type := mkStitched {
  wavelengths_final : list float;
  fluxes_final : list float;
  snrs_final : list float;
  (** the per-arm fluences, truncated in LRS mode *)
  arm_fluences : list (list float)
}.

(** [item['REALISATION'] - item['SKY']] *)
Definition sky_subtracted (item : pixel) : float := fsub (REALISATION item) (SKY item).

Definition stitch_arms (setup : string) (d : list (list pixel)) : result stitched :=
  let wavelengths := map (map LAMBDA) d in
  let fluxes := map (map sky_subtracted) d in
  let fluences := map (map FLUENCE) d in
  let snrs := map (map SNR) d in
  '(wavelengths, fluxes, fluences, snrs) ←
    (if bool_decide (setup = "LRS") then
       indices ← lrs_indices wavelengths;
       w ← apply_indices indices wavelengths;
       fx ← apply_indices indices fluxes;
       fl ← apply_indices indices fluences;
       sn ← apply_indices indices snrs;
       Ok (w, fx, fl, sn)
     else Ok (wavelengths, fluxes, fluences, snrs));
  wavelengths_final ← np_concatenate wavelengths;
  fluxes_final ← np_concatenate fluxes;
  snrs_final ← np_concatenate snrs;
  Ok (mkStitched wavelengths_final fluxes_final snrs_final fluences).

(** The pixels of the three arms that fall in the arm's own LRS window,
    blue, then green, then red. *)
Definition lrs_window_pixels (blue green red : list pixel) : list pixel :=
  List.filter (fun p => in_blue_window (LAMBDA p)) blue
  ++ List.filter (fun p => in_green_window (LAMBDA p)) green
  ++ List.filter (fun p => in_red_window (LAMBDA p)) red.

(* ===================================================================== *)
(** * FourFS.combine_spectra: continuum recovery and bad pixels *)
(* ===================================================================== *)

(** [fluence_c * max(fluence) / max(fluence_c)], evaluated left to right. *)
Definition rescale_arm (arm : list float * list float) : result (list float) :=
  let '(fluence, fluence_c) := arm in
  m ← py_max fluence;
  let scaled := map (fun c => fmul c m) fluence_c in
  m_c ← py_max fluence_c;
  Ok (map (fun c => fdiv c m_c) scaled).

(** [len(fluence) > 0] *)
Definition has_signal (arm : list float * list float) : bool :=
  negb (bool_decide (length arm.1 = 0%nat)).

(** The truncated per-arm continuum fluences of the continuum-only exposure. *)
Definition continuum_fluences (fs : filesystem) (path setup : string) (i : Z)
  : result (list (list float)) :=
  d_c ← map_result (fits_open fs) (map (continuum_filename path setup i) bands);
  let wavelengths_c := map (map LAMBDA) d_c in
  let fluences_c := map (map FLUENCE) d_c in
  if bool_decide (setup = "LRS") then
    indices ← lrs_indices wavelengths_c;
    apply_indices indices fluences_c
  else Ok fluences_c.

(** [fluxes_final_c] *)
Definition stitch_continuum (fluences fluences_c : list (list float)) : result (list float) :=
  arms ← map_result rescale_arm (List.filter has_signal (zip fluences fluences_c));
  np_concatenate arms.

Definition bad_pixel (v : float) : bool := fgt v f_two || fle v f_zero.

(** [a[np.where((a > 2.0) | (a <= 0.00))[0]] = 0] *)
Definition remove_bad_pixels (normalised_fluxes_final : list float) : result (list float) :=
  np_put normalised_fluxes_final (np_where (map bad_pixel normalised_fluxes_final)) f_zero.

(** [fluxes_final / fluxes_final_c], before the bad pixels are removed. *)
Definition normalise_by_continuum (fs : filesystem) (path setup : string) (i : Z)
    (st : stitched) : result (list float) :=
  fluences_c ← continuum_fluences fs path setup i;
  fluxes_final_c ← stitch_continuum (arm_fluences st) fluences_c;
  np_div (fluxes_final st) fluxes_final_c.

(** The [if have_continuum_version:] block: [normalised_fluxes_final]. *)
Definition recover_continuum (fs : filesystem) (path setup : string) (i : Z)
    (st : stitched) : result (list float) :=
  normalised_fluxes_final ← normalise_by_continuum fs path setup i st;
  remove_bad_pixels normalised_fluxes_final.

(** ** The stitched continuum, arm by arm *)

(** The peak of an arm, as [max] finds it. *)
Definition peak (l : list float) : float :=
  match l with
  | [] => f_nan
  | x :: l' => fold_left (fun m item => if fgt item m then item else m) l' x
  end.

(** The continuum fluence of an arm as the code rescales it,
    [fluence_c * max(fluence) / max(fluence_c)] read left to right: each
    pixel is multiplied by the peak of the signal, and the rounded product
    is divided by the peak of the continuum. *)
Definition rescaled_continuum (arm : list float * list float) : list float :=
  map (fun c => fdiv (fmul c (peak arm.1)) (peak arm.2)) arm.2.

(** The stitched continuum of the code: the rescaled arms whose truncated
    signal fluence is not empty, concatenated. *)
Definition stitched_continuum (fluences fluences_c : list (list float)) : list float :=
  concat (map rescaled_continuum (List.filter has_signal (zip fluences fluences_c))).

(** ** The stitched continuum in the words of the specification *)

(** [continuum_fluence *= max(signal_fluence)/max(continuum_fluence)]: each
    pixel is multiplied by the one factor, the quotient of the two peaks. *)
Definition spec_rescaled_continuum (arm : list float * list float) : list float :=
  map (fun c => fmul c (fdiv (peak arm.1) (peak arm.2))) arm.2.

Definition spec_stitched_continuum (fluences fluences_c : list (list float)) : list float :=
  concat (map spec_rescaled_continuum (List.filter has_signal (zip fluences fluences_c))).

(** A bad pixel becomes 0, any other pixel keeps its value. *)
Definition zero_bad_pixel (v : float) : float :=
  if fgt v f_two || fle v f_zero then f_zero else v.

(* ===================================================================== *)
(** * FourFS.combine_spectra: metadata and the two loops *)
(* ===================================================================== *)

Definition pyval_of_name (d : option string) : pyval :=
  match d with Some s => PyStr s | None => PyNone end.

Fixpoint all_names (l : list (option string)) : option (list string) :=
  match l with
  | [] => Some []
  | Some s :: l' => cons s <$> all_names l'
  | None :: _ => None
  end.

(** The value stored under ['snr_definition']: the shared definition when
    the three arms agree, else [",".join(snr_definitions)], a [TypeError]
    when an entry is [None]. *)
Definition snr_definition_value (snr_definitions : list (option string)) : result pyval :=
  d0 ← or_raise IndexError (snr_definitions !! 0%nat);
  d1 ← or_raise IndexError (snr_definitions !! 1%nat);
  same ← (if bool_decide (d0 = d1)
          then d2 ← or_raise IndexError (snr_definitions !! 2%nat);
               Ok (bool_decide (d1 = d2))
          else Ok false);
  if (same : bool) then Ok (pyval_of_name d0)
  else names ← or_raise TypeError (all_names snr_definitions);
       Ok (PyStr (py_join "," names)).

(** ["pixel" if self.snr_per_pixel else "A"] *)
Definition snr_per (self : FourFS) : string :=
  if snr_per_pixel self then "pixel" else "A".

(** The assignments [metadata[...] = ...] made on the object found in
    [metadata_store], in program order. *)
Definition attach_metadata (self : FourFS) (h : heap) (metadata : loc)
    (exposure_times : gmap string float) (snr_definitions : list (option string))
    (snr : pynum) (run_counter : Z) : result heap :=
  let h := dict_setitem h metadata "continuum_normalised" (PyInt 0) in
  snr_f ← py_float_of_num snr;
  let h := dict_setitem h metadata "SNR" (PyFloat snr_f) in
  let h := dict_setitem h metadata "SNR_per" (PyStr (snr_per self)) in
  mag_f ← py_float_of_num (magnitude self);
  let h := dict_setitem h metadata "magnitude" (PyFloat mag_f) in
  let h := dict_setitem h metadata "exposure"
             (PyFloat (exposure_of exposure_times run_counter)) in
  sd ← snr_definition_value snr_definitions;
  Ok (dict_setitem h metadata "snr_definition" sd).

(** [output[i][snr]] *)
Record output_entry : Type := mkOutputEntry {
  spectrum : Spectrum;
  spectrum_continuum_normalised : option Spectrum
}.

(** The body of [for snr in self.snr_list], after [run_counter += 1]. *)
Definition combine_pair `{PyRuntime} (self : FourFS) (h : heap) (fs : filesystem)
    (exposure_times : gmap string float) (snr_definitions : list (option string))
    (path setup : string) (i : Z) (snr : pynum) (run_counter : Z)
  : result (heap * output_entry) :=
  d ← map_result (load_band fs path setup snr_definitions i snr)
        (imap (fun j band => (j, band)) bands);
  st ← stitch_arms setup d;
  let continuum_filenames := map (continuum_filename path setup i) bands in
  f0 ← or_raise IndexError (continuum_filenames !! 0%nat);
  let have_continuum_version := os_path_exists fs f0 in
  normalised ← (if (have_continuum_version : bool)
                then n ← recover_continuum fs path setup i st; Ok (Some n)
                else Ok None);
  metadata ← or_raise KeyError (metadata_store self !! i);
  h ← attach_metadata self h metadata exposure_times snr_definitions snr run_counter;
  errors ← np_div (fluxes_final st) (snrs_final st);
  let '(l, h) := dict_copy h metadata in
  spectrum ← Spectrum_init (wavelengths_final st) (fluxes_final st) errors (Some l);
  match normalised with
  | Some normalised_fluxes_final =>
      let h := dict_setitem h metadata "continuum_normalised" (PyInt 1) in
      errors_n ← np_div normalised_fluxes_final (snrs_final st);
      let '(l_n, h) := dict_copy h metadata in
      spectrum_n ← Spectrum_init (wavelengths_final st) normalised_fluxes_final
                     errors_n (Some l_n);
      Ok (h, mkOutputEntry spectrum (Some spectrum_n))
  | None => Ok (h, mkOutputEntry spectrum None)
  end.

(** The dictionary [output], as the sequence of its assignments: one item
    per [output[i] = {}], holding one item per [output[i][snr] = ...], in
    program order.  In the Python dictionary a later item with an equal key
    replaces an earlier one: [dict_of_assignments] is that dictionary. *)
Definition output_dict : Type := list (Z * list (pynum * output_entry)).

Record combine_state : Type := mkCombineState {
  cs_heap : heap;
  cs_run_counter : Z;
  cs_entries : list (pynum * output_entry)
}.

Definition combine_snr_step `{PyRuntime} (self : FourFS) (fs : filesystem)
    (exposure_times : gmap string float) (snr_definitions : list (option string))
    (path setup : string) (i : Z) (st : combine_state) (snr : pynum)
  : result combine_state :=
  let run_counter := cs_run_counter st + 1 in
  '(h, entry) ← combine_pair self (cs_heap st) fs exposure_times snr_definitions
                  path setup i snr run_counter;
  Ok (mkCombineState h run_counter (cs_entries st ++ [(snr, entry)])).

Definition combine_template_step `{PyRuntime} (self : FourFS) (fs : filesystem)
    (exposure_times : gmap string float) (snr_definitions : list (option string))
    (path setup : string) (st : heap * Z * output_dict) (i : Z)
  : result (heap * Z * output_dict) :=
  let '(h, run_counter, output) := st in
  st' ← for_each (combine_snr_step self fs exposure_times snr_definitions path setup i)
          (snr_list self) (mkCombineState h run_counter []);
  Ok (cs_heap st', cs_run_counter st', output ++ [(i, cs_entries st')]).

(** [FourFS.combine_spectra]: the heap it leaves and the output. *)
Definition combine_spectra `{PyRuntime} (self : FourFS) (h : heap) (fs : filesystem)
    (template_numbers : list Z) (path setup : string) : result (heap * output_dict) :=
  let snr_definitions :=
    if bool_decide (setup = "LRS") then lrs_use_snr_definitions self
    else hrs_use_snr_definitions self in
  let snr_definitions := reverse snr_definitions in
  exposure_times ← read_exposure_times fs path;
  '(h, _, output) ← for_each
      (combine_template_step self fs exposure_times snr_definitions path setup)
      template_numbers (h, 0, []);
  Ok (h, output).

(* ===================================================================== *)
(** * FourFS.process_spectra *)
(* ===================================================================== *)

(** [FourFS.process_spectra].  The 4FS binary is outside the program:
    [binary_exists] is [os_path.exists(fourfs_command)], and [fs] is the
    working directory as the runs of 4FS leave it.  [output] is the
    sequence of the assignments [output[mode] = stitched_spectra]. *)
Definition process_spectra `{PyRuntime} (set_order : gset string -> list string)
    (binary_exists : bool) (fs : filesystem) (self : FourFS) (h : heap)
    (spectra_list : list (Spectrum * option Spectrum)) (resolution : option float)
  : result (FourFS * heap * list (string * output_dict)) :=
  '(self, h, template_information) ←
    generate_4fs_template_list set_order self h spectra_list resolution;
  _ ← py_assert binary_exists;
  '(h, output) ←
    for_each (fun (st : heap * list (string * output_dict)) (m : string * bool) =>
                let '(h, output) := st in
                let '(mode, active) := m in
                if (active : bool) then
                  '(h, stitched_spectra) ←
                    combine_spectra self h fs (template_numbers template_information)
                      ("outdir_" +:+ mode) mode;
                  Ok (h, output ++ [(mode, stitched_spectra)])
                else Ok (h, output))
      [("LRS"%string, run_lrs self); ("HRS"%string, run_hrs self)] (h, []);
  Ok (self, h, output).


(* ===================================================================== *)
(** * Notions used to state the properties of the model *)
(* ===================================================================== *)

(** [h'] keeps every object of [h] that is not one of the objects [S]. *)
Definition heap_extends (S : loc -> Prop) (h h' : heap) : Prop :=
  dom h ⊆ dom h' /\ forall l, l ∈ dom h -> ~ S l -> h' !! l = h !! l.

(** The objects the store holds, and the heaps in which they all exist. *)
Definition is_store_loc (self : FourFS) (l : loc) : Prop :=
  exists i, metadata_store self !! i = Some l.

Definition store_allocated (self : FourFS) (h : heap) : Prop :=
  forall i l, metadata_store self !! i = Some l -> l ∈ dom h.

(** The metadata of a spectrum, read in a heap. *)
Definition metadata_of (h : heap) (s : Spectrum) : pydict :=
  match metadata s with
  | Some l => dict_get h l
  | None => ∅
  end.

(** The metadata of [s] is an object of its own: allocated after [h0],
    and not an object of the store. *)
Definition own_metadata (self : FourFS) (h0 h : heap) (s : Spectrum) : Prop :=
  exists l, metadata s = Some l /\ l ∉ dom h0 /\ l ∈ dom h /\ ~ is_store_loc self l.

(** Both spectra of an entry carry their own metadata, with the exposure
    time [x]. *)
Definition entry_exposure (self : FourFS) (h0 h : heap) (x : float) (e : output_entry) : Prop :=
  own_metadata self h0 h (spectrum e) /\
  metadata_of h (spectrum e) !! "exposure" = Some (PyFloat x) /\
  forall sn, spectrum_continuum_normalised e = Some sn ->
    own_metadata self h0 h sn /\
    metadata_of h sn !! "exposure" = Some (PyFloat x) /\
    metadata sn <> metadata (spectrum e).

(** The run number a summary line is kept for. *)
Definition line_run `{PyRuntime} (line : string) : option Z :=
  let words := String.words line in
  if decide (length words < 6)%nat then None
  else words !! 0%nat ≫= py_int.

(** The exposure time a kept summary line gives. *)
Definition line_time `{PyRuntime} (line : string) : float :=
  match String.words line !! 5%nat with
  | Some w5 => if bool_decide (w5 = "nan") then f_nan else default f_nan (py_float w5)
  | None => f_nan
  end.

(** The exposure time the summary gives for run [r]: that of the last line
    with six fields or more whose first field reads as the integer [r], and
    NaN when there is no such line. *)
Definition summary_exposure `{PyRuntime} (lines : list string) (r : Z) : float :=
  match List.find (fun line => bool_decide (line_run line = Some r)) (rev lines) with
  | Some line => line_time line
  | None => f_nan
  end.

(** Helpers for reasoning about binary64 mantissas. *)
Fixpoint shift_left (n : nat) (m : positive) : positive :=
  match n with O => m | S n' => xO (shift_left n' m) end.

Fixpoint iter_nat {A} (f : A -> A) (n : nat) (x : A) : A :=
  match n with O => x | S n' => iter_nat f n' (f x) end.

(** An order in which a set of strings can be iterated: each element once. *)
Definition set_order_valid (set_order : gset string -> list string) : Prop :=
  forall s, set_order s ≡ₚ elements s.

(** The two results of manifest building agree on everything but the text
    of the manifest. *)
Definition same_but_writestr (st1 st2 : gen_state) : Prop :=
  gs_self st1 = gs_self st2 /\ gs_heap st1 = gs_heap st2 /\
  gs_star_list st1 = gs_star_list st2 /\ gs_written st1 = gs_written st2.

(** The state of manifest building with text, names and files put before
    what it has accumulated. *)
Definition add_prefix (w : string) (sl : list string) (wr : list (string * FitsTemplate))
    (st : gen_state) : gen_state :=
  mkGenState (gs_self st) (gs_heap st) (w +:+ gs_writestr st) (sl ++ gs_star_list st)
    (wr ++ gs_written st).

(** The modes an instance runs, in the order [process_spectra] visits them. *)
Definition active_modes (self : FourFS) : list string :=
  (if run_lrs self then ["LRS"%string] else []) ++
  (if run_hrs self then ["HRS"%string] else []).

(** The Python dictionary that a sequence of assignments [d[k] = v] builds,
    as a lookup: under [k] is the value of the last assignment to [k]. *)
Definition dict_of_assignments {V} (l : list (Z * V)) (k : Z) : option V :=
  snd <$> List.find (fun kv => bool_decide (kv.1 = k)) (rev l).

(** The keys the combiner assigns in the metadata of a template. *)
Definition written_keys : list string :=
  ["continuum_normalised"; "SNR"; "SNR_per"; "magnitude"; "exposure"; "snr_definition"]%string.

(** [m'] is [m] after assignments to the combiner's keys only: every other
    key is as it was, and no key has gone. *)
Definition dict_written (m m' : pydict) : Prop :=
  (forall k, k ∉ written_keys -> m' !! k = m !! k) /\
  (forall k, is_Some (m !! k) -> is_Some (m' !! k)).

(** [m'] is [m] with all of the combiner's keys written over it. *)
Definition written_over (m m' : pydict) : Prop :=
  dict_written m m' /\ forall k, k ∈ written_keys -> is_Some (m' !! k).

(** Every object of [h] is still in [h'], changed at most by assignments
    to the combiner's keys. *)
Definition heap_written (h h' : heap) : Prop :=
  dom h ⊆ dom h' /\ forall l, l ∈ dom h -> dict_written (dict_get h l) (dict_get h' l).

(** The spectra of an entry and of a whole output, in the order they are
    built. *)
Definition entry_spectra (e : output_entry) : list Spectrum :=
  spectrum e :: option_list (spectrum_continuum_normalised e).

Definition item_spectra (entries : list (pynum * output_entry)) : list Spectrum :=
  concat (map (fun se => entry_spectra se.2) entries).

Definition returned_spectra (out : output_dict) : list Spectrum :=
  concat (map (fun item => item_spectra item.2) out).

(** The spectra of an entry for template [i] carry, in objects of their own
    allocated after [h0], the dictionary the store held for [i] in [h0]
    with the combiner's keys written over it, flagged 0 on the
    flux-calibrated spectrum and 1 on the continuum-normalised one. *)
Definition entry_copy (self : FourFS) (h0 h : heap) (i : Z) (e : output_entry) : Prop :=
  exists ls, metadata_store self !! i = Some ls /\
    own_metadata self h0 h (spectrum e) /\
    written_over (dict_get h0 ls) (metadata_of h (spectrum e)) /\
    metadata_of h (spectrum e) !! "continuum_normalised" = Some (PyInt 0) /\
    forall sn, spectrum_continuum_normalised e = Some sn ->
      own_metadata self h0 h sn /\
      written_over (dict_get h0 ls) (metadata_of h sn) /\
      metadata_of h sn !! "continuum_normalised" = Some (PyInt 1).

(* ===================================================================== *)
(** * A concrete runtime and a small run, for evaluating the model *)
(* ===================================================================== *)

Module Sample.

Fixpoint digits_value (acc : Z) (s : string) : option Z :=
  match s with
  | EmptyString => Some acc
  | String c s' =>
      match Ascii.is_nat c with
      | Some d => digits_value (10 * acc + Z.of_nat d) s'
      | None => None
      end
  end.

Definition unsigned_int (s : string) : option Z :=
  match s with
  | EmptyString => None
  | _ => digits_value 0 s
  end.

(** [int(s)] on a plain decimal numeral with an optional sign. *)
Definition int_of_str (s : string) : option Z :=
  match s with
  | String "-" s' => Z.opp <$> unsigned_int s'
  | String "+" s' => unsigned_int s'
  | _ => unsigned_int s
  end.

(** Splits at the first ["."]. *)
Fixpoint split_point (s : string) : string * option string :=
  match s with
  | EmptyString => (EmptyString, None)
  | String "." s' => (EmptyString, Some s')
  | String c s' => let '(a, b) := split_point s' in (String c a, b)
  end.

Definition float_of_int (z : Z) : float :=
  SF2Prim (binary_normalize prec emax z 0 false).

(** [float(s)] on [digits] or [digits.digits]: the quotient of two
    integers, correctly rounded while both are below 2^53. *)
Definition float_of_str (s : string) : option float :=
  match split_point s with
  | (ip, None) => float_of_int <$> unsigned_int ip
  | (ip, Some fp) =>
      match unsigned_int ip, unsigned_int fp with
      | Some a, Some b =>
          let k := 10 ^ Z.of_nat (String.length fp) in
          Some (fdiv (float_of_int (a * k + b)) (float_of_int k))
      | _, _ => None
      end
  end.

(** The integer a float is equal to, when it is one. *)
Definition integral_value (f : float) : option Z :=
  match Prim2SF f with
  | S754_zero _ => Some 0
  | S754_finite s m e =>
      let v := if Z.leb 0 e then Some (Z.pos m * 2 ^ e)
               else if Z.eqb (Z.pos m mod 2 ^ (- e)) 0 then Some (Z.pos m / 2 ^ (- e))
               else None in
      (fun z => if s then - z else z) <$> v
  | _ => None
  end.

(** [str] and ['{:.1f}'] of a float that is an integer below 10^16;
    other floats print as a placeholder. *)
Definition float_str (f : float) : string :=
  match integral_value f with
  | Some z => if decide (Z.abs z < 10 ^ 16) then pretty z +:+ ".0" else "<float>"
  | None => "<float>"
  end.

(** [pow] where the exponent is a zero or one; NaN elsewhere. *)
Definition pow (x y : float) : float :=
  if PrimFloat.eqb y 0 then 1%float
  else if PrimFloat.eqb y 1 then x
  else PrimFloat.nan.

Definition mean (l : list float) : float :=
  fdiv (fold_left PrimFloat.add l 0%float) (float_of_int (Z.of_nat (length l))).

#[export] Instance runtime : PyRuntime := {|
  py_int := int_of_str;
  py_float := float_of_str;
  py_float_str := float_str;
  py_float_fmt1 := float_str;
  py_pow := pow;
  np_mean := mean;
  photometry := fun _ _ _ => Ok 15%float;
  hash_numpy_array := fun w => py_join "," (map float_str w);
  config_ETC_input_params_HRS := "# HRS parameters";
  config_ETC_input_params_LRS := "# LRS parameters";
  config_rulelist := "# rule list";
  config_ruleset := fun _ _ => Ok "# rule set"%string
|}.

(** A set of strings iterated in the order of [elements], and in the
    opposite order. *)
Definition order_a (s : gset string) : list string := elements s.
Definition order_b (s : gset string) : list string := reverse (elements s).

(** An LRS-only instance for SNR 20, 50 and 80, one definition on all arms. *)
Definition fourfs : result (FourFS * list (string * string)) :=
  FourFS_init 4242 true "/opt/4fs" (NInt 14) false "SDSS_r"
    (Some [NInt 20; NInt 50; NInt 80]) true None true false None None "x".

(** An instance with two SNR definitions. *)
Definition fourfs2 : result (FourFS * list (string * string)) :=
  FourFS_init 4242 true "/opt/4fs" (NInt 14) false "SDSS_r" (Some [NInt 20]) true None
    true false (Some [Some "A"; Some "B"; Some "A"]%string) None "x".

(** The caller's heap: one metadata dictionary, at location 1. *)
Definition caller_heap : heap := {[ 1%positive := {[ "Starname" := PyStr "sun" ]} ]}.

Definition raster : list float := [5000; 6000; 8000]%float.

Definition star : Spectrum :=
  mkSpectrum raster [1; 2; 3]%float [0; 0; 0]%float (Some 1%positive)
    (hash_numpy_array raster).

Definition star_cn : Spectrum :=
  mkSpectrum raster [1; 0.5; 1]%float [0; 0; 0]%float (Some 1%positive)
    (hash_numpy_array raster).

(** A spectrum whose raster does not start at its smallest wavelength. *)
Definition star_unsorted : Spectrum :=
  mkSpectrum [8000; 5000; 6000]%float [1; 2; 3]%float [0; 0; 0]%float (Some 1%positive)
    (hash_numpy_array [8000; 5000; 6000]%float).

Definition px (l r f s n : float) : pixel := mkPixel l r f s n.

Definition blue_arm : list pixel :=
  [px 5000 12 10 2 10; px 5300 13 10 1 10; px 5400 9 10 1 10]%float.
Definition green_arm : list pixel :=
  [px 5300 9 10 1 10; px 5400 31 10 1 10; px 7000 9 20 1 10; px 7100 9 10 1 10]%float.
Definition red_arm : list pixel :=
  [px 7000 9 10 1 10; px 7100 0 10 1 10; px 8000 9 10 1 10]%float.

Definition blue_cont : list pixel :=
  [px 5000 0 5 0 250; px 5300 0 5 0 250; px 5400 0 5 0 250]%float.
Definition green_cont : list pixel :=
  [px 5300 0 5 0 250; px 5400 0 5 0 250; px 7000 0 10 0 250; px 7100 0 5 0 250]%float.
Definition red_cont : list pixel :=
  [px 7000 0 5 0 250; px 7100 0 5 0 250; px 8000 0 5 0 250]%float.

Definition summary : list string :=
  ["# 4FS summary";
   "1 template_0_SNR20.0 LRS x y 300.0 z";
   "run template_0_SNR50.0 LRS x y 200.0 z";
   "3 template_0_SNR80.0 LRS x y 120.5 z";
   "4 template_0_c LRS x y nan z";
   "7 short line"]%string.

Definition signal_files (snr : string) : list (string * file) :=
  [(("outdir_LRS/specout_template_template_0_SNR" +:+ snr +:+ "_MEDIANSNR_LRS_blue.fits")%string,
    FitsFile blue_arm);
   (("outdir_LRS/specout_template_template_0_SNR" +:+ snr +:+ "_MEDIANSNR_LRS_green.fits")%string,
    FitsFile green_arm);
   (("outdir_LRS/specout_template_template_0_SNR" +:+ snr +:+ "_MEDIANSNR_LRS_red.fits")%string,
    FitsFile red_arm)].

Definition continuum_files : list (string * file) :=
  [("outdir_LRS/specout_template_template_0_c_LRS_blue.fits"%string, FitsFile blue_cont);
   ("outdir_LRS/specout_template_template_0_c_LRS_green.fits"%string, FitsFile green_cont);
   ("outdir_LRS/specout_template_template_0_c_LRS_red.fits"%string, FitsFile red_cont)].

(** The HRS output of the same template at SNR 20, arms unchanged. *)
Definition outdir_hrs : filesystem :=
  list_to_map
    [("outdir_HRS/specout_template_template_0_SNR20.0_MEDIANSNR_HRS_blue.fits"%string,
      FitsFile blue_arm);
     ("outdir_HRS/specout_template_template_0_SNR20.0_MEDIANSNR_HRS_green.fits"%string,
      FitsFile green_arm);
     ("outdir_HRS/specout_template_template_0_SNR20.0_MEDIANSNR_HRS_red.fits"%string,
      FitsFile red_arm)].

(** The output directory with and without the continuum-only exposure. *)
Definition outdir_no_continuum : filesystem :=
  list_to_map (("outdir_LRS/4FS_ETC_summary.txt"%string, TextFile summary)
               :: signal_files "20.0" ++ signal_files "50.0" ++ signal_files "80.0").

Definition outdir : filesystem :=
  list_to_map (("outdir_LRS/4FS_ETC_summary.txt"%string, TextFile summary)
               :: signal_files "20.0" ++ signal_files "50.0" ++ signal_files "80.0"
               ++ continuum_files).

(** The output directory when 4FS leaves no green arm for the
    continuum-only exposure. *)
Definition outdir_partial_continuum : filesystem :=
  delete "outdir_LRS/specout_template_template_0_c_LRS_green.fits"%string outdir.

(** The output directory when the green arm of the first exposure (SNR 20)
    is missing. *)
Definition outdir_missing_arm : filesystem :=
  delete "outdir_LRS/specout_template_template_0_SNR20.0_MEDIANSNR_LRS_green.fits"%string
    outdir.

(** A run summary whose third line has a sixth field that is no number. *)
Definition outdir_bad_summary : filesystem :=
  <["outdir_LRS/4FS_ETC_summary.txt"%string :=
      TextFile ["1 template_0_SNR20.0 LRS x y 300.0 z";
                "# 4FS summary";
                "2 template_0_SNR50.0 LRS x y 12x z"]%string]> outdir.

(** [fourfs] and [fourfs2] as [__init__] leaves them. *)
Definition fresh_instance : FourFS :=
  {| path_to_4fs := "/opt/4fs";
     run_lrs := true;
     run_hrs := false;
     magnitude := NInt 14;
     magnitude_unreddened := false;
     photometric_band := "SDSS_r";
     snr_per_pixel := true;
     reference_magnitude := 15%float;
     template_counter := 0;
     metadata_store := ∅;
     snr_list := [NInt 20; NInt 50; NInt 80];
     lrs_use_snr_definitions := default_use_snr_definitions;
     hrs_use_snr_definitions := [];
     distinct_snr_definitions := {[ "MEDIANSNR"%string ]};
     tmp_dir := "/tmp/4fs_4242_x" |}.

Definition fresh_instance2 : FourFS :=
  {| path_to_4fs := "/opt/4fs";
     run_lrs := true;
     run_hrs := false;
     magnitude := NInt 14;
     magnitude_unreddened := false;
     photometric_band := "SDSS_r";
     snr_per_pixel := true;
     reference_magnitude := 15%float;
     template_counter := 0;
     metadata_store := ∅;
     snr_list := [NInt 20];
     lrs_use_snr_definitions := [Some "A"; Some "B"; Some "A"]%string;
     hrs_use_snr_definitions := [];
     distinct_snr_definitions := {[ "A"%string; "B"%string ]};
     tmp_dir := "/tmp/4fs_4242_x" |}.

Definition spectra_list : list (Spectrum * option Spectrum) := [(star, Some star_cn)].

(** The lines of the manifest of [fresh_instance2]. *)
Definition line_A : string :=
  "template_0_SNR20.0_A /tmp/4fs_4242_x/template_0.fits goodSNR20.0_A 0.0 0.0 15.0 14"
  +:+ newline.
Definition line_B : string :=
  "template_0_SNR20.0_B /tmp/4fs_4242_x/template_0.fits goodSNR20.0_B 0.0 0.0 15.0 14"
  +:+ newline.
Definition line_c : string :=
  "template_0_c /tmp/4fs_4242_x/template_0_c.fits goodSNR250c 0.0 0.0 15.0 14"
  +:+ newline.

(** The instance and the heap once the manifest of [(star, star_cn)] is
    built: template 0 is recorded, its metadata copied to location 2. *)
Definition instance : FourFS :=
  {| path_to_4fs := "/opt/4fs";
     run_lrs := true;
     run_hrs := false;
     magnitude := NInt 14;
     magnitude_unreddened := false;
     photometric_band := "SDSS_r";
     snr_per_pixel := true;
     reference_magnitude := 15%float;
     template_counter := 1;
     metadata_store := {[ 0 := 2%positive ]};
     snr_list := [NInt 20; NInt 50; NInt 80];
     lrs_use_snr_definitions := default_use_snr_definitions;
     hrs_use_snr_definitions := [];
     distinct_snr_definitions := {[ "MEDIANSNR"%string ]};
     tmp_dir := "/tmp/4fs_4242_x" |}.

(** The same instance with no SNR definition for the green arm. *)
Definition instance_unset : FourFS :=
  {| path_to_4fs := "/opt/4fs";
     run_lrs := true;
     run_hrs := false;
     magnitude := NInt 14;
     magnitude_unreddened := false;
     photometric_band := "SDSS_r";
     snr_per_pixel := true;
     reference_magnitude := 15%float;
     template_counter := 1;
     metadata_store := {[ 0 := 2%positive ]};
     snr_list := [NInt 20; NInt 50; NInt 80];
     lrs_use_snr_definitions := [Some "MEDIANSNR"; None; Some "MEDIANSNR"]%string;
     hrs_use_snr_definitions := [];
     distinct_snr_definitions := {[ "MEDIANSNR"%string ]};
     tmp_dir := "/tmp/4fs_4242_x" |}.

Definition manifest_heap : heap :=
  {[ 1%positive := {[ "Starname" := PyStr "sun" ]};
     2%positive := {[ "Starname" := PyStr "sun" ]} ]}.

Definition lrs_definitions : list (option string) :=
  reverse (lrs_use_snr_definitions instance).

(** The exposure times of [summary]. *)
Definition times : gmap string float :=
  {[ "1"%string := 300%float; "3"%string := 120.5%float; "4"%string := f_nan ]}.

(** One iteration of the combiner on that state, and a whole call. *)
Definition pair (fs : filesystem) (snr rc : Z) : result (heap * output_entry) :=
  combine_pair instance manifest_heap fs times lrs_definitions "outdir_LRS" "LRS" 0
    (NInt snr) rc.

Definition pair_hrs : result (heap * output_entry) :=
  combine_pair instance manifest_heap outdir_hrs times lrs_definitions "outdir_HRS" "HRS" 0
    (NInt 20) 1.

Definition combined (fs : filesystem) : result (heap * output_dict) :=
  combine_spectra instance manifest_heap fs [0] "outdir_LRS" "LRS".

(** Manifest building followed by the arm combiner. *)
Definition pipeline (order : gset string -> list string) (self : result FourFS)
    (fs : filesystem) : result (FourFS * heap * template_list * heap * output_dict) :=
  self ← self;
  '(self, h, tl) ← generate_4fs_template_list order self caller_heap
                     [(star, Some star_cn)] (Some 50000%float);
  '(h', out) ← combine_spectra self h fs (template_numbers tl) "outdir_LRS" "LRS";
  Ok (self, h, tl, h', out).

(** A whole call of [process_spectra], with the 4FS binary in place. *)
Definition processed : result (FourFS * heap * list (string * output_dict)) :=
  process_spectra order_a true outdir fresh_instance caller_heap spectra_list
    (Some 50000%float).

(** Two batches of one spectrum each. *)
Definition batch (self : FourFS) (h : heap) (l : list (Spectrum * option Spectrum))
  : result (FourFS * heap * template_list) :=
  generate_4fs_template_list order_a self h l (Some 50000%float).

End Sample.

(* ===================================================================== *)
(** * Exceptions: inversion of successful computations *)
(* ===================================================================== *)

Lemma bind_Ok {A B} (m : result A) (f : A -> result B) (b : B) :
  m ≫= f = Ok b <-> exists a, m = Ok a /\ f a = Ok b.
Proof.
  destruct m as [a|e]; simpl; split.
  - intros Hf. exists a. split; [reflexivity | exact Hf].
  - intros (a' & Ha & Hf). injection Ha as ->. exact Hf.
  - discriminate.
  - intros (a' & Ha & _). discriminate.
Qed.

Lemma succeeded_Ok {A} (r : result A) : succeeded r = true -> exists a, r = Ok a.
Proof. destruct r as [a|e]; [eauto | discriminate]. Qed.

Lemma or_raise_Ok {A} (e : exn) (o : option A) (a : A) :
  or_raise e o = Ok a <-> o = Some a.
Proof. destruct o; simpl; split; congruence. Qed.

Lemma py_assert_Ok (b : bool) (u : unit) : py_assert b = Ok u <-> b = true.
Proof. destruct b, u; simpl; split; congruence. Qed.

(** Splits a hypothesis [m ≫= f = Ok b] into its successful steps. *)
Ltac inv_ok :=
  repeat match goal with
  | H : _ ≫= _ = Ok _ |- _ =>
      apply bind_Ok in H; destruct H as (? & ? & H)
  | H : or_raise _ _ = Ok _ |- _ => apply or_raise_Ok in H
  | H : py_assert _ = Ok _ |- _ => apply py_assert_Ok in H
  | H : Ok _ = Ok _ |- _ => injection H as H
  | H : Raise _ = Ok _ |- _ => discriminate H
  end.

Lemma for_each_app {S X} (body : S -> X -> result S) (l1 l2 : list X) (s : S) :
  for_each body (l1 ++ l2) s = for_each body l1 s ≫= for_each body l2.
Proof.
  revert s. induction l1 as [|x l1 IH]; intros s; simpl; [reflexivity|].
  destruct (body s x) as [s'|e]; simpl; [apply IH | reflexivity].
Qed.

Lemma map_result_length {X Y} (f : X -> result Y) (l : list X) (l' : list Y) :
  map_result f l = Ok l' -> length l' = length l.
Proof.
  revert l'. induction l as [|x l IH]; intros l' H; simpl in H.
  - injection H as <-. reflexivity.
  - inv_ok. subst l'. simpl. f_equal. eauto.
Qed.

Lemma map_result_lookup {X Y} (f : X -> result Y) (l : list X) (l' : list Y) (k : nat) (x : X) :
  map_result f l = Ok l' -> l !! k = Some x ->
  exists y, l' !! k = Some y /\ f x = Ok y.
Proof.
  revert l' k. induction l as [|x0 l IH]; intros l' k H Hk; [discriminate|].
  simpl in H. inv_ok. subst l'.
  destruct k as [|k]; simpl in *.
  - injection Hk as ->. eauto.
  - eauto.
Qed.

(* ===================================================================== *)
(** * numpy: masks, index arrays and assignment through them *)
(* ===================================================================== *)

Lemma np_take_where_from {A B} (q : A -> bool) (g : A -> B) (pre rows : list A) :
  map_result (fun i => or_raise IndexError (map g (pre ++ rows) !! i))
    (where_from (length pre) (map q rows))
  = Ok (map g (List.filter q rows)).
Proof.
  revert pre. induction rows as [|r rows IH]; intros pre; simpl; [reflexivity|].
  assert (Hrec : map_result (fun i => or_raise IndexError (map g (pre ++ r :: rows) !! i))
            (where_from (S (length pre)) (map q rows))
          = Ok (map g (List.filter q rows))).
  { specialize (IH (pre ++ [r])). rewrite <- app_assoc in IH. simpl in IH.
    rewrite length_app in IH. simpl in IH.
    replace (length pre + 1)%nat with (S (length pre)) in IH by lia. exact IH. }
  destruct (q r); simpl.
  - rewrite list_lookup_fmap, lookup_app_r by lia.
    replace (length pre - length pre)%nat with 0%nat by lia. simpl.
    rewrite Hrec. reflexivity.
  - exact Hrec.
Qed.

(** Taking a column at the indices where a mask over the rows holds keeps
    exactly the rows that satisfy the mask, in their order. *)
Lemma np_take_where {A B} (q : A -> bool) (g : A -> B) (rows : list A) :
  np_take (map g rows) (np_where (map q rows)) = Ok (map g (List.filter q rows)).
Proof. apply (np_take_where_from q g [] rows). Qed.

Lemma np_put_where_from {A} (q : A -> bool) (v : A) (pre l : list A) :
  for_each (fun a i => if decide (i < length a)%nat then Ok (<[i := v]> a)
                       else Raise IndexError)
    (where_from (length pre) (map q l)) (pre ++ l)
  = Ok (pre ++ map (fun x => if q x then v else x) l).
Proof.
  revert pre. induction l as [|x l IH]; intros pre; simpl; [reflexivity|].
  destruct (q x) eqn:Hq; simpl.
  - destruct (decide (length pre < length (pre ++ x :: l))%nat) as [_|Hn].
    2:{ rewrite length_app in Hn. simpl in Hn. lia. }
    simpl.
    assert (Hins : <[length pre := v]> (pre ++ x :: l) = (pre ++ [v]) ++ l).
    { rewrite insert_app_r_alt by lia.
      replace (length pre - length pre)%nat with 0%nat by lia.
      simpl. rewrite <- app_assoc. reflexivity. }
    rewrite Hins.
    specialize (IH (pre ++ [v])). rewrite length_app in IH. simpl in IH.
    replace (length pre + 1)%nat with (S (length pre)) in IH by lia.
    rewrite IH, <- app_assoc. reflexivity.
  - specialize (IH (pre ++ [x])). rewrite length_app in IH. simpl in IH.
    replace (length pre + 1)%nat with (S (length pre)) in IH by lia.
    rewrite <- app_assoc in IH. simpl in IH. rewrite IH, <- app_assoc. reflexivity.
Qed.

(** Assigning through the indices of a mask over the array itself replaces
    exactly the masked elements. *)
Lemma np_put_where {A} (q : A -> bool) (v : A) (l : list A) :
  np_put l (np_where (map q l)) v = Ok (map (fun x => if q x then v else x) l).
Proof. apply (np_put_where_from q v [] l). Qed.

Lemma np_broadcast_same_length {A B C} (op : A -> B -> C) (a : list A) (b : list B) :
  length a = length b -> np_broadcast op a b = Ok (zip_with op a b).
Proof. intros H. unfold np_broadcast. destruct (decide _); [reflexivity | contradiction]. Qed.

(* ===================================================================== *)
(** * float64: the order of comparable values *)
(* ===================================================================== *)

Lemma SF_le_lt_trans (x c y : spec_float) :
  SFleb x c = true -> SFltb c y = true -> SFltb x y = true.
Proof.
  unfold SFleb, SFltb.
  destruct x as [sx|sx| |sx mx ex], c as [sc|sc| |sc mc ec], y as [sy|sy| |sy my ey];
    simpl; try discriminate; try reflexivity;
    repeat match goal with b : bool |- _ => destruct b end;
    simpl; try discriminate; try reflexivity.
  all: change (Pos.compare_cont Eq) with Pos.compare.
  all: destruct (Z.compare_spec ex ec), (Z.compare_spec ec ey), (Z.compare_spec ex ey);
       try discriminate; try reflexivity; try lia; subst.
  all: destruct (Pos.compare_spec mx mc), (Pos.compare_spec mc my), (Pos.compare_spec mx my);
       simpl; try discriminate; try reflexivity; try lia.
Qed.

Lemma SF_lt_trans (x c y : spec_float) :
  SFltb x c = true -> SFltb c y = true -> SFltb x y = true.
Proof.
  unfold SFltb.
  destruct x as [sx|sx| |sx mx ex], c as [sc|sc| |sc mc ec], y as [sy|sy| |sy my ey];
    simpl; try discriminate; try reflexivity;
    repeat match goal with b : bool |- _ => destruct b end;
    simpl; try discriminate; try reflexivity.
  all: change (Pos.compare_cont Eq) with Pos.compare.
  all: destruct (Z.compare_spec ex ec), (Z.compare_spec ec ey), (Z.compare_spec ex ey);
       try discriminate; try reflexivity; try lia; subst.
  all: destruct (Pos.compare_spec mx mc), (Pos.compare_spec mc my), (Pos.compare_spec mx my);
       simpl; try discriminate; try reflexivity; try lia.
Qed.

Lemma fle_flt_trans (x c y : float) : fle x c = true -> flt c y = true -> flt x y = true.
Proof. unfold fle, flt. rewrite leb_spec, !ltb_spec. apply SF_le_lt_trans. Qed.

Lemma flt_trans (x c y : float) : flt x c = true -> flt c y = true -> flt x y = true.
Proof. unfold flt. rewrite !ltb_spec. apply SF_lt_trans. Qed.

Lemma lrs_cuts_ordered : flt lrs_cut_blue lrs_cut_red = true.
Proof. reflexivity. Qed.

(** A pixel of the blue window lies below one of the green window, and a
    pixel of the green window below one of the red window. *)
Lemma blue_below_green (a b : float) :
  in_blue_window a = true -> in_green_window b = true -> flt a b = true.
Proof.
  unfold in_blue_window, in_green_window, fgt. intros Ha Hb.
  apply andb_true_iff in Hb as [Hb _]. exact (fle_flt_trans _ _ _ Ha Hb).
Qed.

Lemma green_below_red (a b : float) :
  in_green_window a = true -> in_red_window b = true -> flt a b = true.
Proof.
  unfold in_green_window, in_red_window, fgt. intros Ha Hb.
  apply andb_true_iff in Ha as [_ Ha]. exact (fle_flt_trans _ _ _ Ha Hb).
Qed.

Lemma blue_below_red (a b : float) :
  in_blue_window a = true -> in_red_window b = true -> flt a b = true.
Proof.
  unfold in_blue_window, in_red_window, fgt. intros Ha Hb.
  apply (flt_trans _ lrs_cut_red); [|exact Hb].
  exact (fle_flt_trans _ _ _ Ha lrs_cuts_ordered).
Qed.

(* ===================================================================== *)
(** * Sorted sequences *)
(* ===================================================================== *)

Lemma Sorted_app {A} (R : A -> A -> Prop) (l1 l2 : list A) :
  Sorted R l1 -> Sorted R l2 ->
  (forall x y, In x l1 -> In y l2 -> R x y) ->
  Sorted R (l1 ++ l2).
Proof.
  intros H1 H2 H12. induction H1 as [|a l1 Hs IH Hhd]; simpl; [exact H2|].
  constructor.
  - apply IH. intros x y Hx Hy. apply H12; [right; exact Hx | exact Hy].
  - destruct l1 as [|b l1]; simpl.
    + destruct l2 as [|c l2]; constructor. apply H12; left; reflexivity.
    + inversion Hhd; subst. constructor. assumption.
Qed.

Lemma in_map_filter {A B} (g : A -> B) (q : A -> bool) (l : list A) (y : B) :
  In y (map g (List.filter q l)) -> exists x, y = g x /\ q x = true.
Proof.
  intros H. apply in_map_iff in H as (x & <- & Hx).
  apply filter_In in Hx as [_ Hq]. eauto.
Qed.

(* ===================================================================== *)
(** * Stitching the arms in LRS mode *)
(* ===================================================================== *)

Lemma apply_indices_lrs {B} (g : pixel -> B) (blue green red : list pixel) :
  apply_indices
    [np_where (map in_blue_window (map LAMBDA blue));
     np_where (map in_green_window (map LAMBDA green));
     np_where (map in_red_window (map LAMBDA red))]
    [map g blue; map g green; map g red]
  = Ok [map g (List.filter (fun p => in_blue_window (LAMBDA p)) blue);
        map g (List.filter (fun p => in_green_window (LAMBDA p)) green);
        map g (List.filter (fun p => in_red_window (LAMBDA p)) red)].
Proof.
  unfold apply_indices. simpl. rewrite !map_map.
  rewrite (np_take_where (fun p => in_blue_window (LAMBDA p)) g blue). simpl.
  rewrite (np_take_where (fun p => in_green_window (LAMBDA p)) g green). simpl.
  rewrite (np_take_where (fun p => in_red_window (LAMBDA p)) g red). reflexivity.
Qed.

(** In LRS mode the stitching never raises, and what it returns are the
    columns of the pixels that lie in their arm's window. *)
Lemma stitch_arms_lrs (blue green red : list pixel) :
  stitch_arms "LRS" [blue; green; red]
  = Ok (mkStitched
          (map LAMBDA (lrs_window_pixels blue green red))
          (map sky_subtracted (lrs_window_pixels blue green red))
          (map SNR (lrs_window_pixels blue green red))
          [map FLUENCE (List.filter (fun p => in_blue_window (LAMBDA p)) blue);
           map FLUENCE (List.filter (fun p => in_green_window (LAMBDA p)) green);
           map FLUENCE (List.filter (fun p => in_red_window (LAMBDA p)) red)]).
Proof.
  unfold stitch_arms, lrs_indices. simpl.
  rewrite !apply_indices_lrs. simpl.
  unfold lrs_window_pixels. rewrite !map_app, !app_nil_r. reflexivity.
Qed.

(** In any other mode the arms are concatenated whole. *)
Lemma stitch_arms_hrs (setup : string) (blue green red : list pixel) :
  setup <> "LRS"%string ->
  stitch_arms setup [blue; green; red]
  = Ok (mkStitched
          (map LAMBDA (blue ++ green ++ red))
          (map sky_subtracted (blue ++ green ++ red))
          (map SNR (blue ++ green ++ red))
          [map FLUENCE blue; map FLUENCE green; map FLUENCE red]).
Proof.
  intros Hs. unfold stitch_arms.
  rewrite bool_decide_eq_false_2 by exact Hs. simpl.
  rewrite !map_app, !app_nil_r. reflexivity.
Qed.

Lemma lrs_window_sorted (R : float -> float -> Prop) (blue green red : list pixel) :
  (forall a b, flt a b = true -> R a b) ->
  Sorted R (map LAMBDA (List.filter (fun p => in_blue_window (LAMBDA p)) blue)) ->
  Sorted R (map LAMBDA (List.filter (fun p => in_green_window (LAMBDA p)) green)) ->
  Sorted R (map LAMBDA (List.filter (fun p => in_red_window (LAMBDA p)) red)) ->
  Sorted R (map LAMBDA (lrs_window_pixels blue green red)).
Proof.
  intros HR Hb Hg Hr. unfold lrs_window_pixels. rewrite !map_app.
  apply Sorted_app; [exact Hb | apply Sorted_app; [exact Hg | exact Hr |] |].
  - intros x y Hx Hy.
    apply in_map_filter in Hx as (p & -> & Hp), Hy as (q & -> & Hq).
    apply HR, (green_below_red _ _ Hp Hq).
  - intros x y Hx Hy. apply in_map_filter in Hx as (p & -> & Hp).
    apply in_app_or in Hy as [Hy|Hy]; apply in_map_filter in Hy as (q & -> & Hq); apply HR.
    + exact (blue_below_green _ _ Hp Hq).
    + exact (blue_below_red _ _ Hp Hq).
Qed.

(* ===================================================================== *)
(** * One iteration of the combiner *)
(* ===================================================================== *)

Lemma Spectrum_init_Ok `{PyRuntime} (w v e : list float) (m : option loc) (s : Spectrum) :
  Spectrum_init w v e m = Ok s <->
  length w = length v /\ length w = length e /\
  s = mkSpectrum w v e m (hash_numpy_array w).
Proof.
  unfold Spectrum_init. split.
  - intros Hs. inv_ok.
    apply bool_decide_eq_true in H0, H1. subst s. auto.
  - intros (Hv & He & ->).
    rewrite !bool_decide_eq_true_2 by assumption. reflexivity.
Qed.

Lemma load_bands_three `{PyRuntime} fs path setup defs i snr (d : list (list pixel)) :
  map_result (load_band fs path setup defs i snr) (imap (fun j band => (j, band)) bands) = Ok d ->
  exists blue green red, d = [blue; green; red].
Proof.
  intros Hd. apply map_result_length in Hd.
  destruct d as [|b [|g [|r [|x d]]]]; try discriminate. eauto.
Qed.

(** What a successful iteration of the combiner has done, step by step. *)
Lemma combine_pair_inv `{PyRuntime} self h fs times defs path setup i snr rc h' e :
  combine_pair self h fs times defs path setup i snr rc = Ok (h', e) ->
  exists d st ls h1 errors,
    map_result (load_band fs path setup defs i snr)
      (imap (fun j band => (j, band)) bands) = Ok d /\
    stitch_arms setup d = Ok st /\
    metadata_store self !! i = Some ls /\
    attach_metadata self h ls times defs snr rc = Ok h1 /\
    np_div (fluxes_final st) (snrs_final st) = Ok errors /\
    spectrum e = mkSpectrum (wavelengths_final st) (fluxes_final st) errors
                   (Some (dict_copy h1 ls).1) (hash_numpy_array (wavelengths_final st)) /\
    if os_path_exists fs (continuum_filename path setup i "blue") then
      exists n errors_n,
        recover_continuum fs path setup i st = Ok n /\
        np_div n (snrs_final st) = Ok errors_n /\
        let h2 := dict_setitem (dict_copy h1 ls).2 ls "continuum_normalised" (PyInt 1) in
        h' = (dict_copy h2 ls).2 /\
        spectrum_continuum_normalised e =
          Some (mkSpectrum (wavelengths_final st) n errors_n (Some (dict_copy h2 ls).1)
                  (hash_numpy_array (wavelengths_final st)))
    else h' = (dict_copy h1 ls).2 /\ spectrum_continuum_normalised e = None.
Proof.
  unfold combine_pair. intros Hc.
  apply bind_Ok in Hc as (d & Hd & Hc).
  apply bind_Ok in Hc as (st & Hst & Hc).
  apply bind_Ok in Hc as (f0 & Hf0 & Hc).
  apply or_raise_Ok in Hf0. injection Hf0 as <-.
  apply bind_Ok in Hc as (normalised & Hn & Hc).
  apply bind_Ok in Hc as (ls & Hls & Hc). apply or_raise_Ok in Hls.
  apply bind_Ok in Hc as (h1 & Hh1 & Hc).
  apply bind_Ok in Hc as (errors & Herr & Hc).
  exists d, st, ls, h1, errors. repeat (split; [assumption|]).
  unfold dict_copy in Hc |- *. cbn [fst snd] in Hc |- *.
  apply bind_Ok in Hc as (sp & Hsp & Hc).
  apply Spectrum_init_Ok in Hsp as (_ & _ & ->).
  destruct (os_path_exists fs _).
  - apply bind_Ok in Hn as (n & Hrec & Hn). injection Hn as <-.
    apply bind_Ok in Hc as (errors_n & Herrn & Hc).
    apply bind_Ok in Hc as (spn & Hspn & Hc).
    apply Spectrum_init_Ok in Hspn as (_ & _ & ->).
    injection Hc as <- <-. simpl. split; [reflexivity|].
    exists n, errors_n. auto.
  - injection Hn as <-. injection Hc as <- <-. simpl. auto.
Qed.

(* ===================================================================== *)
(** * Continuum recovery and bad pixels *)
(* ===================================================================== *)

Lemma py_max_peak (l : list float) (m : float) : py_max l = Ok m -> m = peak l.
Proof. destruct l; simpl; [discriminate | congruence]. Qed.

Lemma rescale_arm_spec (arm : list float * list float) (c : list float) :
  rescale_arm arm = Ok c -> c = rescaled_continuum arm.
Proof.
  destruct arm as [fluence fluence_c]. unfold rescale_arm, rescaled_continuum.
  intros Hc. inv_ok. simpl.
  repeat match goal with H : py_max _ = Ok _ |- _ => apply py_max_peak in H end.
  subst. rewrite map_map. reflexivity.
Qed.

Lemma map_rescale_arm_spec (arms : list (list float * list float)) (cs : list (list float)) :
  map_result rescale_arm arms = Ok cs -> cs = map rescaled_continuum arms.
Proof.
  revert cs. induction arms as [|arm arms IH]; intros cs Hcs; simpl in Hcs.
  - injection Hcs as <-. reflexivity.
  - inv_ok. subst cs. simpl. f_equal; [apply rescale_arm_spec; assumption | auto].
Qed.

(** Where the code's stitched continuum exists, it is the concatenation
    of the arms rescaled product first. *)
Lemma stitch_continuum_spec (fluences fluences_c : list (list float)) (c : list float) :
  stitch_continuum fluences fluences_c = Ok c ->
  c = stitched_continuum fluences fluences_c.
Proof.
  unfold stitch_continuum, stitched_continuum. intros Hc. inv_ok.
  match goal with H : map_result _ _ = Ok _ |- _ => apply map_rescale_arm_spec in H; subst end.
  unfold np_concatenate in Hc.
  destruct (map rescaled_continuum _); [discriminate | congruence].
Qed.

Lemma bad_pixel_zero (v : float) :
  (if bad_pixel v then f_zero else v) = zero_bad_pixel v.
Proof. reflexivity. Qed.

(** Removing the bad pixels never raises. *)
Lemma remove_bad_pixels_spec (raw : list float) :
  remove_bad_pixels raw = Ok (map zero_bad_pixel raw).
Proof. unfold remove_bad_pixels. apply np_put_where. Qed.

Lemma recover_continuum_inv (fs : filesystem) (path setup : string) (i : Z)
    (st : stitched) (n : list float) :
  recover_continuum fs path setup i st = Ok n ->
  exists raw, normalise_by_continuum fs path setup i st = Ok raw /\
              n = map zero_bad_pixel raw.
Proof.
  unfold recover_continuum. intros Hn. inv_ok.
  rewrite remove_bad_pixels_spec in Hn. injection Hn as <-. eauto.
Qed.

(* ===================================================================== *)
(** * The claims on the stitched spectra *)
(* ===================================================================== *)

(** C1.  In LRS mode the spectrum the combiner returns for a template and
    an SNR holds exactly the pixels of the blue arm with wavelength <=
    5327.7, then those of the green arm with wavelength > 5327.7 and <=
    7031.7, then those of the red arm with wavelength > 7031.7; and when
    the wavelengths of each arm are sorted within its window, for an order
    that contains [<], the wavelengths of the output are sorted for it. *)
Theorem lrs_stitching_windows `{PyRuntime} (R : float -> float -> Prop)
    (self : FourFS) (h : heap) (fs : filesystem) (times : gmap string float)
    (defs : list (option string)) (path : string) (i : Z) (snr : pynum) (rc : Z)
    (blue green red : list pixel) (h' : heap) (e : output_entry) :
  map_result (load_band fs path "LRS" defs i snr)
    (imap (fun j band => (j, band)) bands) = Ok [blue; green; red] ->
  combine_pair self h fs times defs path "LRS" i snr rc = Ok (h', e) ->
  (forall a b, flt a b = true -> R a b) ->
  Sorted R (map LAMBDA (List.filter (fun p => in_blue_window (LAMBDA p)) blue)) ->
  Sorted R (map LAMBDA (List.filter (fun p => in_green_window (LAMBDA p)) green)) ->
  Sorted R (map LAMBDA (List.filter (fun p => in_red_window (LAMBDA p)) red)) ->
  wavelengths (spectrum e) = map LAMBDA (lrs_window_pixels blue green red) /\
  values (spectrum e) = map sky_subtracted (lrs_window_pixels blue green red) /\
  Sorted R (wavelengths (spectrum e)) /\
  (forall sn, spectrum_continuum_normalised e = Some sn ->
              wavelengths sn = wavelengths (spectrum e)).
Proof.
  intros Hd Hc HR Hb Hg Hr.
  apply combine_pair_inv in Hc as (d & st & ls & h1 & errors & Hd' & Hst & _ & _ & _ & Hsp & Hcn).
  rewrite Hd in Hd'. injection Hd' as <-.
  rewrite stitch_arms_lrs in Hst. injection Hst as <-.
  rewrite Hsp. simpl. repeat split.
  - apply lrs_window_sorted; assumption.
  - intros sn Hsn. destruct (os_path_exists fs _).
    + destruct Hcn as (n & en & _ & _ & _ & Hsn'). rewrite Hsn' in Hsn.
      injection Hsn as <-. reflexivity.
    + destruct Hcn as [_ Hsn']. congruence.
Qed.

Lemma lrs_stitching_windows_witness :
  exists h' e,
    Sample.pair Sample.outdir 20 1 = Ok (h', e) /\
    wavelengths (spectrum e) = [5000; 5300; 5400; 7000; 7100; 8000]%float /\
    Sorted (fun a b => flt a b = true) (wavelengths (spectrum e)).
Proof.
  destruct (succeeded_Ok (Sample.pair Sample.outdir 20 1) ltac:(vm_compute; reflexivity))
    as [[h' e] Hrun].
  exists h', e. split; [exact Hrun|].
  destruct (@lrs_stitching_windows Sample.runtime (fun a b => flt a b = true)
              Sample.instance Sample.manifest_heap Sample.outdir Sample.times
              Sample.lrs_definitions "outdir_LRS" 0 (NInt 20) 1
              Sample.blue_arm Sample.green_arm Sample.red_arm h' e
              ltac:(vm_compute; reflexivity) Hrun
              ltac:(intros a b Hab; exact Hab)
              ltac:(repeat constructor) ltac:(repeat constructor)
              ltac:(repeat constructor))
    as (Hw & _ & Hs & _).
  split; [rewrite Hw; reflexivity | exact Hs].
Defined.

(** C2, as the code has it.  Where the combiner returns a
    continuum-normalised spectrum, the stitched continuum is the
    concatenation, over the arms whose truncated signal fluence is not
    empty, of the arm's truncated continuum fluence rescaled pixel by pixel
    to [(c * max(signal)) / max(continuum)]: the product is formed and
    rounded first and then divided, which is not the multiplication by the
    one factor [max(signal) / max(continuum)].  The flux of the
    continuum-normalised spectrum, before the bad pixels are removed, is
    numpy's quotient of the stitched signal flux by that stitched
    continuum: pixel by pixel when the two have the same length, and with
    the operand of length one stretched over the other when they have
    not. *)
Theorem continuum_normalisation `{PyRuntime}
    (self : FourFS) (h : heap) (fs : filesystem) (times : gmap string float)
    (defs : list (option string)) (path setup : string) (i : Z) (snr : pynum) (rc : Z)
    (h' : heap) (e : output_entry) (sn : Spectrum) :
  combine_pair self h fs times defs path setup i snr rc = Ok (h', e) ->
  spectrum_continuum_normalised e = Some sn ->
  exists d st fluences_c raw,
    map_result (load_band fs path setup defs i snr)
      (imap (fun j band => (j, band)) bands) = Ok d /\
    stitch_arms setup d = Ok st /\
    continuum_fluences fs path setup i = Ok fluences_c /\
    values (spectrum e) = fluxes_final st /\
    let continuum := stitched_continuum (arm_fluences st) fluences_c in
    (exists arm, arm ∈ zip (arm_fluences st) fluences_c /\ arm.1 <> []) /\
    values sn = map zero_bad_pixel raw /\
    (length (fluxes_final st) = length continuum ->
     raw = zip_with fdiv (fluxes_final st) continuum) /\
    (length (fluxes_final st) <> length continuum ->
     (exists x, fluxes_final st = [x] /\ raw = map (fdiv x) continuum) \/
     (exists c, continuum = [c] /\ raw = map (fun x => fdiv x c) (fluxes_final st))).
Proof.
  intros Hc Hsn.
  apply combine_pair_inv in Hc as (d & st & ls & h1 & errors & Hd & Hst & _ & _ & _ & Hsp & Hcn).
  destruct (os_path_exists fs _).
  2:{ destruct Hcn as [_ Hnone]. congruence. }
  destruct Hcn as (n & en & Hrec & _ & _ & Hsn'). rewrite Hsn' in Hsn. injection Hsn as <-.
  apply recover_continuum_inv in Hrec as (raw & Hraw & ->).
  unfold normalise_by_continuum in Hraw.
  apply bind_Ok in Hraw as (fluences_c & Hfc & Hraw).
  apply bind_Ok in Hraw as (cont & Hcont & Hraw).
  pose proof (stitch_continuum_spec _ _ _ Hcont) as ->.
  exists d, st, fluences_c, raw. rewrite Hsp. cbv zeta. simpl.
  repeat (split; [assumption || reflexivity|]).
  split.
  { unfold stitch_continuum in Hcont.
    apply bind_Ok in Hcont as (arms & Harms & Hcat).
    apply map_result_length in Harms.
    destruct (List.filter has_signal (zip (arm_fluences st) fluences_c)) as [|arm l] eqn:Hf.
    - destruct arms; [discriminate Hcat | discriminate Harms].
    - assert (Hin : In arm (List.filter has_signal (zip (arm_fluences st) fluences_c)))
        by (rewrite Hf; left; reflexivity).
      apply filter_In in Hin as [Hin Hs]. exists arm.
      split; [apply list_elem_of_In; exact Hin|].
      unfold has_signal in Hs. intros Hnil. rewrite Hnil in Hs. discriminate. }
  split; [reflexivity|].
  unfold np_div, np_broadcast in Hraw.
  destruct (decide (length (fluxes_final st) =
                    length (stitched_continuum (arm_fluences st) fluences_c)))
    as [Hlen|Hlen].
  - split; [intros _; congruence | intros Hne; contradiction].
  - split; [intros Heq; contradiction|]. intros _.
    destruct (fluxes_final st) as [|x [|x' flux]].
    + destruct (stitched_continuum (arm_fluences st) fluences_c) as [|c [|c' cont]];
        try discriminate. right. exists c. split; [reflexivity | congruence].
    + left. exists x. split; [reflexivity | congruence].
    + destruct (stitched_continuum (arm_fluences st) fluences_c) as [|c [|c' cont]];
        try discriminate. right. exists c. split; [reflexivity | congruence].
Qed.

Lemma continuum_normalisation_witness :
  exists h' e sn,
    Sample.pair Sample.outdir 20 1 = Ok (h', e) /\
    spectrum_continuum_normalised e = Some sn /\
    exists fluences_c raw,
      continuum_fluences Sample.outdir "outdir_LRS" "LRS" 0 = Ok fluences_c /\
      values sn = map zero_bad_pixel raw.
Proof.
  destruct (succeeded_Ok (Sample.pair Sample.outdir 20 1) ltac:(vm_compute; reflexivity))
    as [[h' e] Hrun].
  assert (Hsn : is_Some (spectrum_continuum_normalised e)).
  { assert (Hb : match Sample.pair Sample.outdir 20 1 with
                 | Ok (_, e) => bool_decide (is_Some (spectrum_continuum_normalised e))
                 | Raise _ => false
                 end = true) by (vm_compute; reflexivity).
    rewrite Hrun in Hb. apply bool_decide_eq_true in Hb. exact Hb. }
  destruct Hsn as [sn Hsn]. exists h', e, sn. split; [exact Hrun|]. split; [exact Hsn|].
  destruct (@continuum_normalisation Sample.runtime Sample.instance Sample.manifest_heap
              Sample.outdir Sample.times Sample.lrs_definitions "outdir_LRS" "LRS" 0
              (NInt 20) 1 h' e sn Hrun Hsn)
    as (d & st & fluences_c & raw & _ & _ & Hfc & _ & _ & Hv & _).
  exists fluences_c, raw. split; [exact Hfc | exact Hv].
Defined.

(** C2 as the specification states it fails: the rescaling
    [continuum_fluence *= max(signal_fluence)/max(continuum_fluence)] of
    the specification and the code's [fluence_c * max(fluence) /
    max(fluence_c)] round differently.  With signal fluences [8.5, 2] and
    continuum fluences [1.4, 7.7] on the blue arm, the first pixel of the
    stitched continuum is [(1.4 * 8.5) / 7.7], below the [1.4 * (8.5 /
    7.7)] of the specification; with signal [1e200, 1] and continuum
    [1e200, 1e150] the product overflows and the code gives infinity where
    the specification gives 1e200. *)
Lemma continuum_rescaling_counterexample :
  (exists c a b,
     stitch_continuum [[8.5; 2]; [3]; []]%float [[1.4; 7.7]; [1]; [5]]%float = Ok c /\
     c !! 0%nat = Some a /\
     spec_stitched_continuum [[8.5; 2]; [3]; []]%float [[1.4; 7.7]; [1]; [5]]%float
       !! 0%nat = Some b /\
     flt a b = true) /\
  (exists c a b,
     stitch_continuum [[1e200; 1]; []; []]%float [[1e200; 1e150]; [1]; [1]]%float = Ok c /\
     c !! 0%nat = Some a /\
     spec_stitched_continuum [[1e200; 1]; []; []]%float [[1e200; 1e150]; [1]; [1]]%float
       !! 0%nat = Some b /\
     PrimFloat.is_infinity a = true /\ b = 1e200%float).
Proof.
  split.
  - eexists _, _, _. split; [vm_compute; reflexivity|].
    split; [reflexivity|]. split; [vm_compute; reflexivity|]. vm_compute. reflexivity.
  - eexists _, _, _. split; [vm_compute; reflexivity|].
    split; [reflexivity|]. split; [vm_compute; reflexivity|].
    split; vm_compute; reflexivity.
Qed.

(** C3.  In the continuum-normalised spectrum the combiner returns, a pixel
    whose raw continuum-normalised value is > 2.0 or <= 0.0 is 0, and every
    other pixel has its raw value. *)
Theorem bad_pixels_reset `{PyRuntime}
    (self : FourFS) (h : heap) (fs : filesystem) (times : gmap string float)
    (defs : list (option string)) (path setup : string) (i : Z) (snr : pynum) (rc : Z)
    (h' : heap) (e : output_entry) (sn : Spectrum) :
  combine_pair self h fs times defs path setup i snr rc = Ok (h', e) ->
  spectrum_continuum_normalised e = Some sn ->
  exists d st raw,
    map_result (load_band fs path setup defs i snr)
      (imap (fun j band => (j, band)) bands) = Ok d /\
    stitch_arms setup d = Ok st /\
    normalise_by_continuum fs path setup i st = Ok raw /\
    length (values sn) = length raw /\
    forall (k : nat) (v : float), raw !! k = Some v ->
      values sn !! k = Some (if fgt v 2%float || fle v 0%float then 0%float else v).
Proof.
  intros Hc Hsn.
  apply combine_pair_inv in Hc as (d & st & ls & h1 & errors & Hd & Hst & _ & _ & _ & _ & Hcn).
  destruct (os_path_exists fs _).
  2:{ destruct Hcn as [_ Hnone]. congruence. }
  destruct Hcn as (n & en & Hrec & _ & _ & Hsn'). rewrite Hsn' in Hsn. injection Hsn as <-.
  apply recover_continuum_inv in Hrec as (raw & Hraw & ->).
  exists d, st, raw. simpl. repeat (split; [assumption|]).
  split; [apply length_map|].
  intros k v Hk. rewrite list_lookup_fmap, Hk. reflexivity.
Qed.

Lemma bad_pixels_reset_witness :
  exists h' e sn raw,
    Sample.pair Sample.outdir 20 1 = Ok (h', e) /\
    spectrum_continuum_normalised e = Some sn /\
    values sn = [1; 1.2; 0; 0.4; 0; 0.8]%float /\
    length (values sn) = length raw /\
    forall (k : nat) (v : float), raw !! k = Some v ->
      values sn !! k = Some (if fgt v 2%float || fle v 0%float then 0%float else v).
Proof.
  destruct (succeeded_Ok (Sample.pair Sample.outdir 20 1) ltac:(vm_compute; reflexivity))
    as [[h' e] Hrun].
  assert (Hsn : (values <$> spectrum_continuum_normalised e)
                = Some [1; 1.2; 0; 0.4; 0; 0.8]%float).
  { assert (Hb : match Sample.pair Sample.outdir 20 1 with
                 | Ok (_, e) => values <$> spectrum_continuum_normalised e
                 | Raise _ => None
                 end = Some [1; 1.2; 0; 0.4; 0; 0.8]%float) by (vm_compute; reflexivity).
    rewrite Hrun in Hb. exact Hb. }
  destruct (spectrum_continuum_normalised e) as [sn|] eqn:Hsn'; [|discriminate].
  injection Hsn as Hvalues.
  destruct (@bad_pixels_reset Sample.runtime Sample.instance Sample.manifest_heap Sample.outdir
              Sample.times Sample.lrs_definitions "outdir_LRS" "LRS" 0 (NInt 20) 1 h' e sn
              Hrun Hsn')
    as (d & st & raw & _ & _ & _ & Hlen & Hpix).
  exists h', e, sn, raw.
  split; [exact Hrun|]. split; [exact Hsn'|]. split; [exact Hvalues|].
  split; [exact Hlen | exact Hpix].
Defined.

(* ===================================================================== *)
(** * The heap of dictionary objects *)
(* ===================================================================== *)

Lemma dict_setitem_ne (h : heap) (l l' : loc) (k : string) (v : pyval) :
  l' <> l -> dict_setitem h l k v !! l' = h !! l'.
Proof. intros Hne. unfold dict_setitem. apply lookup_insert_ne. congruence. Qed.

Lemma dict_setitem_eq (h : heap) (l : loc) (k : string) (v : pyval) :
  dict_setitem h l k v !! l = Some (<[k := v]> (dict_get h l)).
Proof. unfold dict_setitem. apply lookup_insert_eq. Qed.

Lemma dict_setitem_dom (h : heap) (l : loc) (k : string) (v : pyval) :
  dom (dict_setitem h l k v) = {[l]} ∪ dom h.
Proof. unfold dict_setitem. apply dom_insert_L. Qed.

Lemma dict_get_setitem_eq (h : heap) (l : loc) (k : string) (v : pyval) :
  dict_get (dict_setitem h l k v) l = <[k := v]> (dict_get h l).
Proof. unfold dict_get at 1. rewrite dict_setitem_eq. reflexivity. Qed.

Lemma dict_get_setitem_ne (h : heap) (l l' : loc) (k : string) (v : pyval) :
  l' <> l -> dict_get (dict_setitem h l k v) l' = dict_get h l'.
Proof. intros Hne. unfold dict_get. rewrite dict_setitem_ne by exact Hne. reflexivity. Qed.

Lemma dict_copy_fresh (h : heap) (l : loc) : (dict_copy h l).1 ∉ dom h.
Proof. unfold dict_copy. simpl. apply is_fresh. Qed.


Lemma heap_extends_refl (S : loc -> Prop) (h : heap) : heap_extends S h h.
Proof. split; [set_solver | reflexivity]. Qed.

Lemma heap_extends_trans (S : loc -> Prop) (h1 h2 h3 : heap) :
  heap_extends S h1 h2 -> heap_extends S h2 h3 -> heap_extends S h1 h3.
Proof.
  intros [Hd1 Hf1] [Hd2 Hf2]. split; [set_solver|].
  intros l Hl HS. rewrite Hf2 by (auto; set_solver). auto.
Qed.

Lemma heap_extends_weaken (S S' : loc -> Prop) (h h' : heap) :
  (forall l, S l -> S' l) -> heap_extends S h h' -> heap_extends S' h h'.
Proof. intros HS [Hd Hf]. split; [exact Hd|]. intros l Hl Hn. apply Hf; auto. Qed.

(** What the assignments of [attach_metadata] leave in the heap. *)
Lemma attach_metadata_spec (self : FourFS) (h : heap) (ls : loc)
    (times : gmap string float) (defs : list (option string)) (snr : pynum) (rc : Z)
    (h1 : heap) :
  attach_metadata self h ls times defs snr rc = Ok h1 ->
  dom h1 = {[ls]} ∪ dom h /\
  (forall l, l <> ls -> h1 !! l = h !! l) /\
  exists snr_f mag_f sd,
    py_float_of_num snr = Ok snr_f /\
    py_float_of_num (magnitude self) = Ok mag_f /\
    snr_definition_value defs = Ok sd /\
    dict_get h1 ls =
      <["snr_definition" := sd]>
        (<["exposure" := PyFloat (exposure_of times rc)]>
           (<["magnitude" := PyFloat mag_f]>
              (<["SNR_per" := PyStr (snr_per self)]>
                 (<["SNR" := PyFloat snr_f]>
                    (<["continuum_normalised" := PyInt 0]> (dict_get h ls)))))).
Proof.
  unfold attach_metadata. intros Hh.
  apply bind_Ok in Hh as (snr_f & Hsnr & Hh).
  apply bind_Ok in Hh as (mag_f & Hmag & Hh).
  apply bind_Ok in Hh as (sd & Hsd & Hh).
  injection Hh as <-. split; [|split].
  - rewrite !dict_setitem_dom. set_solver.
  - intros l Hl. rewrite !dict_setitem_ne by exact Hl. reflexivity.
  - exists snr_f, mag_f, sd. repeat (split; [assumption|]).
    rewrite !dict_get_setitem_eq. reflexivity.
Qed.

Lemma attach_metadata_exposure (self : FourFS) (h : heap) (ls : loc)
    (times : gmap string float) (defs : list (option string)) (snr : pynum) (rc : Z)
    (h1 : heap) :
  attach_metadata self h ls times defs snr rc = Ok h1 ->
  dict_get h1 ls !! "exposure" = Some (PyFloat (exposure_of times rc)).
Proof.
  intros Hh. apply attach_metadata_spec in Hh as (_ & _ & snr_f & mag_f & sd & _ & _ & _ & ->).
  rewrite lookup_insert_ne by discriminate. apply lookup_insert_eq.
Qed.

(** The heap after one iteration of the combiner: only the object kept in
    the store for the template has changed, and each spectrum returned has a
    dictionary object of its own, allocated in this iteration. *)
Lemma combine_pair_heap `{PyRuntime} self h fs times defs path setup i snr rc h' e :
  combine_pair self h fs times defs path setup i snr rc = Ok (h', e) ->
  exists ls h1 lsp,
    metadata_store self !! i = Some ls /\
    attach_metadata self h ls times defs snr rc = Ok h1 /\
    heap_extends (eq ls) h h' /\
    ls ∈ dom h' /\
    metadata (spectrum e) = Some lsp /\
    lsp ∉ dom h /\ lsp <> ls /\
    h' !! lsp = Some (dict_get h1 ls) /\
    forall sn, spectrum_continuum_normalised e = Some sn ->
      exists lnp, metadata sn = Some lnp /\
        lnp ∉ dom h /\ lnp <> ls /\ lnp <> lsp /\
        h' !! lnp = Some (<["continuum_normalised" := PyInt 1]> (dict_get h1 ls)).
Proof.
  intros Hc.
  apply combine_pair_inv in Hc as (d & st & ls & h1 & errors & _ & _ & Hls & Hh1 & _ & Hsp & Hcn).
  exists ls, h1, (dict_copy h1 ls).1. split; [exact Hls|]. split; [exact Hh1|].
  destruct (attach_metadata_spec _ _ _ _ _ _ _ _ Hh1) as (Hdom & Hframe & _).
  pose proof (dict_copy_fresh h1 ls) as Hfresh.
  set (lsp := (dict_copy h1 ls).1) in *.
  assert (Hlsp_ls : lsp <> ls) by (intros ->; apply Hfresh; rewrite Hdom; set_solver).
  assert (Hlsp_h : lsp ∉ dom h) by (rewrite Hdom in Hfresh; set_solver).
  destruct (os_path_exists fs _).
  - destruct Hcn as (n & en & _ & _ & Hh' & Hsn). cbv zeta in Hh'.
    set (hc := (dict_copy h1 ls).2) in *.
    assert (Hhc : hc = <[lsp := dict_get h1 ls]> h1) by reflexivity.
    set (h2 := dict_setitem hc ls "continuum_normalised" (PyInt 1)) in *.
    pose proof (dict_copy_fresh h2 ls) as Hfresh2.
    set (lnp := (dict_copy h2 ls).1) in *.
    assert (Hh'' : h' = <[lnp := dict_get h2 ls]> h2) by (rewrite Hh'; reflexivity).
    assert (Hdom2 : dom h2 = {[ls]} ∪ ({[lsp]} ∪ dom h1)).
    { unfold h2. rewrite dict_setitem_dom, Hhc, dom_insert_L. reflexivity. }
    assert (Hlnp_ls : lnp <> ls) by (intros ->; apply Hfresh2; rewrite Hdom2; set_solver).
    assert (Hlnp_lsp : lnp <> lsp) by (intros Heq; apply Hfresh2; rewrite Heq, Hdom2; set_solver).
    assert (Hlnp_h : lnp ∉ dom h) by (rewrite Hdom2, Hdom in Hfresh2; set_solver).
    assert (Hget2 : dict_get h2 ls = <["continuum_normalised" := PyInt 1]> (dict_get h1 ls)).
    { unfold h2. rewrite dict_get_setitem_eq. f_equal. unfold dict_get.
      rewrite Hhc, lookup_insert_ne by congruence. reflexivity. }
    repeat split.
    + rewrite Hh'', dom_insert_L, Hdom2, Hdom. set_solver.
    + intros l Hl Hne. rewrite Hh''.
      rewrite lookup_insert_ne by (intros ->; contradiction).
      unfold h2. rewrite dict_setitem_ne by congruence.
      rewrite Hhc, lookup_insert_ne by (intros ->; contradiction).
      apply Hframe. congruence.
    + rewrite Hh'', dom_insert_L, Hdom2. set_solver.
    + rewrite Hsp. reflexivity.
    + exact Hlsp_h.
    + exact Hlsp_ls.
    + rewrite Hh'', lookup_insert_ne by exact Hlnp_lsp.
      unfold h2. rewrite dict_setitem_ne by exact Hlsp_ls.
      rewrite Hhc. apply lookup_insert_eq.
    + intros sn Hsn'. rewrite Hsn in Hsn'. injection Hsn' as <-.
      exists lnp. simpl. repeat (split; [reflexivity || assumption|]).
      rewrite Hh'', lookup_insert_eq, Hget2. reflexivity.
  - destruct Hcn as [Hh' Hnone].
    assert (Hh'' : h' = <[lsp := dict_get h1 ls]> h1) by (rewrite Hh'; reflexivity).
    repeat split.
    + rewrite Hh'', dom_insert_L, Hdom. set_solver.
    + intros l Hl Hne. rewrite Hh''.
      rewrite lookup_insert_ne by (intros ->; contradiction).
      apply Hframe. congruence.
    + rewrite Hh'', dom_insert_L, Hdom. set_solver.
    + rewrite Hsp. reflexivity.
    + exact Hlsp_h.
    + exact Hlsp_ls.
    + rewrite Hh''. apply lookup_insert_eq.
    + intros sn Hsn. congruence.
Qed.

(* ===================================================================== *)
(** * The loops of the combiner *)
(* ===================================================================== *)


Lemma store_allocated_extends (S : loc -> Prop) (self : FourFS) (h h' : heap) :
  store_allocated self h -> heap_extends S h h' -> store_allocated self h'.
Proof. intros Ha [Hd _] i l Hl. apply Hd, (Ha i l Hl). Qed.

Lemma own_metadata_extends (self : FourFS) (h0 h h' : heap) (s : Spectrum) :
  own_metadata self h0 h s -> heap_extends (is_store_loc self) h h' ->
  own_metadata self h0 h' s /\ metadata_of h' s = metadata_of h s.
Proof.
  intros (l & Hl & Hl0 & Hlh & Hns) [Hd Hf]. split.
  - exists l. repeat split; auto.
  - unfold metadata_of. rewrite Hl. unfold dict_get. rewrite Hf by assumption. reflexivity.
Qed.

Lemma entry_exposure_extends (self : FourFS) (h0 h h' : heap) (x : float) (e : output_entry) :
  entry_exposure self h0 h x e -> heap_extends (is_store_loc self) h h' ->
  entry_exposure self h0 h' x e.
Proof.
  intros (Ho & Hx & Hsn) Hext.
  destruct (own_metadata_extends _ _ _ _ _ Ho Hext) as [Ho' Hm].
  split; [exact Ho'|]. split; [rewrite Hm; exact Hx|].
  intros sn Hs. destruct (Hsn sn Hs) as (Hon & Hxn & Hne).
  destruct (own_metadata_extends _ _ _ _ _ Hon Hext) as [Hon' Hmn].
  split; [exact Hon'|]. split; [rewrite Hmn; exact Hxn | exact Hne].
Qed.

(** One iteration, seen from the loops. *)
Lemma combine_pair_entry `{PyRuntime} self h0 h fs times defs path setup i snr rc h' e :
  store_allocated self h -> dom h0 ⊆ dom h ->
  combine_pair self h fs times defs path setup i snr rc = Ok (h', e) ->
  heap_extends (is_store_loc self) h h' /\
  entry_exposure self h0 h' (exposure_of times rc) e.
Proof.
  intros Ha Hd0 Hc.
  apply combine_pair_heap in Hc
    as (ls & h1 & lsp & Hls & Hh1 & Hext & Hlsd & Hsp & Hlsp & Hne & Hcontent & Hsn).
  pose proof (attach_metadata_exposure _ _ _ _ _ _ _ _ Hh1) as Hexp.
  assert (Hfresh_store : forall l, l ∉ dom h -> ~ is_store_loc self l).
  { intros l Hl [j Hj]. apply Hl, (Ha j l Hj). }
  split.
  { apply (heap_extends_weaken (eq ls)); [|exact Hext]. intros l <-. exists i. exact Hls. }
  split; [|split].
  - exists lsp. repeat split; auto.
    apply elem_of_dom. rewrite Hcontent. eauto.
  - unfold metadata_of, dict_get. rewrite Hsp, Hcontent. exact Hexp.
  - intros sn Hs. destruct (Hsn sn Hs) as (lnp & Hmn & Hlnp & Hnls & Hnlsp & Hcn).
    split; [|split].
    + exists lnp. repeat split; auto. apply elem_of_dom. rewrite Hcn. eauto.
    + unfold metadata_of, dict_get. rewrite Hmn, Hcn. simpl.
      rewrite lookup_insert_ne by discriminate. exact Hexp.
    + rewrite Hmn, Hsp. congruence.
Qed.

Section Loops.
Context `{PyRuntime}.
Variables (self : FourFS) (fs : filesystem) (times : gmap string float)
          (defs : list (option string)) (path setup : string) (h0 : heap).

(** The loop over the SNRs of one template. *)
Lemma snr_loop (i : Z) (snrs : list pynum) (st st' : combine_state) :
  store_allocated self (cs_heap st) -> dom h0 ⊆ dom (cs_heap st) ->
  for_each (combine_snr_step self fs times defs path setup i) snrs st = Ok st' ->
  heap_extends (is_store_loc self) (cs_heap st) (cs_heap st') /\
  cs_run_counter st' = cs_run_counter st + Z.of_nat (length snrs) /\
  exists new,
    cs_entries st' = cs_entries st ++ new /\
    length new = length snrs /\
    forall (b : nat) (snr : pynum), snrs !! b = Some snr ->
      exists e, new !! b = Some (snr, e) /\
        entry_exposure self h0 (cs_heap st')
          (exposure_of times (cs_run_counter st + Z.of_nat b + 1)) e.
Proof.
  revert st. induction snrs as [|snr snrs IH]; intros st Ha Hd Hloop; simpl in Hloop.
  - injection Hloop as <-. split; [apply heap_extends_refl|].
    split; [simpl; lia|]. exists []. rewrite app_nil_r.
    repeat split. intros b s Hb. discriminate.
  - apply bind_Ok in Hloop as (st1 & Hstep & Hloop).
    unfold combine_snr_step in Hstep.
    apply bind_Ok in Hstep as ([h1 e] & Hpair & Hst1). injection Hst1 as <-.
    destruct (combine_pair_entry _ h0 _ _ _ _ _ _ _ _ _ _ _ Ha Hd Hpair) as [Hext He].
    apply IH in Hloop as (Hext' & Hrc & new & Hnew & Hlen & Hall); simpl.
    2:{ simpl. eapply store_allocated_extends; eauto. }
    2:{ simpl. destruct Hext as [Hsub _]. set_solver. }
    simpl in *. split; [eapply heap_extends_trans; eauto|].
    split; [lia|].
    exists ((snr, e) :: new). split; [rewrite Hnew, <- app_assoc; reflexivity|].
    split; [simpl; lia|].
    intros [|b] s Hb; simpl in Hb.
    + injection Hb as <-. exists e. split; [reflexivity|].
      replace (cs_run_counter st + Z.of_nat 0 + 1) with (cs_run_counter st + 1) by lia.
      eapply entry_exposure_extends; eauto.
    + destruct (Hall b s Hb) as (e' & He' & Hx). exists e'. split; [exact He'|].
      replace (cs_run_counter st + Z.of_nat (S b) + 1)
        with (cs_run_counter st + 1 + Z.of_nat b + 1) by lia.
      exact Hx.
Qed.

(** The loop over the templates. *)
Lemma template_loop (tn : list Z) (h : heap) (rc : Z) (out : output_dict)
    (h' : heap) (rc' : Z) (out' : output_dict) :
  store_allocated self h -> dom h0 ⊆ dom h ->
  for_each (combine_template_step self fs times defs path setup) tn (h, rc, out)
    = Ok (h', rc', out') ->
  heap_extends (is_store_loc self) h h' /\
  rc' = rc + Z.of_nat (length tn) * Z.of_nat (length (snr_list self)) /\
  exists new,
    out' = out ++ new /\
    length new = length tn /\
    forall (a : nat) (i : Z), tn !! a = Some i ->
      exists entries, new !! a = Some (i, entries) /\
        length entries = length (snr_list self) /\
        forall (b : nat) (snr : pynum), snr_list self !! b = Some snr ->
          exists e, entries !! b = Some (snr, e) /\
            entry_exposure self h0 h'
              (exposure_of times
                 (rc + Z.of_nat a * Z.of_nat (length (snr_list self)) + Z.of_nat b + 1)) e.
Proof.
  revert h rc out. induction tn as [|i tn IH]; intros h rc out Ha Hd Hloop; simpl in Hloop.
  - injection Hloop as <- <- <-. split; [apply heap_extends_refl|].
    split; [simpl; lia|]. exists []. rewrite app_nil_r.
    repeat split. intros a i Hi. discriminate.
  - apply bind_Ok in Hloop as ([[h1 rc1] out1] & Hstep & Hloop).
    unfold combine_template_step in Hstep.
    apply bind_Ok in Hstep as (st1 & Hinner & Hst1). injection Hst1 as <- <- <-.
    apply snr_loop in Hinner as (Hext & Hrc & new1 & Hnew1 & Hlen1 & Hall1); [|exact Ha|exact Hd].
    simpl in Hext, Hrc, Hnew1, Hall1. rewrite Hnew1 in Hloop.
    apply IH in Hloop as (Hext' & Hrc' & new & Hnew & Hlen & Hall).
    2:{ eapply store_allocated_extends; eauto. }
    2:{ destruct Hext as [Hsub _]. set_solver. }
    rewrite Hrc in Hrc', Hall.
    split; [eapply heap_extends_trans; eauto|].
    split; [simpl length; lia|].
    exists ((i, new1) :: new). split; [rewrite Hnew, <- app_assoc; reflexivity|].
    split; [simpl; lia|].
    intros [|a] j Hj; simpl in Hj.
    + injection Hj as <-. exists new1. split; [reflexivity|]. split; [exact Hlen1|].
      intros b snr Hb. destruct (Hall1 b snr Hb) as (e & He & Hx).
      exists e. split; [exact He|].
      replace (rc + Z.of_nat 0 * Z.of_nat (length (snr_list self)) + Z.of_nat b + 1)
        with (rc + Z.of_nat b + 1) by lia.
      eapply entry_exposure_extends; eauto.
    + destruct (Hall a j Hj) as (entries & Hent & Hlen' & Hx).
      exists entries. split; [exact Hent|]. split; [exact Hlen'|].
      intros b snr Hb. destruct (Hx b snr Hb) as (e & He & Hxe).
      exists e. split; [exact He|].
      replace (rc + Z.of_nat (S a) * Z.of_nat (length (snr_list self)) + Z.of_nat b + 1)
        with (rc + Z.of_nat (length (snr_list self)) +
              Z.of_nat a * Z.of_nat (length (snr_list self)) + Z.of_nat b + 1) by lia.
      exact Hxe.
Qed.
End Loops.

(* ===================================================================== *)
(** * The run summary *)
(* ===================================================================== *)

Lemma py_str_int_inj (a b : Z) : py_str_int a = py_str_int b -> a = b.
Proof. unfold py_str_int. apply pretty_Z_inj. Qed.

(** A line either leaves [exposure_times] alone or records the time of the
    run it is kept for. *)
Lemma summary_line_inv `{PyRuntime} (times times' : gmap string float) (line : string) :
  summary_line times line = Ok times' ->
  match line_run line with
  | None => times' = times
  | Some run => times' = <[py_str_int run := line_time line]> times
  end.
Proof.
  unfold summary_line, line_run, line_time.
  destruct (decide (length (String.words line) < 6)%nat) as [Hlt|Hge].
  - intros [= <-]. reflexivity.
  - intros Hs. apply bind_Ok in Hs as (w0 & Hw0 & Hs). apply or_raise_Ok in Hw0.
    rewrite Hw0. simpl. destruct (py_int w0) as [run|].
    + apply bind_Ok in Hs as (w5 & Hw5 & Hs). apply or_raise_Ok in Hw5. rewrite Hw5.
      apply bind_Ok in Hs as (t & Ht & Hs). injection Hs as <-.
      destruct (bool_decide (w5 = "nan")).
      * injection Ht as <-. reflexivity.
      * apply or_raise_Ok in Ht. rewrite Ht. reflexivity.
    + injection Hs as <-. reflexivity.
Qed.

Lemma exposure_of_insert (times : gmap string float) (run r : Z) (t : float) :
  exposure_of (<[py_str_int run := t]> times) r
  = if bool_decide (run = r) then t else exposure_of times r.
Proof.
  unfold exposure_of. destruct (bool_decide (run = r)) eqn:Hr.
  - apply bool_decide_eq_true in Hr as ->. rewrite lookup_insert_eq. reflexivity.
  - apply bool_decide_eq_false in Hr.
    rewrite lookup_insert_ne; [reflexivity|]. intros Heq. apply Hr, py_str_int_inj, Heq.
Qed.

Lemma find_app_last {A} (f : A -> bool) (l1 l2 : list A) :
  List.find f (l1 ++ l2) =
    match List.find f l1 with Some x => Some x | None => List.find f l2 end.
Proof.
  induction l1 as [|x l1 IH]; simpl; [reflexivity|]. destruct (f x); [reflexivity | exact IH].
Qed.

Lemma summary_loop_exposure `{PyRuntime} (lines : list string)
    (times times' : gmap string float) (r : Z) :
  for_each summary_line lines times = Ok times' ->
  exposure_of times' r =
    match List.find (fun line => bool_decide (line_run line = Some r)) (rev lines) with
    | Some line => line_time line
    | None => exposure_of times r
    end.
Proof.
  revert times. induction lines as [|line lines IH]; intros times Hloop; simpl in Hloop.
  - injection Hloop as <-. reflexivity.
  - apply bind_Ok in Hloop as (times1 & Hline & Hloop).
    rewrite (IH _ Hloop). simpl rev. rewrite find_app_last.
    destruct (List.find _ (rev lines)) as [l|]; [reflexivity|].
    apply summary_line_inv in Hline. simpl.
    destruct (line_run line) as [run|] eqn:Hrun.
    + subst times1. rewrite exposure_of_insert.
      destruct (bool_decide (run = r)) eqn:Hr.
      * apply bool_decide_eq_true in Hr as ->. rewrite bool_decide_eq_true_2; reflexivity.
      * apply bool_decide_eq_false in Hr. rewrite bool_decide_eq_false_2; [reflexivity|].
        congruence.
    + subst times1. rewrite bool_decide_eq_false_2 by discriminate. reflexivity.
Qed.

(** The table read from the summary answers as the summary does. *)
Lemma read_exposure_times_spec `{PyRuntime} (fs : filesystem) (path : string)
    (lines : list string) (times : gmap string float) (r : Z) :
  open_text fs (os_path_join path "4FS_ETC_summary.txt") = Ok lines ->
  read_exposure_times fs path = Ok times ->
  exposure_of times r = summary_exposure lines r.
Proof.
  unfold read_exposure_times. intros Hopen Hread. rewrite Hopen in Hread. simpl in Hread.
  rewrite (summary_loop_exposure _ _ _ r Hread). unfold summary_exposure.
  destruct (List.find _ _); [reflexivity|]. unfold exposure_of. rewrite lookup_empty. reflexivity.
Qed.

(** C4.  The combiner counts the (template, SNR) iterations from 1: the
    pair of the [a]-th template and the [b]-th SNR (both from 0) is run
    [a * len(snr_list) + b + 1], and the ['exposure'] entry of the metadata
    of both spectra returned for the pair is the exposure time of the
    summary line whose first field is that integer, NaN when the summary
    has no such line. *)
Theorem exposure_by_run_counter `{PyRuntime}
    (self : FourFS) (h : heap) (fs : filesystem) (template_numbers : list Z)
    (path setup : string) (lines : list string) (h' : heap) (out : output_dict) :
  store_allocated self h ->
  open_text fs (os_path_join path "4FS_ETC_summary.txt") = Ok lines ->
  combine_spectra self h fs template_numbers path setup = Ok (h', out) ->
  length out = length template_numbers /\
  forall (a b : nat) (i : Z) (snr : pynum),
    template_numbers !! a = Some i -> snr_list self !! b = Some snr ->
    exists entries e,
      out !! a = Some (i, entries) /\ entries !! b = Some (snr, e) /\
      let r := Z.of_nat a * Z.of_nat (length (snr_list self)) + Z.of_nat b + 1 in
      metadata_of h' (spectrum e) !! "exposure" = Some (PyFloat (summary_exposure lines r)) /\
      forall sn, spectrum_continuum_normalised e = Some sn ->
        metadata_of h' sn !! "exposure" = Some (PyFloat (summary_exposure lines r)).
Proof.
  intros Ha Hopen Hc. unfold combine_spectra in Hc.
  apply bind_Ok in Hc as (times & Htimes & Hc).
  apply bind_Ok in Hc as ([[h1 rc1] out1] & Hloop & Hc). injection Hc as <- <-.
  apply (template_loop _ _ _ _ _ _ h) in Hloop as (_ & _ & new & Hnew & Hlen & Hall);
    [|exact Ha|set_solver].
  simpl in Hnew. subst out1. split; [exact Hlen|].
  intros a b i snr Hi Hsnr.
  destruct (Hall a i Hi) as (entries & Hent & _ & Hx).
  destruct (Hx b snr Hsnr) as (e & He & (_ & Hexp & Hsn)).
  exists entries, e. split; [exact Hent|]. split; [exact He|].
  cbv zeta. rewrite <- (read_exposure_times_spec fs path lines times _ Hopen Htimes).
  replace (Z.of_nat a * Z.of_nat (length (snr_list self)) + Z.of_nat b + 1)
    with (0 + Z.of_nat a * Z.of_nat (length (snr_list self)) + Z.of_nat b + 1) by lia.
  split; [exact Hexp|].
  intros sn Hs. destruct (Hsn sn Hs) as (_ & Hexpn & _). exact Hexpn.
Qed.

Lemma store_allocated_sample : store_allocated Sample.instance Sample.manifest_heap.
Proof.
  intros i l Hl. unfold Sample.instance in Hl. simpl in Hl.
  apply lookup_singleton_Some in Hl as [_ <-].
  apply elem_of_dom. eexists. vm_compute. reflexivity.
Qed.

Lemma exposure_by_run_counter_witness :
  exists h' out entries e,
    Sample.combined Sample.outdir = Ok (h', out) /\
    out !! 0%nat = Some (0, entries) /\ entries !! 2%nat = Some (NInt 80, e) /\
    metadata_of h' (spectrum e) !! "exposure" = Some (PyFloat 120.5%float).
Proof.
  destruct (succeeded_Ok (Sample.combined Sample.outdir) ltac:(vm_compute; reflexivity))
    as [[h' out] Hrun].
  destruct (@exposure_by_run_counter Sample.runtime Sample.instance Sample.manifest_heap
              Sample.outdir [0] "outdir_LRS" "LRS" Sample.summary h' out
              store_allocated_sample ltac:(vm_compute; reflexivity) Hrun)
    as [_ Hall].
  destruct (Hall 0%nat 2%nat 0 (NInt 80) ltac:(reflexivity) ltac:(reflexivity))
    as (entries & e & Hent & He & Hexp & _).
  exists h', out, entries, e.
  split; [exact Hrun|]. split; [exact Hent|]. split; [exact He|].
  rewrite Hexp. vm_compute. reflexivity.
Defined.

(** C5.  A summary line with fewer than six whitespace-separated fields
    is skipped, and so is a line whose first field is not an integer;
    neither raises.  A line that is kept records, for its run number, NaN
    when its sixth field is the string "nan", and otherwise its sixth field
    read as a float. *)
Theorem summary_line_cases `{PyRuntime} (exposure_times : gmap string float) (line : string) :
  ((length (String.words line) < 6)%nat ->
   summary_line exposure_times line = Ok exposure_times) /\
  (forall w0, String.words line !! 0%nat = Some w0 -> py_int w0 = None ->
   summary_line exposure_times line = Ok exposure_times) /\
  (forall w0 w5 run,
     (6 <= length (String.words line))%nat ->
     String.words line !! 0%nat = Some w0 -> py_int w0 = Some run ->
     String.words line !! 5%nat = Some w5 ->
     (w5 = "nan"%string ->
      summary_line exposure_times line = Ok (<[py_str_int run := f_nan]> exposure_times)) /\
     (forall t, w5 <> "nan"%string -> py_float w5 = Some t ->
      summary_line exposure_times line = Ok (<[py_str_int run := t]> exposure_times))).
Proof.
  unfold summary_line. split; [|split].
  - intros Hlt. destruct (decide _); [reflexivity | contradiction].
  - intros w0 Hw0 Hint. destruct (decide _); [reflexivity|].
    rewrite Hw0. simpl. rewrite Hint. reflexivity.
  - intros w0 w5 run Hlen Hw0 Hint Hw5.
    destruct (decide _) as [Hlt|_]; [lia|].
    rewrite Hw0. simpl. rewrite Hint, Hw5. simpl. split.
    + intros ->. rewrite bool_decide_eq_true_2 by reflexivity. reflexivity.
    + intros t Hne Ht. rewrite bool_decide_eq_false_2 by exact Hne.
      rewrite Ht. reflexivity.
Qed.

Lemma summary_line_cases_witness :
  @summary_line Sample.runtime ∅ "7 short line" = Ok ∅ /\
  @summary_line Sample.runtime ∅ "run template_0_SNR50.0 LRS x y 200.0 z" = Ok ∅ /\
  @summary_line Sample.runtime ∅ "4 template_0_c LRS x y nan z"
    = Ok (<[py_str_int 4 := f_nan]> ∅) /\
  @summary_line Sample.runtime ∅ "3 template_0_SNR80.0 LRS x y 120.5 z"
    = Ok (<[py_str_int 3 := 120.5%float]> ∅).
Proof.
  split; [|split; [|split]].
  - apply (proj1 (@summary_line_cases Sample.runtime ∅ "7 short line")).
    vm_compute. repeat constructor.
  - apply (proj1 (proj2 (@summary_line_cases Sample.runtime ∅
                           "run template_0_SNR50.0 LRS x y 200.0 z")) "run"%string);
      reflexivity.
  - assert (Hlen : (6 <= length (String.words "4 template_0_c LRS x y nan z"))%nat)
      by (vm_compute; repeat constructor).
    destruct (proj2 (proj2 (@summary_line_cases Sample.runtime ∅
                              "4 template_0_c LRS x y nan z"))
                "4"%string "nan"%string 4 Hlen eq_refl eq_refl eq_refl) as [Hnan _].
    exact (Hnan eq_refl).
  - assert (Hlen : (6 <= length (String.words "3 template_0_SNR80.0 LRS x y 120.5 z"))%nat)
      by (vm_compute; repeat constructor).
    destruct (proj2 (proj2 (@summary_line_cases Sample.runtime ∅
                              "3 template_0_SNR80.0 LRS x y 120.5 z"))
                "3"%string "120.5"%string 3 Hlen eq_refl eq_refl eq_refl) as [_ Hfloat].
    apply Hfloat; [discriminate | reflexivity].
Defined.

(* ===================================================================== *)
(** * A missing continuum-only exposure *)
(* ===================================================================== *)

(** Three arms always stitch, and the stitched flux and SNR have one
    value per stitched pixel. *)
Lemma stitch_arms_three (setup : string) (blue green red : list pixel) :
  exists px fl,
    stitch_arms setup [blue; green; red]
    = Ok (mkStitched (map LAMBDA px) (map sky_subtracted px) (map SNR px) fl).
Proof.
  destruct (decide (setup = "LRS"%string)) as [->|Hne].
  - eexists _, _. apply stitch_arms_lrs.
  - eexists _, _. apply stitch_arms_hrs. exact Hne.
Qed.

(** C9.  When the per-band signal outputs of a (template, SNR) pair are
    there and its continuum-only output is absent, the iteration raises
    nothing, returns the flux-calibrated spectrum of the stitched arms, and
    returns None in place of the continuum-normalised spectrum. *)
Theorem missing_continuum_not_fatal `{PyRuntime}
    (self : FourFS) (h : heap) (fs : filesystem) (times : gmap string float)
    (defs : list (option string)) (path setup : string) (i : Z) (snr : pynum) (rc : Z)
    (d : list (list pixel)) (ls : loc) (snr_f mag_f : float) (sd : pyval) :
  map_result (load_band fs path setup defs i snr)
    (imap (fun j band => (j, band)) bands) = Ok d ->
  fs !! continuum_filename path setup i "blue" = None ->
  metadata_store self !! i = Some ls ->
  py_float_of_num snr = Ok snr_f ->
  py_float_of_num (magnitude self) = Ok mag_f ->
  snr_definition_value defs = Ok sd ->
  exists h' sp st,
    combine_pair self h fs times defs path setup i snr rc
      = Ok (h', mkOutputEntry sp None) /\
    stitch_arms setup d = Ok st /\
    wavelengths sp = wavelengths_final st /\
    values sp = fluxes_final st.
Proof.
  intros Hd Habs Hls Hsnr Hmag Hsd.
  destruct (load_bands_three _ _ _ _ _ _ _ Hd) as (blue & green & red & ->).
  destruct (stitch_arms_three setup blue green red) as (px & fl & Hst).
  unfold combine_pair. rewrite Hd. simpl. rewrite Hst. simpl.
  unfold os_path_exists. rewrite Habs.
  rewrite bool_decide_eq_false_2 by (intros [x Hx]; discriminate). simpl.
  rewrite Hls. simpl.
  unfold attach_metadata. rewrite Hsnr. simpl. rewrite Hmag. simpl. rewrite Hsd. simpl.
  unfold np_div. rewrite np_broadcast_same_length by (rewrite !length_map; reflexivity).
  simpl. unfold Spectrum_init.
  rewrite !bool_decide_eq_true_2
    by (rewrite ?length_zip_with, !length_map; lia).
  simpl. eexists _, _, _. split; [reflexivity|]. split; [reflexivity|]. split; reflexivity.
Qed.

Lemma missing_continuum_not_fatal_witness :
  exists h' sp,
    Sample.pair Sample.outdir_no_continuum 50 2 = Ok (h', mkOutputEntry sp None) /\
    wavelengths sp = [5000; 5300; 5400; 7000; 7100; 8000]%float.
Proof.
  destruct (@missing_continuum_not_fatal Sample.runtime Sample.instance Sample.manifest_heap
              Sample.outdir_no_continuum Sample.times Sample.lrs_definitions
              "outdir_LRS" "LRS" 0 (NInt 50) 2
              [Sample.blue_arm; Sample.green_arm; Sample.red_arm] 2%positive
              50%float 14%float (PyStr "MEDIANSNR")
              ltac:(vm_compute; reflexivity) ltac:(vm_compute; reflexivity)
              ltac:(reflexivity) ltac:(vm_compute; reflexivity)
              ltac:(vm_compute; reflexivity) ltac:(vm_compute; reflexivity))
    as (h' & sp & st & Hrun & Hst & Hw & _).
  exists h', sp. split; [exact Hrun|].
  rewrite Hw. rewrite stitch_arms_lrs in Hst. injection Hst as <-. reflexivity.
Defined.

(* ===================================================================== *)
(** * float64: multiplication by one *)
(* ===================================================================== *)

Lemma mul_pow52 (m : positive) : (m * 4503599627370496)%positive = shift_left 52 m.
Proof. rewrite Pos.mul_comm. reflexivity. Qed.

Lemma digits2_pos_shift_left (n : nat) (m : positive) :
  Z.pos (digits2_pos (shift_left n m)) = Z.pos (digits2_pos m) + Z.of_nat n.
Proof.
  induction n as [|n IH].
  - simpl. lia.
  - change (shift_left (S n) m) with (xO (shift_left n m)).
    change (digits2_pos (xO (shift_left n m))) with (Pos.succ (digits2_pos (shift_left n m))).
    rewrite Pos2Z.inj_succ, IH. lia.
Qed.

Lemma iter_shr_shift_left (n : nat) (m : positive) :
  iter_nat shr_1 n (Build_shr_record (Z.pos (shift_left n m)) false false)
  = Build_shr_record (Z.pos m) false false.
Proof.
  induction n as [|n IH]; [reflexivity|]. simpl. exact IH.
Qed.

Lemma iter_pos_52 {A} (f : A -> A) (x : A) : SpecFloat.iter_pos f 52 x = iter_nat f 52 x.
Proof. reflexivity. Qed.

Lemma SFmul_one (x : spec_float) :
  valid_binary x = true ->
  SF64mul x (S754_finite false 4503599627370496 (-52)) = x.
Proof.
  intros Hv. destruct x as [s|s| |s m e]; unfold SF64mul, SFmul.
  - rewrite xorb_false_r. reflexivity.
  - rewrite xorb_false_r. reflexivity.
  - reflexivity.
  - rewrite xorb_false_r.
    unfold SpecFloat.valid_binary, bounded, canonical_mantissa in Hv.
    apply andb_true_iff in Hv as [Hc Hb].
    apply Z.eqb_eq in Hc.
    unfold binary_round_aux, shr_fexp at 1.
    unfold Zdigits2. rewrite mul_pow52, digits2_pos_shift_left.
    replace (Z.pos (digits2_pos m) + Z.of_nat 52 + (e + -52)) with (Z.pos (digits2_pos m) + e) by lia.
    rewrite Hc.
    replace (e - (e + -52)) with 52 by lia.
    unfold shr, shr_record_of_loc. rewrite iter_pos_52, iter_shr_shift_left.
    cbn [shr_m loc_of_shr_record round_nearest_even].
    unfold shr_fexp, Zdigits2.
    replace (e + -52 + 52) with e by lia.
    rewrite Hc. rewrite Z.sub_diag. cbn [shr shr_record_of_loc shr_m].
    rewrite Hb. reflexivity.
Qed.

Lemma fmul_one (x : float) : fmul x f_one = x.
Proof.
  apply Prim2SF_inj. unfold fmul. rewrite mul_spec.
  change (Prim2SF f_one) with (S754_finite false 4503599627370496 (-52)).
  apply SFmul_one, Prim2SF_valid.
Qed.

(* ===================================================================== *)
(** * Template renormalisation *)
(* ===================================================================== *)

Lemma template_data_in_place (input : Spectrum) (cn : option Spectrum)
    (continuum_only : bool) (data : list float) :
  template_data input cn continuum_only = Ok (data, true) -> data = values input.
Proof.
  unfold template_data. destruct cn as [cn|].
  - intros Ht. apply bind_Ok in Ht as (u & _ & Ht).
    destruct (negb continuum_only).
    + injection Ht as <-. reflexivity.
    + apply bind_Ok in Ht as (d & _ & Ht). discriminate.
  - intros [= <-]. reflexivity.
Qed.

Lemma header_card_Ok (v v' : float) :
  header_card v = Ok v' ->
  v' = v /\ PrimFloat.is_nan v = false /\ PrimFloat.is_infinity v = false.
Proof.
  unfold header_card. destruct (PrimFloat.is_nan v), (PrimFloat.is_infinity v); simpl;
    try discriminate. intros [= <-]. auto.
Qed.

(** What a call of [make_fits_spectral_template] leaves. *)
Lemma make_fits_inv `{PyRuntime} (self : FourFS) (h : heap) (sp : Spectrum)
    (cn : option Spectrum) (res : option float) (continuum_only : bool)
    (t : FitsTemplate) (sp' : Spectrum) :
  make_fits_spectral_template self h sp cn res continuum_only = Ok (t, sp') ->
  exists data in_place magnitude,
    template_data sp cn continuum_only = Ok (data, in_place) /\
    template_magnitude self h sp data = Ok magnitude /\
    hdu_data t = map (fun x => fmul x (renormalisation_factor self magnitude)) data /\
    sp' = (if (in_place : bool)
           then mkSpectrum (wavelengths sp) (hdu_data t) (value_errors sp) (metadata sp)
                  (raster_hash sp)
           else sp) /\
    np_min (wavelengths sp) = Ok (CRVAL1 t) /\
    header_card (CRVAL1 t) = Ok (CRVAL1 t) /\
    (exists w0 w1 rest, wavelengths sp = w0 :: w1 :: rest /\ CDELT1 t = fsub w1 w0) /\
    header_card (CDELT1 t) = Ok (CDELT1 t) /\
    ABMAG t = reference_magnitude self /\
    header_card (ABMAG t) = Ok (ABMAG t) /\
    match res with
    | Some r => exists v, RESOLUTN t = Some v /\
                          v = np_mean (map (fun w => fdiv w r) (wavelengths sp)) /\
                          header_card v = Ok v
    | None => RESOLUTN t = None
    end.
Proof.
  unfold make_fits_spectral_template. intros Hm.
  apply bind_Ok in Hm as ([data in_place] & Hd & Hm).
  apply bind_Ok in Hm as (lmin & Hmin & Hm).
  apply bind_Ok in Hm as (dl & Hdl & Hm).
  apply bind_Ok in Hm as (fs & _ & Hm).
  apply bind_Ok in Hm as (m & Hmag & Hm).
  apply bind_Ok in Hm as (crval1 & Hc1 & Hm).
  apply bind_Ok in Hm as (cdelt1 & Hc2 & Hm).
  apply bind_Ok in Hm as (abmag & Hc3 & Hm).
  apply bind_Ok in Hm as (resolutn & Hc4 & Hm).
  injection Hm as <- <-. exists data, in_place, m. simpl.
  pose proof (header_card_Ok _ _ Hc1) as (-> & _ & _).
  pose proof (header_card_Ok _ _ Hc2) as (-> & _ & _).
  pose proof (header_card_Ok _ _ Hc3) as (-> & _ & _).
  repeat (split; [assumption || reflexivity|]).
  split.
  { destruct (wavelengths sp) as [|w0 [|w1 rest]]; try discriminate.
    injection Hdl as <-. eauto. }
  split; [assumption|]. split; [reflexivity|]. split; [assumption|].
  destruct res as [r|].
  - apply bind_Ok in Hc4 as (v & Hv & Hc4). injection Hc4 as <-.
    pose proof (header_card_Ok _ _ Hv) as (-> & _ & _). eauto.
  - injection Hc4 as <-. reflexivity.
Qed.

(** C7.  When the magnitude computed for a template (the photometry, less
    the reddening when the instance asks for unreddened magnitudes) is the
    reference magnitude, the factor [10 ** (-0.4 * (reference - magnitude))]
    is 1 and the flux written to the FITS file is the flux before the
    renormalisation, as is the flux the input spectrum is left with.  The
    hypothesis on [pow] is C99's [pow(x, -0.0) = 1]. *)
Theorem renormalisation_at_reference `{PyRuntime}
    (self : FourFS) (h : heap) (input : Spectrum) (cn : option Spectrum)
    (resolution : option float) (continuum_only : bool)
    (data : list float) (in_place : bool) (t : FitsTemplate) (input' : Spectrum) :
  py_pow 10%float (-0)%float = 1%float ->
  reference_magnitude self = 15%float ->
  template_data input cn continuum_only = Ok (data, in_place) ->
  template_magnitude self h input data = Ok (reference_magnitude self) ->
  make_fits_spectral_template self h input cn resolution continuum_only = Ok (t, input') ->
  renormalisation_factor self (reference_magnitude self) = 1%float /\
  hdu_data t = data /\
  values input' = values input.
Proof.
  intros Hpow Href Hdata Hmag Hmake.
  assert (Hfactor : renormalisation_factor self (reference_magnitude self) = 1%float).
  { unfold renormalisation_factor. rewrite Href.
    change (fmul (-0.4)%float (fsub 15%float 15%float)) with (-0)%float. exact Hpow. }
  split; [exact Hfactor|].
  apply make_fits_inv in Hmake
    as (data' & in_place' & m & Hdata' & Hmag' & Hhdu & Hinput & _).
  rewrite Hdata in Hdata'. injection Hdata' as <- <-.
  rewrite Hmag in Hmag'. injection Hmag' as <-.
  rewrite Hfactor in Hhdu.
  assert (Hid : map (fun x => fmul x 1%float) data = data).
  { clear. induction data as [|x data IH]; simpl; [reflexivity|].
    rewrite IH. f_equal. apply fmul_one. }
  rewrite Hid in Hhdu. split; [exact Hhdu|].
  rewrite Hinput. destruct in_place; [|reflexivity]. simpl. rewrite Hhdu.
  apply template_data_in_place in Hdata. exact Hdata.
Qed.

Lemma renormalisation_at_reference_witness :
  exists t input',
    @make_fits_spectral_template Sample.runtime Sample.instance Sample.caller_heap
      Sample.star (Some Sample.star_cn) (Some 1%float) false = Ok (t, input') /\
    hdu_data t = [1; 2; 3]%float /\ values input' = values Sample.star.
Proof.
  destruct (succeeded_Ok
              (@make_fits_spectral_template Sample.runtime Sample.instance Sample.caller_heap
                 Sample.star (Some Sample.star_cn) (Some 1%float) false)
              ltac:(vm_compute; reflexivity)) as [[t input'] Hmake].
  exists t, input'. split; [exact Hmake|].
  destruct (@renormalisation_at_reference Sample.runtime Sample.instance Sample.caller_heap
              Sample.star (Some Sample.star_cn) (Some 1%float) false
              [1; 2; 3]%float true t input'
              ltac:(reflexivity) ltac:(reflexivity) ltac:(reflexivity)
              ltac:(reflexivity) Hmake) as (_ & Hd & Hv).
  split; [exact Hd | exact Hv].
Defined.

(* ===================================================================== *)
(** * SpectrumArray.extract_item *)
(* ===================================================================== *)

(** C10.  For an array built by [SpectrumArray.__init__] whose value and
    error matrices have the same number of rows, each as long as the
    raster, [extract_item(i)] with [0 <= i < values.shape[0]] returns a
    Spectrum whose wavelengths are the raster of the array and whose
    [raster_hash] is that of the array; any other index fails the
    assertion. *)
Theorem extract_item_raster `{PyRuntime} (w : list float) (v ve : list (list float))
    (index : Z) :
  length ve = length v ->
  Forall (fun row => length row = length w) v ->
  Forall (fun row => length row = length w) ve ->
  (0 <= index < Z.of_nat (length v) ->
   exists s, extract_item (SpectrumArray_init w v ve) index = Ok s /\
             wavelengths s = sa_wavelengths (SpectrumArray_init w v ve) /\
             raster_hash s = sa_raster_hash (SpectrumArray_init w v ve) /\
             v !! Z.to_nat index = Some (values s) /\
             ve !! Z.to_nat index = Some (value_errors s)) /\
  (~ (0 <= index < Z.of_nat (length v)) ->
   extract_item (SpectrumArray_init w v ve) index = Raise AssertionError).
Proof.
  intros Hrows Hv Hve. unfold extract_item, SpectrumArray_init, update_raster_hash. simpl.
  split.
  - intros [H0 Hlt].
    rewrite (bool_decide_eq_true_2 _ H0), (bool_decide_eq_true_2 _ Hlt). simpl.
    destruct (lookup_lt_is_Some_2 v (Z.to_nat index) ltac:(lia)) as [row Hrow].
    destruct (lookup_lt_is_Some_2 ve (Z.to_nat index) ltac:(lia)) as [erow Herow].
    unfold np_row. rewrite Hrow, Herow. simpl.
    pose proof (proj1 (Forall_lookup _ _) Hv _ _ Hrow) as Hlr.
    pose proof (proj1 (Forall_lookup _ _) Hve _ _ Herow) as Hle.
    unfold Spectrum_init.
    rewrite !bool_decide_eq_true_2 by (symmetry; assumption). simpl.
    eexists. split; [reflexivity|]. simpl. auto.
  - intros Hout.
    destruct (bool_decide (0 <= index)) eqn:H0; simpl; [|reflexivity].
    apply bool_decide_eq_true in H0.
    rewrite bool_decide_eq_false_2 by lia. reflexivity.
Qed.

Lemma extract_item_raster_witness :
  exists s,
    @extract_item Sample.runtime
      (@SpectrumArray_init Sample.runtime [5000; 6000]%float
         [[1; 2]; [3; 4]]%float [[0.1; 0.2]; [0.3; 0.4]]%float) 1 = Ok s /\
    wavelengths s = [5000; 6000]%float /\ values s = [3; 4]%float.
Proof.
  destruct (proj1 (@extract_item_raster Sample.runtime [5000; 6000]%float
              [[1; 2]; [3; 4]]%float [[0.1; 0.2]; [0.3; 0.4]]%float 1
              ltac:(reflexivity) ltac:(repeat constructor) ltac:(repeat constructor))
              ltac:(simpl; lia))
    as (s & Hs & Hw & _ & Hv & _).
  exists s. split; [exact Hs|]. split; [exact Hw|].
  simpl in Hv. injection Hv as <-. reflexivity.
Defined.

(* ===================================================================== *)
(** * Building the manifest *)
(* ===================================================================== *)

(** What one template does to the instance and to the heap. *)
Lemma generate_step_inv `{PyRuntime} (set_order : gset string -> list string)
    (res : option float) (st st' : gen_state) (sp : Spectrum) (cn : option Spectrum) :
  generate_step set_order res st (sp, cn) = Ok st' ->
  exists md,
    metadata sp = Some md /\
    gs_heap st' = <[fresh (dom (gs_heap st)) := dict_get (gs_heap st) md]> (gs_heap st) /\
    gs_self st' =
      set_template_counter
        (set_metadata_store (gs_self st)
           (<[template_counter (gs_self st) := fresh (dom (gs_heap st))]>
              (metadata_store (gs_self st))))
        (template_counter (gs_self st) + 1).
Proof.
  unfold generate_step. intros Hs.
  apply bind_Ok in Hs as (md & Hmd & Hs). apply or_raise_Ok in Hmd.
  apply bind_Ok in Hs as (obj_name & _ & Hs).
  unfold dict_copy in Hs. cbv zeta in Hs.
  apply bind_Ok in Hs as ([t sp'] & _ & Hs).
  apply bind_Ok in Hs as (written & _ & Hs).
  apply bind_Ok in Hs as (writestr & _ & Hs).
  apply bind_Ok in Hs as (star_list & _ & Hs).
  injection Hs as <-. exists md. simpl. auto.
Qed.

Section GenerateLoop.
Context `{PyRuntime}.
Variables (set_order : gset string -> list string) (res : option float).

Lemma generate_loop (spectra : list (Spectrum * option Spectrum)) (st st' : gen_state) :
  for_each (generate_step set_order res) spectra st = Ok st' ->
  let c := template_counter (gs_self st) in
  let h := gs_heap st in
  dom h ⊆ dom (gs_heap st') /\
  (forall l, l ∈ dom h -> gs_heap st' !! l = h !! l) /\
  template_counter (gs_self st') = c + Z.of_nat (length spectra) /\
  distinct_snr_definitions (gs_self st') = distinct_snr_definitions (gs_self st) /\
  snr_list (gs_self st') = snr_list (gs_self st) /\
  (forall j, j < c ->
     metadata_store (gs_self st') !! j = metadata_store (gs_self st) !! j) /\
  (forall j l, metadata_store (gs_self st') !! j = Some l ->
     metadata_store (gs_self st) !! j = Some l \/
     (l ∉ dom h /\ l ∈ dom (gs_heap st'))) /\
  (forall (k : nat) sp cn md,
     spectra !! k = Some (sp, cn) -> metadata sp = Some md -> md ∈ dom h ->
     exists l, metadata_store (gs_self st') !! (c + Z.of_nat k) = Some l /\
               l ∉ dom h /\ gs_heap st' !! l = h !! md).
Proof.
  revert st. induction spectra as [|[sp cn] spectra IH]; intros st Hloop; simpl in Hloop.
  - injection Hloop as <-. cbv zeta. repeat split; auto; try (simpl; lia).
    intros k sp cn md Hk. discriminate.
  - apply bind_Ok in Hloop as (st1 & Hstep & Hloop).
    apply generate_step_inv in Hstep as (md0 & Hmd0 & Hh1 & Hself1).
    apply IH in Hloop
      as (Hdom & Hframe & Hc & Hdist & Hsnr & Hold & Hcls & Hnew).
    cbv zeta. rewrite Hself1 in Hc, Hdist, Hsnr, Hold, Hcls, Hnew.
    simpl in Hc, Hdist, Hsnr, Hold, Hcls, Hnew.
    rewrite Hh1 in Hdom, Hframe, Hcls, Hnew.
    set (h := gs_heap st) in *. set (c := template_counter (gs_self st)) in *.
    set (l0 := fresh (dom h)) in *.
    assert (Hl0 : l0 ∉ dom h) by apply is_fresh.
    rewrite dom_insert_L in Hdom, Hframe, Hcls, Hnew.
    assert (Hframe' : forall l, l ∈ dom h -> gs_heap st' !! l = h !! l).
    { intros l Hl. rewrite Hframe by set_solver.
      apply lookup_insert_ne. intros ->. contradiction. }
    split; [set_solver|]. split; [exact Hframe'|].
    split; [simpl length; lia|]. split; [exact Hdist|]. split; [exact Hsnr|].
    split; [|split].
    + intros j Hj. rewrite Hold by lia. apply lookup_insert_ne. lia.
    + intros j l Hl. destruct (Hcls j l Hl) as [Hs1|[Hn Hin]].
      * destruct (decide (j = c)) as [->|Hne].
        -- rewrite lookup_insert_eq in Hs1. injection Hs1 as <-.
           right. split; [exact Hl0|]. apply Hdom. set_solver.
        -- rewrite lookup_insert_ne in Hs1 by congruence. left. exact Hs1.
      * right. split; [set_solver | exact Hin].
    + intros [|k] sp' cn' md Hk Hmd Hin; simpl in Hk.
      * injection Hk as <- <-. rewrite Hmd0 in Hmd. injection Hmd as <-.
        exists l0. replace (c + Z.of_nat 0) with c by lia.
        rewrite Hold by lia. rewrite lookup_insert_eq.
        split; [reflexivity|]. split; [exact Hl0|].
        rewrite Hframe by set_solver. rewrite lookup_insert_eq.
        unfold dict_get. apply elem_of_dom in Hin as [d Hd]. rewrite Hd. reflexivity.
      * destruct (Hnew k sp' cn' md Hk Hmd ltac:(set_solver)) as (l & Hl & Hnl & Hcontent).
        exists l. replace (c + Z.of_nat (S k)) with (c + 1 + Z.of_nat k) by lia.
        split; [exact Hl|]. split; [set_solver|].
        rewrite Hcontent. apply lookup_insert_ne. intros <-. contradiction.
Qed.
End GenerateLoop.


(* ===================================================================== *)
(** * Manifest building under two iteration orders *)
(* ===================================================================== *)

Lemma generate_step_orders `{PyRuntime} (o1 o2 : gset string -> list string)
    (res : option float) (st1 st2 st1' st2' : gen_state)
    (x : Spectrum * option Spectrum) :
  same_but_writestr st1 st2 ->
  generate_step o1 res st1 x = Ok st1' ->
  generate_step o2 res st2 x = Ok st2' ->
  same_but_writestr st1' st2' /\
  (gs_writestr st1 = gs_writestr st2 ->
   o1 (distinct_snr_definitions (gs_self st1)) = o2 (distinct_snr_definitions (gs_self st1)) ->
   gs_writestr st1' = gs_writestr st2').
Proof.
  intros (Hself & Hheap & Hstar & Hwritten) H1 H2.
  destruct x as [sp cn]. unfold generate_step in H1, H2.
  rewrite <- Hself, <- Hheap, <- Hstar, <- Hwritten in H2.
  apply bind_Ok in H1 as (md & Hmd & H1). apply bind_Ok in H2 as (md' & Hmd' & H2).
  rewrite Hmd in Hmd'. injection Hmd' as <-.
  apply bind_Ok in H1 as (name & Hname & H1). apply bind_Ok in H2 as (name' & _ & H2).
  unfold dict_copy in H1, H2. cbv zeta in H1, H2.
  apply bind_Ok in H1 as ([t sp1] & Ht & H1). apply bind_Ok in H2 as ([t' sp1'] & Ht' & H2).
  rewrite Ht in Ht'. injection Ht' as <- <-.
  apply bind_Ok in H1 as (written & Hw & H1). apply bind_Ok in H2 as (written' & Hw' & H2).
  rewrite Hw in Hw'. injection Hw' as <-.
  apply bind_Ok in H1 as (w1 & Hw1 & H1). apply bind_Ok in H2 as (w2 & Hw2 & H2).
  apply bind_Ok in H1 as (sl & Hsl & H1). apply bind_Ok in H2 as (sl' & Hsl' & H2).
  rewrite Hsl in Hsl'. injection Hsl' as <-.
  injection H1 as <-. injection H2 as <-.
  split; [repeat split|].
  simpl. intros Hws Ho. simpl in Hw1, Hw2.
  rewrite <- Hws, <- Ho in Hw2. rewrite Hw1 in Hw2. injection Hw2 as <-. reflexivity.
Qed.

Lemma generate_loop_orders `{PyRuntime} (o1 o2 : gset string -> list string)
    (res : option float) (spectra : list (Spectrum * option Spectrum))
    (st1 st2 st1' st2' : gen_state) :
  same_but_writestr st1 st2 ->
  for_each (generate_step o1 res) spectra st1 = Ok st1' ->
  for_each (generate_step o2 res) spectra st2 = Ok st2' ->
  same_but_writestr st1' st2' /\
  (gs_writestr st1 = gs_writestr st2 ->
   o1 (distinct_snr_definitions (gs_self st1)) = o2 (distinct_snr_definitions (gs_self st1)) ->
   gs_writestr st1' = gs_writestr st2').
Proof.
  revert st1 st2. induction spectra as [|x spectra IH]; intros st1 st2 Hsame H1 H2;
    simpl in H1, H2.
  - injection H1 as <-. injection H2 as <-. auto.
  - apply bind_Ok in H1 as (m1 & Hs1 & H1). apply bind_Ok in H2 as (m2 & Hs2 & H2).
    destruct (generate_step_orders _ _ _ _ _ _ _ _ Hsame Hs1 Hs2) as [Hsame' Hw].
    destruct (IH _ _ Hsame' H1 H2) as [Hsame'' Hw'].
    split; [exact Hsame''|]. intros Hws Ho. apply Hw'; [auto|].
    destruct x as [sp cn]. apply generate_step_inv in Hs1 as (md & _ & _ & ->).
    simpl. exact Ho.
Qed.

(** A set with at most one element is iterated in one way only. *)
Lemma set_order_small (o1 o2 : gset string -> list string) (s : gset string) :
  set_order_valid o1 -> set_order_valid o2 -> (size s <= 1)%nat -> o1 s = o2 s.
Proof.
  intros H1 H2 Hsize. specialize (H1 s). specialize (H2 s).
  unfold size, set_size in Hsize. simpl in Hsize.
  destruct (elements s) as [|x [|y l]]; simpl in Hsize; [| |lia].
  - apply Permutation_nil_r in H1, H2. congruence.
  - apply Permutation_singleton_r in H1, H2. congruence.
Qed.

(** C8, as the code has it.  Two runs of the manifest builder on the same
    inputs and the same instance allocate the same template ids, one per
    input pair, counted from the instance's counter, and leave the same
    instance and the same heap behind; their manifests are the same text
    when the two runs iterate the set of distinct SNR definitions in the
    same order, which is so whenever that set has at most one element. *)
Theorem manifest_determinism `{PyRuntime} (o1 o2 : gset string -> list string)
    (self : FourFS) (h : heap) (spectra : list (Spectrum * option Spectrum))
    (resolution : option float)
    (self1 self2 : FourFS) (h1 h2 : heap) (t1 t2 : template_list) :
  set_order_valid o1 -> set_order_valid o2 ->
  generate_4fs_template_list o1 self h spectra resolution = Ok (self1, h1, t1) ->
  generate_4fs_template_list o2 self h spectra resolution = Ok (self2, h2, t2) ->
  template_numbers t1 = seqZ (template_counter self) (Z.of_nat (length spectra)) /\
  template_numbers t2 = template_numbers t1 /\
  self2 = self1 /\ h2 = h1 /\
  (o1 (distinct_snr_definitions self) = o2 (distinct_snr_definitions self) ->
   template_file t2 = template_file t1) /\
  ((size (distinct_snr_definitions self) <= 1)%nat -> template_file t2 = template_file t1).
Proof.
  intros Hv1 Hv2 H1 H2. unfold generate_4fs_template_list in H1, H2.
  apply bind_Ok in H1 as (st1 & Hl1 & H1). apply bind_Ok in H2 as (st2 & Hl2 & H2).
  injection H1 as <- <- <-. injection H2 as <- <- <-.
  destruct (generate_loop_orders o1 o2 _ _ _ _ _ _ ltac:(repeat split) Hl1 Hl2)
    as [(Hself & Hheap & _ & _) Hw].
  pose proof (generate_loop _ _ _ _ _ Hl1) as (_ & _ & Hc & _). simpl in Hc, Hw.
  simpl. rewrite <- Hself, Hc.
  split; [f_equal; lia|]. split; [reflexivity|]. split; [reflexivity|].
  split; [symmetry; exact Hheap|]. split.
  - intros Ho. symmetry. apply Hw; [reflexivity | exact Ho].
  - intros Hsize. symmetry. apply Hw; [reflexivity|].
    apply set_order_small; assumption.
Qed.

Lemma order_a_valid : set_order_valid Sample.order_a.
Proof. intros s. reflexivity. Qed.

Lemma order_b_valid : set_order_valid Sample.order_b.
Proof. intros s. unfold Sample.order_b. apply reverse_Permutation. Qed.

Lemma sample_init :
  (exists files, Sample.fourfs = Ok (Sample.fresh_instance, files)) /\
  (exists files, Sample.fourfs2 = Ok (Sample.fresh_instance2, files)).
Proof. split; eexists; vm_compute; reflexivity. Qed.

Lemma manifest_determinism_witness :
  exists self1 h1 t1 self2 h2 t2,
    @generate_4fs_template_list Sample.runtime Sample.order_a Sample.fresh_instance
      Sample.caller_heap Sample.spectra_list (Some 50000%float) = Ok (self1, h1, t1) /\
    @generate_4fs_template_list Sample.runtime Sample.order_b Sample.fresh_instance
      Sample.caller_heap Sample.spectra_list (Some 50000%float) = Ok (self2, h2, t2) /\
    template_numbers t1 = [0] /\ template_numbers t2 = [0] /\
    template_file t2 = template_file t1.
Proof.
  destruct (succeeded_Ok
              (@generate_4fs_template_list Sample.runtime Sample.order_a Sample.fresh_instance
                 Sample.caller_heap Sample.spectra_list (Some 50000%float))
              ltac:(vm_compute; reflexivity)) as [[[self1 h1] t1] H1].
  destruct (succeeded_Ok
              (@generate_4fs_template_list Sample.runtime Sample.order_b Sample.fresh_instance
                 Sample.caller_heap Sample.spectra_list (Some 50000%float))
              ltac:(vm_compute; reflexivity)) as [[[self2 h2] t2] H2].
  destruct (@manifest_determinism Sample.runtime Sample.order_a Sample.order_b
              Sample.fresh_instance Sample.caller_heap Sample.spectra_list
              (Some 50000%float) self1 self2 h1 h2 t1 t2
              order_a_valid order_b_valid H1 H2)
    as (Hn1 & Hn2 & _ & _ & _ & Hsmall).
  exists self1, h1, t1, self2, h2, t2.
  split; [exact H1|]. split; [exact H2|].
  split; [exact Hn1|]. split; [rewrite Hn2; exact Hn1|].
  apply Hsmall. vm_compute. repeat constructor.
Defined.

(** C8 as the specification states it fails: with two SNR definitions in
    use, two runs that iterate the set of definitions in different orders
    (both legitimate iterations of the same set) write the lines of a
    template in different orders. *)
Lemma manifest_order_counterexample :
  set_order_valid Sample.order_a /\ set_order_valid Sample.order_b /\
  exists self1 h1 t1 self2 h2 t2,
    @generate_4fs_template_list Sample.runtime Sample.order_a Sample.fresh_instance2
      Sample.caller_heap Sample.spectra_list (Some 50000%float) = Ok (self1, h1, t1) /\
    @generate_4fs_template_list Sample.runtime Sample.order_b Sample.fresh_instance2
      Sample.caller_heap Sample.spectra_list (Some 50000%float) = Ok (self2, h2, t2) /\
    template_file t1
      = (template_list_header +:+ Sample.line_A +:+ Sample.line_B +:+ Sample.line_c)%string /\
    template_file t2
      = (template_list_header +:+ Sample.line_B +:+ Sample.line_A +:+ Sample.line_c)%string /\
    template_file t1 <> template_file t2.
Proof.
  split; [exact order_a_valid|]. split; [exact order_b_valid|].
  destruct (succeeded_Ok
              (@generate_4fs_template_list Sample.runtime Sample.order_a Sample.fresh_instance2
                 Sample.caller_heap Sample.spectra_list (Some 50000%float))
              ltac:(vm_compute; reflexivity)) as [[[self1 h1] t1] H1].
  destruct (succeeded_Ok
              (@generate_4fs_template_list Sample.runtime Sample.order_b Sample.fresh_instance2
                 Sample.caller_heap Sample.spectra_list (Some 50000%float))
              ltac:(vm_compute; reflexivity)) as [[[self2 h2] t2] H2].
  assert (Hf1 : match @generate_4fs_template_list Sample.runtime Sample.order_a
                        Sample.fresh_instance2 Sample.caller_heap Sample.spectra_list
                        (Some 50000%float) with
                | Ok (_, _, t) => Some (template_file t)
                | Raise _ => None
                end
                = Some (template_list_header +:+ Sample.line_A +:+ Sample.line_B
                        +:+ Sample.line_c)%string) by (vm_compute; reflexivity).
  assert (Hf2 : match @generate_4fs_template_list Sample.runtime Sample.order_b
                        Sample.fresh_instance2 Sample.caller_heap Sample.spectra_list
                        (Some 50000%float) with
                | Ok (_, _, t) => Some (template_file t)
                | Raise _ => None
                end
                = Some (template_list_header +:+ Sample.line_B +:+ Sample.line_A
                        +:+ Sample.line_c)%string) by (vm_compute; reflexivity).
  rewrite H1 in Hf1. rewrite H2 in Hf2. injection Hf1 as Hf1. injection Hf2 as Hf2.
  exists self1, h1, t1, self2, h2, t2.
  split; [exact H1|]. split; [exact H2|]. split; [exact Hf1|]. split; [exact Hf2|].
  rewrite Hf1, Hf2. vm_compute. discriminate.
Qed.

(* ===================================================================== *)
(** * The metadata store across manifest building and combining *)
(* ===================================================================== *)

Lemma generate_store_allocated `{PyRuntime} (o : gset string -> list string)
    (self : FourFS) (h : heap) (spectra : list (Spectrum * option Spectrum))
    (resolution : option float) (self1 : FourFS) (h1 : heap) (tl : template_list) :
  store_allocated self h ->
  generate_4fs_template_list o self h spectra resolution = Ok (self1, h1, tl) ->
  store_allocated self1 h1.
Proof.
  intros Ha Hg. unfold generate_4fs_template_list in Hg.
  apply bind_Ok in Hg as (st & Hloop & Hg). injection Hg as <- <- <-.
  apply generate_loop in Hloop as (Hdom & _ & _ & _ & _ & _ & Hcls & _). simpl in *.
  intros j l Hl. destruct (Hcls j l Hl) as [Hold|[_ Hin]]; [|exact Hin].
  apply Hdom, (Ha j l Hold).
Qed.


(* ===================================================================== *)
(** * What the combiner writes, and where *)
(* ===================================================================== *)

Lemma dict_written_refl (m : pydict) : dict_written m m.
Proof. split; auto. Qed.

Lemma dict_written_trans (m1 m2 m3 : pydict) :
  dict_written m1 m2 -> dict_written m2 m3 -> dict_written m1 m3.
Proof.
  intros [Ho1 Hk1] [Ho2 Hk2]. split.
  - intros k Hk. rewrite Ho2, Ho1 by exact Hk. reflexivity.
  - intros k Hs. auto.
Qed.

Lemma dict_written_insert (m : pydict) (k : string) (v : pyval) :
  k ∈ written_keys -> dict_written m (<[k := v]> m).
Proof.
  intros Hk. split.
  - intros k' Hk'. apply lookup_insert_ne. intros ->. contradiction.
  - intros k' Hs. destruct (decide (k = k')) as [->|Hne].
    + rewrite lookup_insert_eq. eauto.
    + rewrite lookup_insert_ne by exact Hne. exact Hs.
Qed.

Lemma written_over_trans_l (m1 m2 m3 : pydict) :
  dict_written m1 m2 -> written_over m2 m3 -> written_over m1 m3.
Proof. intros H12 [H23 Hk]. split; [eapply dict_written_trans; eauto | exact Hk]. Qed.

Lemma written_over_trans_r (m1 m2 m3 : pydict) :
  written_over m1 m2 -> dict_written m2 m3 -> written_over m1 m3.
Proof.
  intros [H12 Hk] H23. split; [eapply dict_written_trans; eauto|].
  intros k Hin. apply (proj2 H23), Hk, Hin.
Qed.

Lemma heap_written_refl (h : heap) : heap_written h h.
Proof. split; [set_solver | intros; apply dict_written_refl]. Qed.

Lemma heap_written_trans (h1 h2 h3 : heap) :
  heap_written h1 h2 -> heap_written h2 h3 -> heap_written h1 h3.
Proof.
  intros [Hd1 Hw1] [Hd2 Hw2]. split; [set_solver|].
  intros l Hl. eapply dict_written_trans; [apply Hw1, Hl | apply Hw2, Hd1, Hl].
Qed.

(** The assignments of [attach_metadata] write all of the combiner's keys
    over the dictionary they find. *)
Lemma attach_metadata_written (self : FourFS) (h : heap) (ls : loc)
    (times : gmap string float) (defs : list (option string)) (snr : pynum) (rc : Z)
    (h1 : heap) :
  attach_metadata self h ls times defs snr rc = Ok h1 ->
  written_over (dict_get h ls) (dict_get h1 ls) /\
  dict_get h1 ls !! "continuum_normalised" = Some (PyInt 0).
Proof.
  intros Hh. apply attach_metadata_spec in Hh as (_ & _ & snr_f & mag_f & sd & _ & _ & _ & ->).
  split; [split|].
  - repeat (eapply dict_written_trans;
            [|apply dict_written_insert; unfold written_keys; set_solver]).
    apply dict_written_refl.
  - intros k Hk. unfold written_keys in Hk.
    repeat (apply elem_of_cons in Hk as [->|Hk];
            [first [rewrite lookup_insert_eq; eauto
                   | repeat (rewrite lookup_insert_ne by discriminate);
                     rewrite lookup_insert_eq; eauto]|]).
    inversion Hk.
  - rewrite !lookup_insert_ne by discriminate. apply lookup_insert_eq.
Qed.

(** What one iteration leaves in the object of the store. *)
Lemma combine_pair_store `{PyRuntime} self h fs times defs path setup i snr rc h' e :
  combine_pair self h fs times defs path setup i snr rc = Ok (h', e) ->
  exists ls h1,
    metadata_store self !! i = Some ls /\
    attach_metadata self h ls times defs snr rc = Ok h1 /\
    dict_get h' ls = match spectrum_continuum_normalised e with
                     | Some _ => <["continuum_normalised" := PyInt 1]> (dict_get h1 ls)
                     | None => dict_get h1 ls
                     end.
Proof.
  intros Hc.
  apply combine_pair_inv in Hc as (d & st & ls & h1 & errors & _ & _ & Hls & Hh1 & _ & _ & Hcn).
  exists ls, h1. split; [exact Hls|]. split; [exact Hh1|].
  destruct (attach_metadata_spec _ _ _ _ _ _ _ _ Hh1) as (Hdom & _ & _).
  pose proof (dict_copy_fresh h1 ls) as Hfresh.
  set (lsp := (dict_copy h1 ls).1) in *.
  assert (Hlsp_ls : lsp <> ls) by (intros ->; apply Hfresh; rewrite Hdom; set_solver).
  destruct (os_path_exists fs _).
  - destruct Hcn as (n & en & _ & _ & Hh' & ->). cbv zeta in Hh'.
    set (hc := (dict_copy h1 ls).2) in *.
    assert (Hhc : hc = <[lsp := dict_get h1 ls]> h1) by reflexivity.
    set (h2 := dict_setitem hc ls "continuum_normalised" (PyInt 1)) in *.
    pose proof (dict_copy_fresh h2 ls) as Hfresh2.
    set (lnp := (dict_copy h2 ls).1) in *.
    assert (Hh'' : h' = <[lnp := dict_get h2 ls]> h2) by (rewrite Hh'; reflexivity).
    assert (Hlnp_ls : lnp <> ls).
    { intros Heq. apply Hfresh2. rewrite Heq. unfold h2. rewrite dict_setitem_dom.
      set_solver. }
    unfold dict_get at 1. rewrite Hh'', lookup_insert_ne by exact Hlnp_ls.
    unfold h2. rewrite dict_setitem_eq. simpl. f_equal.
    unfold dict_get. rewrite Hhc, lookup_insert_ne by exact Hlsp_ls. reflexivity.
  - destruct Hcn as [Hh' ->].
    assert (Hh'' : h' = <[lsp := dict_get h1 ls]> h1) by (rewrite Hh'; reflexivity).
    unfold dict_get at 1. rewrite Hh'', lookup_insert_ne by exact Hlsp_ls. reflexivity.
Qed.

Lemma entry_copy_extends (self : FourFS) (h0 h h' : heap) (i : Z) (e : output_entry) :
  entry_copy self h0 h i e -> heap_extends (is_store_loc self) h h' ->
  entry_copy self h0 h' i e.
Proof.
  intros (ls & Hls & Ho & Hw & Hflag & Hsn) Hext.
  destruct (own_metadata_extends _ _ _ _ _ Ho Hext) as [Ho' Hm].
  exists ls. split; [exact Hls|]. split; [exact Ho'|]. rewrite Hm.
  split; [exact Hw|]. split; [exact Hflag|].
  intros sn Hs. destruct (Hsn sn Hs) as (Hon & Hwn & Hfn).
  destruct (own_metadata_extends _ _ _ _ _ Hon Hext) as [Hon' Hmn].
  rewrite Hmn. auto.
Qed.

(** One iteration: the object of the store is written into, the spectra get
    copies of it at locations that did not exist before. *)
Lemma combine_pair_copy `{PyRuntime} self h0 h fs times defs path setup i snr rc h' e :
  store_allocated self h0 -> store_allocated self h -> heap_written h0 h ->
  combine_pair self h fs times defs path setup i snr rc = Ok (h', e) ->
  heap_extends (is_store_loc self) h h' /\
  heap_written h h' /\
  (exists ls, metadata_store self !! i = Some ls /\
              forall k, k ∈ written_keys -> is_Some (dict_get h' ls !! k)) /\
  entry_copy self h0 h' i e /\
  exists locs,
    map metadata (entry_spectra e) = map Some locs /\ NoDup locs /\
    forall l, l ∈ locs -> l ∉ dom h /\ l ∈ dom h'.
Proof.
  intros Ha0 Ha [Hd0 Hw0] Hc.
  pose proof (combine_pair_store _ _ _ _ _ _ _ _ _ _ _ _ Hc)
    as (ls & h1 & Hls & Hh1 & Hstored).
  pose proof (combine_pair_heap _ _ _ _ _ _ _ _ _ _ _ _ Hc)
    as (ls' & h1' & lsp & Hls' & Hh1' & Hext & Hlsd & Hsp & Hlsp & Hne & Hcontent & Hsn).
  rewrite Hls in Hls'. injection Hls' as <-.
  rewrite Hh1 in Hh1'. injection Hh1' as <-.
  destruct (attach_metadata_written _ _ _ _ _ _ _ _ Hh1) as [Hover Hflag0].
  assert (Hls_h : ls ∈ dom h) by exact (Ha i ls Hls).
  assert (Hls_h0 : ls ∈ dom h0) by exact (Ha0 i ls Hls).
  assert (Hfresh_store : forall l, l ∉ dom h -> ~ is_store_loc self l).
  { intros l Hl [j Hj]. apply Hl, (Ha j l Hj). }
  assert (Hstored_over : written_over (dict_get h ls) (dict_get h' ls)).
  { rewrite Hstored. destruct (spectrum_continuum_normalised e); [|exact Hover].
    eapply written_over_trans_r; [exact Hover|].
    apply dict_written_insert. unfold written_keys. set_solver. }
  assert (Hext' : heap_extends (is_store_loc self) h h').
  { apply (heap_extends_weaken (eq ls)); [|exact Hext]. intros l <-. exists i. exact Hls. }
  split; [exact Hext'|]. split.
  { split; [exact (proj1 Hext)|]. intros l Hl.
    destruct (decide (l = ls)) as [->|Hnl].
    - exact (proj1 Hstored_over).
    - unfold dict_get. rewrite (proj2 Hext l Hl) by congruence. apply dict_written_refl. }
  split.
  { exists ls. split; [exact Hls | exact (proj2 Hstored_over)]. }
  assert (Hsp_meta : metadata_of h' (spectrum e) = dict_get h1 ls).
  { unfold metadata_of. rewrite Hsp. unfold dict_get at 1. rewrite Hcontent. reflexivity. }
  assert (Hbase : dict_written (dict_get h0 ls) (dict_get h ls)) by exact (Hw0 ls Hls_h0).
  split.
  { exists ls. split; [exact Hls|]. split.
    { exists lsp. split; [exact Hsp|]. split; [intros Hin; apply Hlsp, Hd0, Hin|].
      split; [apply elem_of_dom; rewrite Hcontent; eauto|]. apply Hfresh_store, Hlsp. }
    rewrite Hsp_meta. split; [eapply written_over_trans_l; eauto|].
    split; [exact Hflag0|].
    intros sn Hs. destruct (Hsn sn Hs) as (lnp & Hmn & Hlnp & Hnls & Hnlsp & Hcn).
    assert (Hsn_meta : metadata_of h' sn
                       = <["continuum_normalised" := PyInt 1]> (dict_get h1 ls)).
    { unfold metadata_of. rewrite Hmn. unfold dict_get at 1. rewrite Hcn. reflexivity. }
    split.
    { exists lnp. split; [exact Hmn|]. split; [intros Hin; apply Hlnp, Hd0, Hin|].
      split; [apply elem_of_dom; rewrite Hcn; eauto|]. apply Hfresh_store, Hlnp. }
    rewrite Hsn_meta. split; [|apply lookup_insert_eq].
    eapply written_over_trans_l; [exact Hbase|].
    eapply written_over_trans_r; [exact Hover|].
    apply dict_written_insert. unfold written_keys. set_solver. }
  unfold entry_spectra.
  destruct (spectrum_continuum_normalised e) as [sn|] eqn:Hscn.
  - destruct (Hsn sn eq_refl) as (lnp & Hmn & Hlnp & Hnls & Hnlsp & Hcn).
    exists [lsp; lnp]. simpl. rewrite Hsp, Hmn. split; [reflexivity|]. split.
    + constructor; [|constructor; [|constructor]].
      * intros Hin. apply list_elem_of_singleton in Hin. congruence.
      * intros Hin. inversion Hin.
    + intros l Hl. apply elem_of_cons in Hl as [->|Hl].
      * split; [exact Hlsp|]. apply elem_of_dom. rewrite Hcontent. eauto.
      * apply list_elem_of_singleton in Hl as ->.
        split; [exact Hlnp|]. apply elem_of_dom. rewrite Hcn. eauto.
  - exists [lsp]. simpl. rewrite Hsp. split; [reflexivity|]. split.
    + constructor; [|constructor]. intros Hin. inversion Hin.
    + intros l Hl. apply list_elem_of_singleton in Hl as ->.
      split; [exact Hlsp|]. apply elem_of_dom. rewrite Hcontent. eauto.
Qed.

(** Locations allocated in two successive stretches of a run are distinct. *)
Lemma fresh_locs_app (h h1 h2 : heap) (locs1 locs2 : list loc) :
  dom h1 ⊆ dom h2 ->
  NoDup locs1 -> (forall l, l ∈ locs1 -> l ∉ dom h /\ l ∈ dom h1) ->
  NoDup locs2 -> (forall l, l ∈ locs2 -> l ∉ dom h1 /\ l ∈ dom h2) ->
  dom h ⊆ dom h1 ->
  NoDup (locs1 ++ locs2) /\
  forall l, l ∈ locs1 ++ locs2 -> l ∉ dom h /\ l ∈ dom h2.
Proof.
  intros Hd12 Hn1 H1 Hn2 H2 Hd01. split.
  - apply NoDup_app. split; [exact Hn1|]. split; [|exact Hn2].
    intros l Hl1 Hl2. apply (proj1 (H2 l Hl2)), (proj2 (H1 l Hl1)).
  - intros l Hl. apply elem_of_app in Hl as [Hl|Hl].
    + destruct (H1 l Hl). split; [assumption | set_solver].
    + destruct (H2 l Hl). split; [set_solver | assumption].
Qed.

Lemma keys_present_written (h h' : heap) (ls : loc) :
  heap_written h h' -> ls ∈ dom h ->
  (forall k, k ∈ written_keys -> is_Some (dict_get h ls !! k)) ->
  forall k, k ∈ written_keys -> is_Some (dict_get h' ls !! k).
Proof. intros [_ Hw] Hl Hk k Hin. apply (proj2 (Hw ls Hl)), Hk, Hin. Qed.

Section CopyLoops.
Context `{PyRuntime}.
Variables (self : FourFS) (fs : filesystem) (times : gmap string float)
          (defs : list (option string)) (path setup : string) (h0 : heap).
Hypothesis Hstore0 : store_allocated self h0.

(** The loop over the SNRs of one template. *)
Lemma snr_loop_copies (i : Z) (snrs : list pynum) (st st' : combine_state) :
  store_allocated self (cs_heap st) -> heap_written h0 (cs_heap st) ->
  for_each (combine_snr_step self fs times defs path setup i) snrs st = Ok st' ->
  heap_extends (is_store_loc self) (cs_heap st) (cs_heap st') /\
  heap_written (cs_heap st) (cs_heap st') /\
  (snrs <> [] ->
   exists ls, metadata_store self !! i = Some ls /\
              forall k, k ∈ written_keys -> is_Some (dict_get (cs_heap st') ls !! k)) /\
  exists new,
    cs_entries st' = cs_entries st ++ new /\
    Forall (fun se => entry_copy self h0 (cs_heap st') i se.2) new /\
    exists locs,
      map metadata (item_spectra new) = map Some locs /\ NoDup locs /\
      forall l, l ∈ locs -> l ∉ dom (cs_heap st) /\ l ∈ dom (cs_heap st').
Proof.
  revert st. induction snrs as [|snr snrs IH]; intros st Ha Hw Hloop; simpl in Hloop.
  - injection Hloop as <-. split; [apply heap_extends_refl|].
    split; [apply heap_written_refl|]. split; [congruence|].
    exists []. rewrite app_nil_r. split; [reflexivity|]. split; [constructor|].
    exists []. split; [reflexivity|]. split; [constructor|]. intros l Hl. inversion Hl.
  - apply bind_Ok in Hloop as (st1 & Hstep & Hloop).
    unfold combine_snr_step in Hstep.
    apply bind_Ok in Hstep as ([h1 e] & Hpair & Hst1). injection Hst1 as <-.
    destruct (combine_pair_copy _ h0 _ _ _ _ _ _ _ _ _ _ _ Hstore0 Ha Hw Hpair)
      as (Hext & Hw1 & (ls & Hls & Hkeys) & He & locs1 & Hl1 & Hn1 & Hf1).
    assert (Ha1 : store_allocated self h1) by (eapply store_allocated_extends; eauto).
    assert (Hw01 : heap_written h0 h1) by (eapply heap_written_trans; eauto).
    apply IH in Hloop
      as (Hext' & Hw' & _ & new & Hnew & Hall & locs2 & Hl2 & Hn2 & Hf2);
      [|exact Ha1|exact Hw01].
    cbn [cs_heap cs_entries cs_run_counter] in *.
    split; [eapply heap_extends_trans; eauto|].
    split; [eapply heap_written_trans; eauto|].
    split.
    { intros _. exists ls. split; [exact Hls|].
      apply (keys_present_written h1); [exact Hw' | exact (Ha1 i ls Hls) | exact Hkeys]. }
    exists ((snr, e) :: new). split; [rewrite Hnew, <- app_assoc; reflexivity|].
    split.
    { constructor; [|exact Hall]. eapply entry_copy_extends; eauto. }
    exists (locs1 ++ locs2).
    change (item_spectra ((snr, e) :: new)) with (entry_spectra e ++ item_spectra new).
    rewrite !map_app, Hl1, Hl2. split; [reflexivity|].
    apply (fresh_locs_app (cs_heap st) h1 (cs_heap st')); auto.
    + exact (proj1 Hw').
    + exact (proj1 Hw1).
Qed.

(** The loop over the templates. *)
Lemma template_loop_copies (tn : list Z) (h : heap) (rc : Z) (out : output_dict)
    (h' : heap) (rc' : Z) (out' : output_dict) :
  store_allocated self h -> heap_written h0 h ->
  for_each (combine_template_step self fs times defs path setup) tn (h, rc, out)
    = Ok (h', rc', out') ->
  heap_extends (is_store_loc self) h h' /\
  heap_written h h' /\
  (snr_list self <> [] ->
   forall i, i ∈ tn ->
     exists ls, metadata_store self !! i = Some ls /\
                forall k, k ∈ written_keys -> is_Some (dict_get h' ls !! k)) /\
  exists new,
    out' = out ++ new /\
    Forall (fun item => Forall (fun se => entry_copy self h0 h' item.1 se.2) item.2) new /\
    exists locs,
      map metadata (returned_spectra new) = map Some locs /\ NoDup locs /\
      forall l, l ∈ locs -> l ∉ dom h /\ l ∈ dom h'.
Proof.
  revert h rc out. induction tn as [|i tn IH]; intros h rc out Ha Hw Hloop; simpl in Hloop.
  - injection Hloop as <- <- <-. split; [apply heap_extends_refl|].
    split; [apply heap_written_refl|].
    split; [intros _ i Hi; inversion Hi|].
    exists []. rewrite app_nil_r. split; [reflexivity|]. split; [constructor|].
    exists []. split; [reflexivity|]. split; [constructor|]. intros l Hl. inversion Hl.
  - apply bind_Ok in Hloop as ([[h1 rc1] out1] & Hstep & Hloop).
    unfold combine_template_step in Hstep.
    apply bind_Ok in Hstep as (st1 & Hinner & Hst1). injection Hst1 as <- <- <-.
    apply snr_loop_copies in Hinner
      as (Hext & Hw1 & Hkeys & new1 & Hnew1 & Hall1 & locs1 & Hl1 & Hn1 & Hf1);
      [|exact Ha|exact Hw].
    simpl in Hext, Hw1, Hkeys, Hnew1, Hall1, Hf1. rewrite Hnew1 in Hloop.
    assert (Ha1 : store_allocated self (cs_heap st1))
      by (eapply store_allocated_extends; eauto).
    assert (Hw01 : heap_written h0 (cs_heap st1)) by (eapply heap_written_trans; eauto).
    destruct (IH _ _ _ Ha1 Hw01 Hloop)
      as (Hext' & Hw' & Hkeys' & new & Hnew & Hall & locs2 & Hl2 & Hn2 & Hf2).
    split; [eapply heap_extends_trans; eauto|].
    split; [eapply heap_written_trans; eauto|].
    split.
    { intros Hsnr j Hj. apply elem_of_cons in Hj as [->|Hj]; [|exact (Hkeys' Hsnr j Hj)].
      destruct (Hkeys Hsnr) as (ls & Hls & Hk). exists ls. split; [exact Hls|].
      apply (keys_present_written (cs_heap st1)); [exact Hw' | exact (Ha1 i ls Hls) | exact Hk]. }
    exists ((i, new1) :: new). split; [rewrite Hnew, <- app_assoc; reflexivity|].
    split.
    { constructor; [|exact Hall]. simpl.
      eapply Forall_impl; [exact Hall1|]. intros se Hse. simpl in Hse.
      eapply entry_copy_extends; eauto. }
    exists (locs1 ++ locs2).
    change (returned_spectra ((i, new1) :: new))
      with (item_spectra new1 ++ returned_spectra new).
    rewrite !map_app, Hl1, Hl2. split; [reflexivity|].
    apply (fresh_locs_app h (cs_heap st1) h'); auto.
    + exact (proj1 Hw').
    + exact (proj1 Hw1).
Qed.
End CopyLoops.

(** C6, as the code has it.  Manifest building stores, for each input
    spectrum, a copy of its metadata under the template id.  The combiner
    works on the stored object itself: it writes the keys
    [continuum_normalised], [SNR], [SNR_per], [magnitude], [exposure] and
    [snr_definition] into it, so that after the call the stored object of
    every template combined holds these keys over what it held before, and
    it hands each spectrum it returns a copy of the stored object, taken
    once the keys are written, at a location of its own.  So neither step
    ever modifies the metadata object of the caller's spectrum, and no two
    returned spectra, nor a returned spectrum and the store, share a
    metadata object. *)
Theorem metadata_store_copies `{PyRuntime} (o : gset string -> list string)
    (self : FourFS) (h : heap) (spectra : list (Spectrum * option Spectrum))
    (resolution : option float) (self1 : FourFS) (h1 : heap) (tl : template_list)
    (fs : filesystem) (path setup : string) (h2 : heap) (out : output_dict) :
  store_allocated self h ->
  generate_4fs_template_list o self h spectra resolution = Ok (self1, h1, tl) ->
  combine_spectra self1 h1 fs (template_numbers tl) path setup = Ok (h2, out) ->
  (forall (k : nat) sp cn md,
     spectra !! k = Some (sp, cn) -> metadata sp = Some md ->
     md ∈ dom h -> ~ is_store_loc self md ->
     exists l, metadata_store self1 !! (template_counter self + Z.of_nat k) = Some l /\
               l <> md /\ h1 !! l = h !! md /\
               h1 !! md = h !! md /\ h2 !! md = h !! md) /\
  (forall (a b : nat) i entries snr e,
     out !! a = Some (i, entries) -> entries !! b = Some (snr, e) ->
     own_metadata self1 h1 h2 (spectrum e) /\
     forall sn, spectrum_continuum_normalised e = Some sn ->
       own_metadata self1 h1 h2 sn /\ metadata sn <> metadata (spectrum e)) /\
  (exists locs, map metadata (returned_spectra out) = map Some locs /\ NoDup locs) /\
  (forall (a b : nat) i entries snr e,
     out !! a = Some (i, entries) -> entries !! b = Some (snr, e) ->
     entry_copy self1 h1 h2 i e) /\
  (snr_list self1 <> [] ->
   forall i, i ∈ template_numbers tl ->
     exists ls, metadata_store self1 !! i = Some ls /\
                written_over (dict_get h1 ls) (dict_get h2 ls)).
Proof.
  intros Ha Hg Hc.
  pose proof (generate_store_allocated _ _ _ _ _ _ _ _ Ha Hg) as Ha1.
  unfold generate_4fs_template_list in Hg.
  apply bind_Ok in Hg as (st & Hloop & Hg). injection Hg as <- <- Htl.
  apply generate_loop in Hloop as (Hdom & Hframe & _ & _ & _ & _ & Hcls & Hnew).
  simpl in Hdom, Hframe, Hcls, Hnew.
  unfold combine_spectra in Hc.
  apply bind_Ok in Hc as (times & _ & Hc).
  apply bind_Ok in Hc as ([[h2' rc] out'] & Hcloop & Hc). injection Hc as <- <-.
  pose proof (template_loop_copies _ _ _ _ _ _ (gs_heap st) Ha1 _ _ _ _ _ _ _
                Ha1 (heap_written_refl _) Hcloop)
    as (_ & Hwritten & Hkeys & newc & Houtc & Hcopies & locs & Hlocs & Hnodup & _).
  apply (template_loop _ _ _ _ _ _ (gs_heap st)) in Hcloop
    as ([_ Hframe2] & _ & new & Hout & Hlen & Hall); [|exact Ha1|set_solver].
  simpl in Hout, Houtc. split; [|split; [|split; [|split]]].
  - intros k sp cn md Hk Hmd Hin Hns.
    destruct (Hnew k sp cn md Hk Hmd Hin) as (l & Hl & Hfresh & Hcontent).
    exists l. split; [exact Hl|]. split; [intros ->; contradiction|].
    split; [exact Hcontent|]. split; [apply Hframe, Hin|].
    rewrite Hframe2; [apply Hframe, Hin | apply Hdom, Hin |].
    intros [j Hj]. destruct (Hcls j md Hj) as [Hold|[Hn _]]; [|contradiction].
    apply Hns. exists j. exact Hold.
  - intros a b i entries snr e Ha' Hb. rewrite Hout in Ha'.
    pose proof (lookup_lt_Some _ _ _ Ha') as Hlt. rewrite Hlen in Hlt.
    destruct (lookup_lt_is_Some_2 _ _ Hlt) as [i' Hi'].
    destruct (Hall a i' Hi') as (entries' & Hent & Hlen' & Hx).
    pose proof (eq_trans (eq_sym Ha') Hent) as Heq. injection Heq as <- <-.
    pose proof (lookup_lt_Some _ _ _ Hb) as Hltb. rewrite Hlen' in Hltb.
    destruct (lookup_lt_is_Some_2 _ _ Hltb) as [snr' Hsnr'].
    destruct (Hx b snr' Hsnr') as (e' & He' & (Hown & _ & Hsn)).
    pose proof (eq_trans (eq_sym Hb) He') as Heq. injection Heq as <- <-.
    split; [exact Hown|]. intros sn Hs. destruct (Hsn sn Hs) as (Hon & _ & Hne). auto.
  - exists locs. rewrite Houtc. auto.
  - intros a b i entries snr e Ha' Hb. rewrite Houtc in Ha'.
    pose proof (proj1 (Forall_lookup _ _) Hcopies a (i, entries) Ha') as Hitem.
    exact (proj1 (Forall_lookup _ _) Hitem b (snr, e) Hb).
  - intros Hsnr i Hi. destruct (Hkeys Hsnr i Hi) as (ls & Hls & Hk).
    exists ls. split; [exact Hls|]. split; [|exact Hk].
    apply (proj2 Hwritten). exact (Ha1 i ls Hls).
Qed.

Lemma sample_pipeline_inv (o : gset string -> list string) (self : FourFS) (fs : filesystem)
    (r : FourFS * heap * template_list * heap * output_dict) :
  Sample.pipeline o (Ok self) fs = Ok r ->
  @generate_4fs_template_list Sample.runtime o self Sample.caller_heap
    [(Sample.star, Some Sample.star_cn)] (Some 50000%float)
    = Ok (r.1.1.1.1, r.1.1.1.2, r.1.1.2) /\
  @combine_spectra Sample.runtime r.1.1.1.1 r.1.1.1.2 fs (template_numbers r.1.1.2)
    "outdir_LRS" "LRS" = Ok (r.1.2, r.2).
Proof.
  unfold Sample.pipeline. intros Hp. simpl in Hp.
  apply bind_Ok in Hp as ([[self1 h1] tl] & Hg & Hp).
  apply bind_Ok in Hp as ([h2 out] & Hc & Hp). injection Hp as <-. simpl. auto.
Qed.

Lemma metadata_store_copies_witness :
  exists self1 h1 tl h2 out,
    @generate_4fs_template_list Sample.runtime Sample.order_a Sample.fresh_instance
      Sample.caller_heap Sample.spectra_list (Some 50000%float) = Ok (self1, h1, tl) /\
    @combine_spectra Sample.runtime self1 h1 Sample.outdir (template_numbers tl)
      "outdir_LRS" "LRS" = Ok (h2, out) /\
    h2 !! 1%positive = Sample.caller_heap !! 1%positive.
Proof.
  destruct (succeeded_Ok
              (Sample.pipeline Sample.order_a (Ok Sample.fresh_instance) Sample.outdir)
              ltac:(vm_compute; reflexivity)) as [[[[[self1 h1] tl] h2] out] Hrun].
  apply sample_pipeline_inv in Hrun as [Hg Hc]. simpl in Hg, Hc.
  assert (Ha : store_allocated Sample.fresh_instance Sample.caller_heap).
  { intros i l Hl. simpl in Hl. rewrite lookup_empty in Hl. discriminate. }
  destruct (@metadata_store_copies Sample.runtime Sample.order_a Sample.fresh_instance
              Sample.caller_heap Sample.spectra_list (Some 50000%float) self1 h1 tl
              Sample.outdir "outdir_LRS" "LRS" h2 out Ha Hg Hc) as [Hcaller _].
  destruct (Hcaller 0%nat Sample.star (Some Sample.star_cn) 1%positive
              ltac:(reflexivity) ltac:(reflexivity)
              ltac:(apply elem_of_dom; eexists; vm_compute; reflexivity)
              ltac:(intros [j Hj]; simpl in Hj; rewrite lookup_empty in Hj; discriminate))
    as (l & _ & _ & _ & _ & Hkept).
  exists self1, h1, tl, h2, out. split; [exact Hg|]. split; [exact Hc | exact Hkept].
Defined.

(** C6 as the specification states it fails: the combiner is handed the
    stored object itself, and its assignments are still in the store after
    the call. *)
Lemma store_instance_mutated :
  exists self1 h1 tl h2 out l,
    @generate_4fs_template_list Sample.runtime Sample.order_a Sample.fresh_instance
      Sample.caller_heap Sample.spectra_list (Some 50000%float) = Ok (self1, h1, tl) /\
    @combine_spectra Sample.runtime self1 h1 Sample.outdir (template_numbers tl)
      "outdir_LRS" "LRS" = Ok (h2, out) /\
    metadata_store self1 !! 0 = Some l /\
    dict_get h1 l !! "SNR" = None /\
    dict_get h2 l !! "SNR" = Some (PyFloat 80%float) /\
    dict_get h2 l !! "continuum_normalised" = Some (PyInt 1) /\
    dict_get h2 l <> dict_get h1 l.
Proof.
  destruct (succeeded_Ok
              (Sample.pipeline Sample.order_a (Ok Sample.fresh_instance) Sample.outdir)
              ltac:(vm_compute; reflexivity)) as [[[[[self1 h1] tl] h2] out] Hrun].
  assert (Hfacts :
    match Sample.pipeline Sample.order_a (Ok Sample.fresh_instance) Sample.outdir with
    | Ok (self1, h1, _, h2, _) =>
        match metadata_store self1 !! 0 with
        | Some l => Some (l, dict_get h1 l !! "SNR", dict_get h2 l !! "SNR",
                          dict_get h2 l !! "continuum_normalised")
        | None => None
        end
    | Raise _ => None
    end = Some (2%positive, None, Some (PyFloat 80%float), Some (PyInt 1)))
    by (vm_compute; reflexivity).
  rewrite Hrun in Hfacts.
  destruct (metadata_store self1 !! 0) as [l|] eqn:Hl; [|discriminate].
  injection Hfacts as -> H1 H2 H3.
  apply sample_pipeline_inv in Hrun as [Hg Hc]. simpl in Hg, Hc.
  exists self1, h1, tl, h2, out, 2%positive.
  split; [exact Hg|]. split; [exact Hc|]. split; [exact Hl|].
  split; [exact H1|]. split; [exact H2|]. split; [exact H3|].
  intros Heq. rewrite Heq, H1 in H2. discriminate.
Qed.

(* ===================================================================== *)
(** * float64: NaN and the totality of the order *)
(* ===================================================================== *)

Lemma SFcompare_refl (x : spec_float) : x <> S754_nan -> SFcompare x x = Some Eq.
Proof.
  destruct x as [s|s| |s m e]; intros Hn; try (destruct s; reflexivity); [contradiction|].
  simpl. change (Pos.compare_cont Eq) with Pos.compare.
  destruct s; destruct (Z.compare_spec e e); try lia;
    destruct (Pos.compare_spec m m); try lia; reflexivity.
Qed.

Lemma is_nan_spec (x : float) : PrimFloat.is_nan x = true <-> Prim2SF x = S754_nan.
Proof.
  unfold PrimFloat.is_nan. rewrite FloatAxioms.eqb_spec. unfold SFeqb. split.
  - intros Hx. destruct (Prim2SF x) eqn:Hsf; try reflexivity;
      rewrite SFcompare_refl in Hx by discriminate; discriminate.
  - intros ->. reflexivity.
Qed.

Lemma SFleb_not_nan (x c : spec_float) : SFleb x c = true -> x <> S754_nan /\ c <> S754_nan.
Proof. unfold SFleb. destruct x, c; simpl; try discriminate; split; discriminate. Qed.

Lemma SFltb_not_nan (x c : spec_float) : SFltb x c = true -> x <> S754_nan /\ c <> S754_nan.
Proof. unfold SFltb. destruct x, c; simpl; try discriminate; split; discriminate. Qed.

(** Of two comparable values, one is [<=] the other or above it, never both. *)
Lemma SF_le_or_gt (x c : spec_float) :
  x <> S754_nan -> c <> S754_nan -> SFleb x c = negb (SFltb c x).
Proof.
  unfold SFleb, SFltb.
  destruct x as [sx|sx| |sx mx ex], c as [sc|sc| |sc mc ec]; intros Hx Hc;
    try contradiction; simpl;
    repeat match goal with b : bool |- _ => destruct b end; simpl; try reflexivity.
  all: change (Pos.compare_cont Eq) with Pos.compare.
  all: destruct (Z.compare_spec ex ec), (Z.compare_spec ec ex); try lia; simpl;
       try reflexivity.
  all: destruct (Pos.compare_spec mx mc), (Pos.compare_spec mc mx); try lia; reflexivity.
Qed.

Lemma fle_not_nan (x c : float) : fle x c = true -> PrimFloat.is_nan x = false.
Proof.
  unfold fle. rewrite leb_spec. intros H. apply SFleb_not_nan in H as [Hx _].
  destruct (PrimFloat.is_nan x) eqn:Hn; [|reflexivity]. apply is_nan_spec in Hn. contradiction.
Qed.

Lemma flt_not_nan_r (c x : float) : flt c x = true -> PrimFloat.is_nan x = false.
Proof.
  unfold flt. rewrite ltb_spec. intros H. apply SFltb_not_nan in H as [_ Hx].
  destruct (PrimFloat.is_nan x) eqn:Hn; [|reflexivity]. apply is_nan_spec in Hn. contradiction.
Qed.

Lemma fle_negb_fgt (x c : float) :
  PrimFloat.is_nan x = false -> PrimFloat.is_nan c = false -> fle x c = negb (fgt x c).
Proof.
  intros Hx Hc. unfold fle, fgt. rewrite leb_spec, ltb_spec. apply SF_le_or_gt.
  - intros Hn. apply is_nan_spec in Hn. congruence.
  - intros Hn. apply is_nan_spec in Hn. congruence.
Qed.

Lemma fle_nan_l (x c : float) : PrimFloat.is_nan x = true -> fle x c = false.
Proof. intros Hn. destruct (fle x c) eqn:H; [|reflexivity]. apply fle_not_nan in H. congruence. Qed.

Lemma fgt_nan_l (x c : float) : PrimFloat.is_nan x = true -> fgt x c = false.
Proof.
  intros Hn. destruct (fgt x c) eqn:H; [|reflexivity]. apply flt_not_nan_r in H. congruence.
Qed.

(* ===================================================================== *)
(** * Further properties of the arm combiner *)
(* ===================================================================== *)

(** X1.  The three LRS windows partition the wavelengths: a wavelength that
    is not NaN lies in exactly one of the blue, green and red windows, and
    a NaN wavelength lies in none (such a pixel is dropped from every arm). *)
Theorem lrs_windows_partition (w : float) :
  (PrimFloat.is_nan w = true ->
   in_blue_window w = false /\ in_green_window w = false /\ in_red_window w = false) /\
  (PrimFloat.is_nan w = false ->
   (in_blue_window w = true /\ in_green_window w = false /\ in_red_window w = false) \/
   (in_blue_window w = false /\ in_green_window w = true /\ in_red_window w = false) \/
   (in_blue_window w = false /\ in_green_window w = false /\ in_red_window w = true)).
Proof.
  unfold in_blue_window, in_green_window, in_red_window. split.
  - intros Hn. rewrite (fle_nan_l _ _ Hn), !(fgt_nan_l _ _ Hn). auto.
  - intros Hn.
    pose proof (fle_negb_fgt w lrs_cut_blue Hn ltac:(reflexivity)) as Hb.
    pose proof (fle_negb_fgt w lrs_cut_red Hn ltac:(reflexivity)) as Hr.
    destruct (fgt w lrs_cut_blue) eqn:Gb, (fgt w lrs_cut_red) eqn:Gr;
      rewrite Hb, Hr; simpl; auto.
    (* above the red cut but not above the blue cut: impossible *)
    exfalso. unfold fgt in Gb, Gr.
    pose proof (flt_trans _ _ _ lrs_cuts_ordered Gr) as Habove.
    unfold flt in Habove. congruence.
Qed.

Lemma zero_bad_pixel_range (v : float) :
  PrimFloat.is_nan (zero_bad_pixel v) = true \/
  (fle 0%float (zero_bad_pixel v) = true /\ fle (zero_bad_pixel v) 2%float = true).
Proof.
  unfold zero_bad_pixel.
  destruct (PrimFloat.is_nan v) eqn:Hn.
  - rewrite (fgt_nan_l _ _ Hn), (fle_nan_l _ _ Hn). simpl. left. exact Hn.
  - right.
    pose proof (fle_negb_fgt v f_two Hn ltac:(reflexivity)) as H2.
    destruct (fgt v f_two) eqn:G2; simpl; [split; reflexivity|].
    destruct (fle v f_zero) eqn:L0; simpl; [split; reflexivity|].
    split; [|exact H2].
    pose proof (fle_negb_fgt f_zero v ltac:(reflexivity) Hn) as H0.
    unfold fgt in H0. unfold fle, f_zero in *.
    destruct (PrimFloat.leb 0 v) eqn:Hle; [reflexivity|].
    (* neither v <= 0 nor 0 <= v for a comparable v: impossible *)
    exfalso. symmetry in H0. apply negb_false_iff in H0.
    assert (Hlt : flt v f_zero = true) by exact H0.
    assert (Hle' : fle v f_zero = negb (fgt v f_zero))
      by (apply fle_negb_fgt; [exact Hn | reflexivity]).
    unfold fle, fgt, flt, f_zero in Hle', Hlt. rewrite L0 in Hle'.
    symmetry in Hle'. apply negb_false_iff in Hle'.
    pose proof (flt_trans _ _ _ Hlt Hle') as Hirr. unfold flt in Hirr.
    rewrite ltb_spec in Hirr. unfold SFltb in Hirr.
    rewrite SFcompare_refl in Hirr; [discriminate|].
    intros Hnan. apply is_nan_spec in Hnan. congruence.
Qed.

(** X2.  Every value of a continuum-normalised spectrum the combiner
    returns is NaN or lies in [0, 2], and removing the bad pixels from it
    once more changes nothing. *)
Theorem normalised_flux_range `{PyRuntime}
    (self : FourFS) (h : heap) (fs : filesystem) (times : gmap string float)
    (defs : list (option string)) (path setup : string) (i : Z) (snr : pynum) (rc : Z)
    (h' : heap) (e : output_entry) (sn : Spectrum) :
  combine_pair self h fs times defs path setup i snr rc = Ok (h', e) ->
  spectrum_continuum_normalised e = Some sn ->
  Forall (fun v => PrimFloat.is_nan v = true \/ (fle 0%float v = true /\ fle v 2%float = true))
    (values sn) /\
  remove_bad_pixels (values sn) = Ok (values sn).
Proof.
  intros Hc Hsn.
  apply combine_pair_inv in Hc as (d & st & ls & h1 & errors & _ & _ & _ & _ & _ & _ & Hcn).
  destruct (os_path_exists fs _).
  2:{ destruct Hcn as [_ Hnone]. congruence. }
  destruct Hcn as (n & en & Hrec & _ & _ & Hsn'). rewrite Hsn' in Hsn. injection Hsn as <-.
  apply recover_continuum_inv in Hrec as (raw & _ & ->). simpl. split.
  - apply Forall_forall. intros v Hv. apply list_elem_of_fmap in Hv as (v0 & -> & _).
    apply zero_bad_pixel_range.
  - rewrite remove_bad_pixels_spec. f_equal. rewrite <- list_fmap_compose.
    apply list_fmap_ext. intros _ v _. simpl. unfold zero_bad_pixel.
    destruct (fgt v f_two || fle v f_zero) eqn:Hbad; [reflexivity|].
    rewrite Hbad. reflexivity.
Qed.

Lemma normalised_flux_range_witness :
  exists h' e sn,
    Sample.pair Sample.outdir 20 1 = Ok (h', e) /\
    spectrum_continuum_normalised e = Some sn /\
    remove_bad_pixels (values sn) = Ok (values sn).
Proof.
  destruct (succeeded_Ok (Sample.pair Sample.outdir 20 1) ltac:(vm_compute; reflexivity))
    as [[h' e] Hrun].
  assert (Hsn : is_Some (spectrum_continuum_normalised e)).
  { assert (Hb : match Sample.pair Sample.outdir 20 1 with
                 | Ok (_, e) => bool_decide (is_Some (spectrum_continuum_normalised e))
                 | Raise _ => false
                 end = true) by (vm_compute; reflexivity).
    rewrite Hrun in Hb. apply bool_decide_eq_true in Hb. exact Hb. }
  destruct Hsn as [sn Hsn]. exists h', e, sn. split; [exact Hrun|]. split; [exact Hsn|].
  exact (proj2 (@normalised_flux_range Sample.runtime Sample.instance Sample.manifest_heap
                  Sample.outdir Sample.times Sample.lrs_definitions "outdir_LRS" "LRS" 0
                  (NInt 20) 1 h' e sn Hrun Hsn)).
Defined.

(** X3.  Outside LRS mode nothing is truncated: the spectrum returned for
    a pair is the three arms concatenated blue, green, red, so it has as
    many pixels as the three arms together. *)
Theorem hrs_no_truncation `{PyRuntime}
    (self : FourFS) (h : heap) (fs : filesystem) (times : gmap string float)
    (defs : list (option string)) (path setup : string) (i : Z) (snr : pynum) (rc : Z)
    (blue green red : list pixel) (h' : heap) (e : output_entry) :
  setup <> "LRS"%string ->
  map_result (load_band fs path setup defs i snr)
    (imap (fun j band => (j, band)) bands) = Ok [blue; green; red] ->
  combine_pair self h fs times defs path setup i snr rc = Ok (h', e) ->
  wavelengths (spectrum e) = map LAMBDA (blue ++ green ++ red) /\
  values (spectrum e) = map sky_subtracted (blue ++ green ++ red) /\
  length (values (spectrum e)) = (length blue + length green + length red)%nat.
Proof.
  intros Hs Hd Hc.
  apply combine_pair_inv in Hc as (d & st & ls & h1 & errors & Hd' & Hst & _ & _ & _ & Hsp & _).
  rewrite Hd in Hd'. injection Hd' as <-.
  rewrite (stitch_arms_hrs _ _ _ _ Hs) in Hst. injection Hst as <-.
  rewrite Hsp. simpl. repeat split. rewrite length_map, !length_app. lia.
Qed.

Lemma hrs_no_truncation_witness :
  exists h' e,
    Sample.pair_hrs = Ok (h', e) /\ length (values (spectrum e)) = 10%nat.
Proof.
  destruct (succeeded_Ok Sample.pair_hrs ltac:(vm_compute; reflexivity)) as [[h' e] Hrun].
  exists h', e. split; [exact Hrun|].
  destruct (@hrs_no_truncation Sample.runtime Sample.instance Sample.manifest_heap
              Sample.outdir_hrs Sample.times Sample.lrs_definitions "outdir_HRS" "HRS" 0
              (NInt 20) 1 Sample.blue_arm Sample.green_arm Sample.red_arm h' e
              ltac:(discriminate) ltac:(vm_compute; reflexivity) Hrun) as (_ & _ & Hlen).
  exact Hlen.
Defined.

(** X4.  The errors of the flux-calibrated spectrum are its flux divided,
    pixel by pixel, by the SNR 4FS reports for the pixel; so are those of
    the continuum-normalised spectrum when it has one value per pixel. *)
Theorem errors_are_flux_over_snr `{PyRuntime}
    (self : FourFS) (h : heap) (fs : filesystem) (times : gmap string float)
    (defs : list (option string)) (path setup : string) (i : Z) (snr : pynum) (rc : Z)
    (h' : heap) (e : output_entry) :
  combine_pair self h fs times defs path setup i snr rc = Ok (h', e) ->
  exists d st,
    map_result (load_band fs path setup defs i snr)
      (imap (fun j band => (j, band)) bands) = Ok d /\
    stitch_arms setup d = Ok st /\
    length (snrs_final st) = length (values (spectrum e)) /\
    value_errors (spectrum e) = zip_with fdiv (values (spectrum e)) (snrs_final st) /\
    forall sn, spectrum_continuum_normalised e = Some sn ->
      length (values sn) = length (snrs_final st) ->
      value_errors sn = zip_with fdiv (values sn) (snrs_final st).
Proof.
  intros Hc.
  apply combine_pair_inv in Hc
    as (d & st & ls & h1 & errors & Hd & Hst & _ & _ & Herr & Hsp & Hcn).
  exists d, st. split; [exact Hd|]. split; [exact Hst|].
  destruct (load_bands_three _ _ _ _ _ _ _ Hd) as (blue & green & red & ->).
  destruct (stitch_arms_three setup blue green red) as (px & fl & Hst').
  rewrite Hst' in Hst. injection Hst as <-. simpl in *.
  unfold np_div in Herr.
  rewrite np_broadcast_same_length in Herr by (rewrite !length_map; reflexivity).
  injection Herr as <-. rewrite Hsp. simpl.
  split; [rewrite !length_map; reflexivity|]. split; [reflexivity|].
  intros sn Hsn Hlen. destruct (os_path_exists fs _).
  - destruct Hcn as (n & en & _ & Hen & _ & Hsn'). rewrite Hsn' in Hsn.
    injection Hsn as <-. simpl in *. unfold np_div in Hen.
    rewrite np_broadcast_same_length in Hen by exact Hlen. congruence.
  - destruct Hcn as [_ Hnone]. congruence.
Qed.

Lemma errors_are_flux_over_snr_witness :
  exists h' e,
    Sample.pair Sample.outdir 20 1 = Ok (h', e) /\
    value_errors (spectrum e) = [1; 1.2; 3; 0.8; -0.1; 0.8]%float.
Proof.
  destruct (succeeded_Ok (Sample.pair Sample.outdir 20 1) ltac:(vm_compute; reflexivity))
    as [[h' e] Hrun].
  exists h', e. split; [exact Hrun|].
  destruct (@errors_are_flux_over_snr Sample.runtime Sample.instance Sample.manifest_heap
              Sample.outdir Sample.times Sample.lrs_definitions "outdir_LRS" "LRS" 0
              (NInt 20) 1 h' e Hrun) as (d & st & Hd & Hst & _ & Herr & _).
  assert (Hv : match Sample.pair Sample.outdir 20 1 with
               | Ok (_, e) => value_errors (spectrum e)
               | Raise _ => []
               end = [1; 1.2; 3; 0.8; -0.1; 0.8]%float) by (vm_compute; reflexivity).
  rewrite Hrun in Hv. exact Hv.
Defined.

(** The six keys the combiner writes. *)
Lemma attach_metadata_other_keys (self : FourFS) (h : heap) (ls : loc)
    (times : gmap string float) (defs : list (option string)) (snr : pynum) (rc : Z)
    (h1 : heap) (k : string) :
  attach_metadata self h ls times defs snr rc = Ok h1 ->
  k <> "continuum_normalised"%string -> k <> "SNR"%string -> k <> "SNR_per"%string ->
  k <> "magnitude"%string -> k <> "exposure"%string -> k <> "snr_definition"%string ->
  dict_get h1 ls !! k = dict_get h ls !! k.
Proof.
  intros Hh ? ? ? ? ? ?.
  apply attach_metadata_spec in Hh as (_ & _ & snr_f & mag_f & sd & _ & _ & _ & ->).
  rewrite !lookup_insert_ne by congruence. reflexivity.
Qed.

(** X5.  The metadata of the spectra returned for a pair is the stored
    metadata of the template with six keys written over it: every other key
    of the stored dictionary is carried over unchanged, ['SNR'] is
    [float(snr)], ['magnitude'] is [float(self.magnitude)], and
    ['continuum_normalised'] is 0 on the flux-calibrated spectrum and 1 on
    the continuum-normalised one. *)
Theorem metadata_reattached `{PyRuntime}
    (self : FourFS) (h : heap) (fs : filesystem) (times : gmap string float)
    (defs : list (option string)) (path setup : string) (i : Z) (snr : pynum) (rc : Z)
    (h' : heap) (e : output_entry) :
  combine_pair self h fs times defs path setup i snr rc = Ok (h', e) ->
  exists ls snr_f mag_f,
    metadata_store self !! i = Some ls /\
    py_float_of_num snr = Ok snr_f /\
    py_float_of_num (magnitude self) = Ok mag_f /\
    let attached (m : pydict) (flag : Z) :=
      m !! "continuum_normalised" = Some (PyInt flag) /\
      m !! "SNR" = Some (PyFloat snr_f) /\
      m !! "SNR_per" = Some (PyStr (snr_per self)) /\
      m !! "magnitude" = Some (PyFloat mag_f) /\
      forall k : string,
        k <> "continuum_normalised"%string -> k <> "SNR"%string -> k <> "SNR_per"%string ->
        k <> "magnitude"%string -> k <> "exposure"%string -> k <> "snr_definition"%string ->
        m !! k = dict_get h ls !! k in
    attached (metadata_of h' (spectrum e)) 0 /\
    forall sn, spectrum_continuum_normalised e = Some sn ->
      attached (metadata_of h' sn) 1.
Proof.
  intros Hc.
  apply combine_pair_heap in Hc
    as (ls & h1 & lsp & Hls & Hh1 & _ & _ & Hsp & _ & _ & Hcontent & Hsn).
  pose proof (attach_metadata_spec _ _ _ _ _ _ _ _ Hh1)
    as (_ & _ & snr_f & mag_f & sd & Hsnr & Hmag & _ & Hget).
  exists ls, snr_f, mag_f. repeat (split; [assumption|]). cbv zeta. split.
  - assert (Hm : metadata_of h' (spectrum e) = dict_get h1 ls).
    { unfold metadata_of. rewrite Hsp. unfold dict_get at 1. rewrite Hcontent. reflexivity. }
    rewrite Hm, Hget. split; [|split; [|split; [|split]]].
    + rewrite !lookup_insert_ne by discriminate. apply lookup_insert_eq.
    + rewrite !lookup_insert_ne by discriminate. apply lookup_insert_eq.
    + rewrite !lookup_insert_ne by discriminate. apply lookup_insert_eq.
    + rewrite !lookup_insert_ne by discriminate. apply lookup_insert_eq.
    + intros k ? ? ? ? ? ?. rewrite !lookup_insert_ne by congruence. reflexivity.
  - intros sn Hs. destruct (Hsn sn Hs) as (lnp & Hmn & _ & _ & _ & Hcn).
    assert (Hm : metadata_of h' sn = <["continuum_normalised" := PyInt 1]> (dict_get h1 ls)).
    { unfold metadata_of. rewrite Hmn. unfold dict_get at 1. rewrite Hcn. reflexivity. }
    rewrite Hm, Hget. split; [|split; [|split; [|split]]].
    + apply lookup_insert_eq.
    + rewrite !lookup_insert_ne by discriminate. apply lookup_insert_eq.
    + rewrite !lookup_insert_ne by discriminate. apply lookup_insert_eq.
    + rewrite !lookup_insert_ne by discriminate. apply lookup_insert_eq.
    + intros k ? ? ? ? ? ?. rewrite !lookup_insert_ne by congruence. reflexivity.
Qed.

Lemma metadata_reattached_witness :
  exists h' e,
    Sample.pair Sample.outdir 20 1 = Ok (h', e) /\
    metadata_of h' (spectrum e) !! "Starname" = Some (PyStr "sun") /\
    metadata_of h' (spectrum e) !! "SNR" = Some (PyFloat 20%float).
Proof.
  destruct (succeeded_Ok (Sample.pair Sample.outdir 20 1) ltac:(vm_compute; reflexivity))
    as [[h' e] Hrun].
  exists h', e. split; [exact Hrun|].
  destruct (@metadata_reattached Sample.runtime Sample.instance Sample.manifest_heap
              Sample.outdir Sample.times Sample.lrs_definitions "outdir_LRS" "LRS" 0
              (NInt 20) 1 h' e Hrun)
    as (ls & snr_f & mag_f & Hls & Hsnr & _ & (_ & HSNR & _ & _ & Hother) & _).
  simpl in Hls. apply lookup_singleton_Some in Hls as [_ <-].
  vm_compute in Hsnr. injection Hsnr as <-. split; [|exact HSNR].
  rewrite Hother by discriminate. vm_compute. reflexivity.
Defined.

(* ===================================================================== *)
(** * Failures of the combiner *)
(* ===================================================================== *)

Lemma map_result_fail {X Y} (f : X -> result Y) (l : list X) (x : X) (e : exn) :
  x ∈ l -> f x = Raise e -> exists e', map_result f l = Raise e'.
Proof.
  intros Hin Hf. induction l as [|y l IH]; [inversion Hin|].
  simpl. apply elem_of_cons in Hin as [<-|Hin].
  - rewrite Hf. eauto.
  - destruct (f y); [|simpl; eauto].
    destruct (IH Hin) as [e' ->]. simpl. eauto.
Qed.

Lemma for_each_fail {S X} (body : S -> X -> result S) (l : list X) (x : X) :
  x ∈ l -> (forall s, exists e, body s x = Raise e) ->
  forall s, exists e, for_each body l s = Raise e.
Proof.
  intros Hin Hf. induction l as [|y l IH]; [inversion Hin|]. intros s. simpl.
  apply elem_of_cons in Hin as [<-|Hin].
  - destruct (Hf s) as [e ->]. simpl. eauto.
  - destruct (body s y) as [s'|e]; [|simpl; eauto]. simpl. apply (IH Hin).
Qed.

(** A loop whose body raises nothing but [E], and raises [E] on [x]. *)
Lemma for_each_fail_with {S X} (body : S -> X -> result S) (l : list X) (x : X) (E : exn) :
  x ∈ l -> (forall s, body s x = Raise E) ->
  (forall s y e, body s y = Raise e -> e = E) ->
  forall s, for_each body l s = Raise E.
Proof.
  intros Hin Hf Honly. induction l as [|y l IH]; [inversion Hin|]. intros s. simpl.
  apply elem_of_cons in Hin as [<-|Hin].
  - rewrite Hf. reflexivity.
  - destruct (body s y) as [s'|e] eqn:Hb; simpl; [apply (IH Hin)|].
    f_equal. eapply Honly. exact Hb.
Qed.

Lemma for_each_cons {S X} (body : S -> X -> result S) (x : X) (l : list X) (s : S) :
  for_each body (x :: l) s = (s' ← body s x; for_each body l s').
Proof. reflexivity. Qed.

(** The first element on which [f] raises decides what a comprehension
    raises. *)
Lemma map_result_first_fail {X Y} (f : X -> result Y) (l1 l2 : list X) (x : X) (e : exn) :
  Forall (fun y => succeeded (f y) = true) l1 -> f x = Raise e ->
  map_result f (l1 ++ x :: l2) = Raise e.
Proof.
  intros Hall Hf. induction Hall as [|y l1 Hy _ IH]; simpl.
  - rewrite Hf. reflexivity.
  - destruct (f y); [|discriminate]. simpl. rewrite IH. reflexivity.
Qed.

(** X6.  When the run summary reads, and one arm of one pair (template,
    SNR) has an SNR definition but its FITS file cannot be opened, the
    whole call of the combiner raises: no output is returned for the other
    pairs either.  When the pair is the first one combined and the arms
    before the missing one load, the exception is the [IOError] of that
    file. *)
Theorem missing_arm_aborts `{PyRuntime}
    (self : FourFS) (h : heap) (fs : filesystem) (template_numbers : list Z)
    (path setup : string) (i : Z) (snr : pynum) (j : nat) (band name filename : string) :
  let defs := reverse (if bool_decide (setup = "LRS") then lrs_use_snr_definitions self
                       else hrs_use_snr_definitions self) in
  succeeded (read_exposure_times fs path) = true ->
  i ∈ template_numbers -> snr ∈ snr_list self ->
  bands !! j = Some band ->
  (nonempty_name <$> defs !! j) = Some (Some name) ->
  signal_filename path setup i snr name band = Ok filename ->
  fits_open fs filename = Raise IOError ->
  (exists e, combine_spectra self h fs template_numbers path setup = Raise e) /\
  (head template_numbers = Some i -> head (snr_list self) = Some snr ->
   (forall j' band', (j' < j)%nat -> bands !! j' = Some band' ->
                     succeeded (load_band fs path setup defs i snr (j', band')) = true) ->
   combine_spectra self h fs template_numbers path setup = Raise IOError).
Proof.
  cbv zeta. intros Hread Hi Hsnr Hband Hdef Hname Hopen. unfold combine_spectra. cbv zeta.
  set (defs := reverse _) in *.
  destruct (read_exposure_times fs path) as [times|e]; [|discriminate]. simpl.
  assert (Hload : load_band fs path setup defs i snr (j, band) = Raise IOError).
  { unfold load_band. simpl. destruct (defs !! j) as [d|]; [|discriminate].
    simpl in Hdef. injection Hdef as Hd. simpl. rewrite Hd, Hname. simpl. exact Hopen. }
  split.
  - assert (Hpair : forall h0 rc, exists e,
               combine_pair self h0 fs times defs path setup i snr rc = Raise e).
    { intros h0 rc. unfold combine_pair.
      destruct (map_result_fail (load_band fs path setup defs i snr)
                  (imap (fun j band => (j, band)) bands) (j, band) IOError) as [e ->].
      - apply list_elem_of_lookup. exists j. rewrite list_lookup_imap, Hband. reflexivity.
      - exact Hload.
      - simpl. eauto. }
    assert (Htemplate : forall st, exists e,
               combine_template_step self fs times defs path setup st i = Raise e).
    { intros [[h0 rc] out]. unfold combine_template_step.
      destruct (for_each_fail (combine_snr_step self fs times defs path setup i)
                  (snr_list self) snr Hsnr) with (s := mkCombineState h0 rc []) as [e ->].
      - intros st. unfold combine_snr_step.
        destruct (Hpair (cs_heap st) (cs_run_counter st + 1)) as [e ->]. simpl. eauto.
      - simpl. eauto. }
    destruct (for_each_fail _ template_numbers i Hi Htemplate (h, 0, [])) as [e ->].
    simpl. eauto.
  - intros Hfirst Hfirst_snr Hbefore.
    assert (Hmap : map_result (load_band fs path setup defs i snr)
                     (imap (fun j band => (j, band)) bands) = Raise IOError).
    { pose proof (take_drop_middle (imap (fun j band => (j, band)) bands) j (j, band)) as Hsplit.
      rewrite <- Hsplit by (rewrite list_lookup_imap, Hband; reflexivity).
      apply map_result_first_fail; [|exact Hload].
      apply Forall_forall. intros [j' band'] Hin.
      apply list_elem_of_lookup in Hin as [k Hk].
      apply lookup_take_Some in Hk as [Hk Hlt].
      rewrite list_lookup_imap in Hk. destruct (bands !! k) as [b|] eqn:Hb; [|discriminate].
      simpl in Hk. injection Hk as <- <-. apply Hbefore; assumption. }
    assert (Hpair : forall h0 rc,
               combine_pair self h0 fs times defs path setup i snr rc = Raise IOError).
    { intros h0 rc. unfold combine_pair. rewrite Hmap. reflexivity. }
    assert (Hstep : forall st,
               combine_snr_step self fs times defs path setup i st snr = Raise IOError).
    { intros st. unfold combine_snr_step. rewrite Hpair. reflexivity. }
    assert (Htemplate : forall st,
               combine_template_step self fs times defs path setup st i = Raise IOError).
    { intros [[h0 rc] out]. unfold combine_template_step.
      destruct (snr_list self) as [|snr0 snrs]; [discriminate|]. injection Hfirst_snr as ->.
      rewrite for_each_cons, Hstep. reflexivity. }
    destruct template_numbers as [|i0 tn]; [discriminate|]. injection Hfirst as ->.
    rewrite for_each_cons, Htemplate. reflexivity.
Qed.

Lemma missing_arm_aborts_witness :
  @combine_spectra Sample.runtime Sample.instance Sample.manifest_heap
    Sample.outdir_missing_arm [0] "outdir_LRS" "LRS" = Raise IOError.
Proof.
  apply (@missing_arm_aborts Sample.runtime Sample.instance Sample.manifest_heap
           Sample.outdir_missing_arm [0] "outdir_LRS" "LRS" 0 (NInt 20) 1%nat "green"
           "MEDIANSNR"
           "outdir_LRS/specout_template_template_0_SNR20.0_MEDIANSNR_LRS_green.fits").
  - vm_compute. reflexivity.
  - apply list_elem_of_In. left. reflexivity.
  - apply list_elem_of_In. vm_compute. left. reflexivity.
  - reflexivity.
  - vm_compute. reflexivity.
  - vm_compute. reflexivity.
  - vm_compute. reflexivity.
  - reflexivity.
  - reflexivity.
  - intros j' band' Hlt Hb. destruct j' as [|[|j']]; [|lia|lia].
    injection Hb as <-. vm_compute. reflexivity.
Defined.

(** The summary loop raises nothing but [ValueError]. *)
Lemma summary_line_raises `{PyRuntime} (times : gmap string float) (line : string) (e : exn) :
  summary_line times line = Raise e -> e = ValueError.
Proof.
  unfold summary_line. destruct (decide _) as [|Hlen]; [discriminate|].
  destruct (String.words line) as [|w0 [|w1 [|w2 [|w3 [|w4 [|w5 ws]]]]]];
    simpl in Hlen; try lia.
  simpl. destruct (py_int w0); [|discriminate].
  destruct (bool_decide (w5 = "nan")); [discriminate|].
  destruct (py_float w5); simpl; [discriminate|]. congruence.
Qed.

(** X7.  A summary line with six fields or more whose first field reads
    as an integer and whose sixth field is neither ["nan"] nor a number
    makes the combiner raise [ValueError], whatever else the directory
    holds. *)
Theorem malformed_exposure_raises `{PyRuntime}
    (self : FourFS) (h : heap) (fs : filesystem) (template_numbers : list Z)
    (path setup : string) (lines : list string) (line w0 w5 : string) (run : Z) :
  open_text fs (os_path_join path "4FS_ETC_summary.txt") = Ok lines ->
  line ∈ lines ->
  String.words line !! 0%nat = Some w0 -> py_int w0 = Some run ->
  String.words line !! 5%nat = Some w5 -> w5 <> "nan"%string -> py_float w5 = None ->
  combine_spectra self h fs template_numbers path setup = Raise ValueError.
Proof.
  intros Hopen Hin Hw0 Hint Hw5 Hnan Hfloat.
  unfold combine_spectra, read_exposure_times. cbv zeta. rewrite Hopen. simpl.
  rewrite (for_each_fail_with summary_line lines line ValueError Hin); [reflexivity| |].
  - intros times. unfold summary_line.
    destruct (decide _) as [Hlen|_].
    + apply lookup_lt_Some in Hw5. lia.
    + rewrite Hw0. simpl. rewrite Hint, Hw5. simpl.
      rewrite bool_decide_eq_false_2 by exact Hnan. rewrite Hfloat. reflexivity.
  - intros times y e. apply summary_line_raises.
Qed.

Lemma malformed_exposure_raises_witness :
  @combine_spectra Sample.runtime Sample.instance Sample.manifest_heap
    Sample.outdir_bad_summary
    [0] "outdir_LRS" "LRS" = Raise ValueError.
Proof.
  apply (@malformed_exposure_raises Sample.runtime Sample.instance Sample.manifest_heap
           Sample.outdir_bad_summary [0] "outdir_LRS" "LRS"
           ["1 template_0_SNR20.0 LRS x y 300.0 z"; "# 4FS summary";
            "2 template_0_SNR50.0 LRS x y 12x z"]%string
           "2 template_0_SNR50.0 LRS x y 12x z" "2" "12x" 2).
  - vm_compute. reflexivity.
  - apply list_elem_of_In. right. right. left. reflexivity.
  - vm_compute. reflexivity.
  - vm_compute. reflexivity.
  - vm_compute. reflexivity.
  - discriminate.
  - vm_compute. reflexivity.
Defined.

Lemma map_result_Ok_iff {X Y} (f : X -> result Y) (l : list X) :
  succeeded (map_result f l) = true <-> Forall (fun x => succeeded (f x) = true) l.
Proof.
  induction l as [|x l IH]; simpl.
  - split; [constructor | reflexivity].
  - destruct (f x) as [y|e] eqn:Hf; simpl.
    + destruct (map_result f l); simpl in *.
      * split; [intros _; constructor; [rewrite Hf; reflexivity | apply IH; reflexivity]
               | reflexivity].
      * split; [discriminate|]. intros HF. apply Forall_cons in HF as [_ HF].
        apply IH in HF. discriminate.
    + split; [discriminate|]. intros HF. apply Forall_cons in HF as [HF _].
      rewrite Hf in HF. discriminate.
Qed.

(** X8.  The stitched continuum exists exactly when some arm kept signal
    pixels and every arm that kept signal pixels has continuum pixels too:
    with no signal pixel at all, or with an arm whose continuum is empty
    while its signal is not, the stitching raises. *)
Theorem stitch_continuum_defined (fluences fluences_c : list (list float)) :
  succeeded (stitch_continuum fluences fluences_c) = true <->
  (exists arm, arm ∈ zip fluences fluences_c /\ arm.1 <> []) /\
  (forall arm, arm ∈ zip fluences fluences_c -> arm.1 <> [] -> arm.2 <> []).
Proof.
  unfold stitch_continuum.
  set (arms := zip fluences fluences_c).
  assert (Hsig : forall arm : list float * list float,
             has_signal arm = true <-> arm.1 <> []).
  { intros [f c]. unfold has_signal. simpl. destruct f; simpl; split;
      congruence || discriminate || reflexivity. }
  assert (Hresc : forall arm : list float * list float,
             has_signal arm = true -> (succeeded (rescale_arm arm) = true <-> arm.2 <> [])).
  { intros [f c] Hs. apply Hsig in Hs. simpl in Hs. unfold rescale_arm.
    destruct f as [|x f]; [congruence|]. destruct c as [|y c]; simpl.
    - split; [discriminate | congruence].
    - split; [discriminate | reflexivity]. }
  destruct (map_result rescale_arm (List.filter has_signal arms)) as [parts|e] eqn:Hmap.
  - assert (Hall : Forall (fun x => succeeded (rescale_arm x) = true)
                     (List.filter has_signal arms))
      by (apply map_result_Ok_iff; rewrite Hmap; reflexivity).
    assert (Hlen := map_result_length _ _ _ Hmap).
    assert (Hcont : forall arm, arm ∈ arms -> arm.1 <> [] -> arm.2 <> []).
    { intros arm Hin Hne. apply Hsig in Hne. apply Hresc; [exact Hne|].
      rewrite Forall_forall in Hall. apply Hall. apply list_elem_of_In.
      apply filter_In. split; [apply list_elem_of_In; exact Hin | exact Hne]. }
    simpl. unfold np_concatenate. destruct parts as [|p parts]; simpl.
    + split; [discriminate|]. intros [(arm & Hin & Hne) _]. exfalso.
      assert (Hf : In arm (List.filter has_signal arms)).
      { apply filter_In. split; [apply list_elem_of_In; exact Hin | apply Hsig; exact Hne]. }
      destruct (List.filter has_signal arms); [exact Hf | discriminate].
    + split; [|reflexivity]. intros _. split; [|exact Hcont].
      destruct (List.filter has_signal arms) as [|arm l] eqn:Hfil; [discriminate|].
      assert (Hf : In arm (List.filter has_signal arms)) by (rewrite Hfil; left; reflexivity).
      apply filter_In in Hf as [Hin Hs]. exists arm. split;
        [apply list_elem_of_In; exact Hin | apply Hsig; exact Hs].
  - simpl. split; [discriminate|]. intros [_ Hcont]. exfalso.
    assert (Hall : Forall (fun x => succeeded (rescale_arm x) = true)
                     (List.filter has_signal arms)).
    { apply Forall_forall. intros arm Hin. apply list_elem_of_In in Hin.
      apply filter_In in Hin as [Hin Hs]. apply Hresc; [exact Hs|].
      apply Hcont; [apply list_elem_of_In; exact Hin | apply Hsig; exact Hs]. }
    apply map_result_Ok_iff in Hall. rewrite Hmap in Hall. discriminate.
Qed.

(** The keys of what one template gives. *)
Lemma snr_loop_keys `{PyRuntime} (self : FourFS) (fs : filesystem) (times : gmap string float)
    (defs : list (option string)) (path setup : string) (i : Z) (snrs : list pynum)
    (st st' : combine_state) :
  for_each (combine_snr_step self fs times defs path setup i) snrs st = Ok st' ->
  cs_run_counter st' = cs_run_counter st + Z.of_nat (length snrs) /\
  map fst (cs_entries st') = map fst (cs_entries st) ++ snrs.
Proof.
  revert st. induction snrs as [|snr snrs IH]; intros st Hloop; simpl in Hloop.
  - injection Hloop as <-. rewrite app_nil_r. split; [simpl; lia | reflexivity].
  - apply bind_Ok in Hloop as (st1 & Hstep & Hloop). unfold combine_snr_step in Hstep.
    apply bind_Ok in Hstep as ([h1 e] & _ & Hstep). injection Hstep as <-.
    apply IH in Hloop as [Hrc Hkeys]. simpl in *. split; [lia|].
    rewrite Hkeys, map_app, <- app_assoc. reflexivity.
Qed.

(** The templates of the whole output. *)
Lemma output_keys_loop `{PyRuntime}
    (self : FourFS) (h : heap) (fs : filesystem) (template_numbers : list Z)
    (path setup : string) (h' : heap) (out : output_dict) :
  combine_spectra self h fs template_numbers path setup = Ok (h', out) ->
  map fst out = template_numbers.
Proof.
  unfold combine_spectra. cbv zeta. intros Hc.
  apply bind_Ok in Hc as (times & _ & Hc).
  apply bind_Ok in Hc as ([[h1 rc] out1] & Hloop & Hc). injection Hc as <- <-.
  set (defs := reverse _) in *.
  assert (Hgen : forall tn st st',
             for_each (combine_template_step self fs times defs path setup) tn st = Ok st' ->
             map fst st'.2 = map fst st.2 ++ tn).
  { clear. induction tn as [|i tn IH]; intros st st' Hloop; simpl in Hloop.
    - injection Hloop as <-. rewrite app_nil_r. reflexivity.
    - apply bind_Ok in Hloop as (st1 & Hstep & Hloop).
      destruct st as [[h0 rc0] out0]. unfold combine_template_step in Hstep.
      apply bind_Ok in Hstep as (cs & _ & Hstep). injection Hstep as <-.
      apply IH in Hloop. simpl in *. rewrite Hloop, map_app, <- app_assoc. reflexivity. }
  apply (Hgen _ _ _ Hloop).
Qed.

Lemma dict_of_assignments_snoc {V} (l : list (Z * V)) (k k' : Z) (v : V) :
  dict_of_assignments (l ++ [(k', v)]) k =
  if bool_decide (k' = k) then Some v else dict_of_assignments l k.
Proof.
  unfold dict_of_assignments. rewrite rev_app_distr. simpl.
  destruct (bool_decide (k' = k)); reflexivity.
Qed.

Lemma dict_of_assignments_keys {V} (l : list (Z * V)) (k : Z) :
  is_Some (dict_of_assignments l k) <-> k ∈ map fst l.
Proof.
  induction l as [|[k' v] l IH] using rev_ind.
  - split; [intros [? Hx]; discriminate | intros Hin; inversion Hin].
  - rewrite dict_of_assignments_snoc, map_app, elem_of_app. simpl.
    destruct (bool_decide_reflect (k' = k)) as [->|Hne].
    + split; [intros _; right; left | eauto].
    + rewrite IH. split; [auto|]. intros [Hin|Hin]; [exact Hin|].
      apply list_elem_of_singleton in Hin. congruence.
Qed.

(** The value under [k] is that of the last assignment to [k]. *)
Lemma dict_of_assignments_last {V} (l : list (Z * V)) (a : nat) (k : Z) (v : V) :
  l !! a = Some (k, v) ->
  (forall a' v', (a < a')%nat -> l !! a' <> Some (k, v')) ->
  dict_of_assignments l k = Some v.
Proof.
  revert a. induction l as [|[k' v'] l IH] using rev_ind; intros a Ha Hlast;
    [discriminate|].
  rewrite dict_of_assignments_snoc.
  destruct (decide (a = length l)) as [->|Hne].
  - rewrite lookup_app_r, Nat.sub_diag in Ha by lia. injection Ha as -> ->.
    rewrite bool_decide_eq_true_2 by reflexivity. reflexivity.
  - assert (Hlt : (a < length l)%nat).
    { apply lookup_lt_Some in Ha. rewrite length_app in Ha. simpl in Ha. lia. }
    rewrite lookup_app_l in Ha by exact Hlt.
    destruct (bool_decide_reflect (k' = k)) as [->|Hk].
    + exfalso. apply (Hlast (length l) v' Hlt).
      rewrite lookup_app_r, Nat.sub_diag by lia. reflexivity.
    + apply (IH a Ha). intros a' v0 Hlt' Hl. apply (Hlast a' v0 Hlt').
      rewrite lookup_app_l by (apply lookup_lt_Some in Hl; exact Hl). exact Hl.
Qed.

Lemma dict_of_assignments_elem {V} (l : list (Z * V)) (k : Z) (v : V) :
  dict_of_assignments l k = Some v -> (k, v) ∈ l.
Proof.
  induction l as [|[k' v'] l IH] using rev_ind; [discriminate|].
  rewrite dict_of_assignments_snoc, elem_of_app.
  destruct (bool_decide_reflect (k' = k)) as [->|Hne].
  - intros [= ->]. right. left.
  - intros Hl. left. apply IH. exact Hl.
Qed.

(** X9.  The dictionary [combine_spectra] returns has exactly the requested
    template numbers as its keys.  Under a template number it holds the
    item built at the last place the number has in [template_numbers] (a
    number requested twice is combined twice, and the second item replaces
    the first), and each item is built by one assignment per SNR of
    [self.snr_list], in the order of that list. *)
Theorem output_keys `{PyRuntime}
    (self : FourFS) (h : heap) (fs : filesystem) (template_numbers : list Z)
    (path setup : string) (h' : heap) (out : output_dict) :
  combine_spectra self h fs template_numbers path setup = Ok (h', out) ->
  (forall i, is_Some (dict_of_assignments out i) <-> i ∈ template_numbers) /\
  (forall i entries,
     dict_of_assignments out i = Some entries -> map fst entries = snr_list self) /\
  (forall (a : nat) i,
     template_numbers !! a = Some i ->
     (forall a', (a < a')%nat -> template_numbers !! a' <> Some i) ->
     exists entries, out !! a = Some (i, entries) /\
                     dict_of_assignments out i = Some entries).
Proof.
  intros Hc. pose proof (output_keys_loop _ _ _ _ _ _ _ _ Hc) as Hkeys.
  assert (Hall : Forall (fun item => map fst item.2 = snr_list self) out).
  { revert Hc. unfold combine_spectra. cbv zeta. intros Hc.
    apply bind_Ok in Hc as (times & _ & Hc).
    apply bind_Ok in Hc as ([[h1 rc] out1] & Hloop & Hc). injection Hc as <- <-.
    set (defs := reverse _) in *.
    assert (Hgen : forall tn st st',
               for_each (combine_template_step self fs times defs path setup) tn st
                 = Ok st' ->
               Forall (fun item => map fst item.2 = snr_list self) st.2 ->
               Forall (fun item => map fst item.2 = snr_list self) st'.2).
    { clear. induction tn as [|i tn IH]; intros st st' Hloop Hold; simpl in Hloop.
      - injection Hloop as <-. exact Hold.
      - apply bind_Ok in Hloop as (st1 & Hstep & Hloop).
        destruct st as [[h0 rc0] out0]. unfold combine_template_step in Hstep.
        apply bind_Ok in Hstep as (cs & Hsnr & Hstep). injection Hstep as <-.
        apply snr_loop_keys in Hsnr as [_ Hk]. simpl in Hk.
        apply (IH _ _ Hloop). simpl in *. apply Forall_app. split; [exact Hold|].
        constructor; [exact Hk | constructor]. }
    apply (Hgen _ _ _ Hloop). constructor. }
  split; [|split].
  - intros i. rewrite dict_of_assignments_keys, Hkeys. reflexivity.
  - intros i entries Hd. apply dict_of_assignments_elem in Hd.
    rewrite Forall_forall in Hall. apply (Hall (i, entries) Hd).
  - intros a i Ha Hlast.
    assert (Hout : exists entries, out !! a = Some (i, entries)).
    { rewrite <- Hkeys in Ha.
      apply list_lookup_fmap_Some_1 in Ha as ([i' entries] & -> & Hoa). eauto. }
    destruct Hout as [entries Hout]. exists entries. split; [exact Hout|].
    apply (dict_of_assignments_last out a i entries Hout).
    intros a' v' Hlt Hl. apply (Hlast a' Hlt).
    rewrite <- Hkeys, list_lookup_fmap, Hl. reflexivity.
Qed.

Lemma output_keys_witness :
  exists h' out entries,
    Sample.combined Sample.outdir = Ok (h', out) /\
    dict_of_assignments out 0 = Some entries /\
    map fst entries = [NInt 20; NInt 50; NInt 80].
Proof.
  destruct (succeeded_Ok (Sample.combined Sample.outdir) ltac:(vm_compute; reflexivity))
    as [[h' out] Hrun].
  destruct (@output_keys Sample.runtime Sample.instance Sample.manifest_heap
              Sample.outdir [0] "outdir_LRS" "LRS" h' out Hrun) as (Hk & Hsnr & _).
  destruct (proj2 (Hk 0) ltac:(left)) as [entries Hentries].
  exists h', out, entries. split; [exact Hrun|]. split; [exact Hentries|].
  exact (Hsnr 0 entries Hentries).
Defined.


(* ===================================================================== *)
(** * The manifest builder: batches, aliasing, failures *)
(* ===================================================================== *)

Lemma string_app_assoc (a b c : string) : (a +:+ (b +:+ c) = (a +:+ b) +:+ c)%string.
Proof.
  induction a as [|x a IH]; [reflexivity|].
  change (String x (a +:+ (b +:+ c)) = String x ((a +:+ b) +:+ c))%string.
  f_equal. exact IH.
Qed.

(** A loop whose body commutes with [pre] commutes with [pre]. *)
Lemma for_each_prefix {S X} (pre : S -> S) (body : S -> X -> result S) :
  (forall s x, body (pre s) x = (s' ← body s x; Ok (pre s'))) ->
  forall l s, for_each body l (pre s) = (s' ← for_each body l s; Ok (pre s')).
Proof.
  intros Hbody. induction l as [|x l IH]; intros s; simpl; [reflexivity|].
  rewrite Hbody. destruct (body s x) as [s1|e]; simpl; [apply IH | reflexivity].
Qed.

Lemma template_lines_prefix `{PyRuntime} (self : FourFS) (definitions : list string)
    (w0 w : string) :
  template_lines self definitions (w0 +:+ w) =
  (w' ← template_lines self definitions w; Ok (w0 +:+ w')%string).
Proof.
  unfold template_lines.
  apply (for_each_prefix (fun w => (w0 +:+ w)%string)). intros s d.
  apply (for_each_prefix (fun w => (w0 +:+ w)%string)). intros s' snr.
  destruct (template_line self snr d) as [line|e]; simpl; [|reflexivity].
  rewrite string_app_assoc. reflexivity.
Qed.

(** One template appends to the manifest, to the list of expected names
    and to the files written, whatever they hold already. *)
Lemma generate_step_prefix `{PyRuntime} (o : gset string -> list string)
    (res : option float) (w0 : string) (sl0 : list string)
    (wr0 : list (string * FitsTemplate)) (st : gen_state)
    (x : Spectrum * option Spectrum) :
  generate_step o res (add_prefix w0 sl0 wr0 st) x =
  (st' ← generate_step o res st x; Ok (add_prefix w0 sl0 wr0 st')).
Proof.
  destruct x as [sp cn]. unfold generate_step. simpl.
  destruct (metadata sp) as [md|]; simpl; [|reflexivity].
  destruct (dict_getitem (gs_heap st) md "Starname") as [name|]; simpl; [|reflexivity].
  destruct (make_fits_spectral_template _ _ sp cn res false) as [[t sp1]|]; simpl;
    [|reflexivity].
  assert (Hwr : forall (written : list (string * FitsTemplate)) q,
             (wr0 ++ written) ++ q = wr0 ++ (written ++ q))
    by (intros; rewrite app_assoc; reflexivity).
  rewrite template_lines_prefix.
  rewrite (for_each_prefix (fun sl => sl0 ++ sl)
             (fun sl snr => s ← fmt_1f snr;
                Ok (sl ++ [("template_" +:+ py_str_int (template_counter (gs_self st))
                            +:+ "_SNR" +:+ s)%string])));
    [|intros s snr; destruct (fmt_1f snr); simpl; [rewrite app_assoc|]; reflexivity].
  destruct cn as [cn|]; simpl.
  - destruct (make_fits_spectral_template _ _ sp1 (Some cn) res true) as [[tc sp2]|]; simpl;
      [|reflexivity].
    destruct (template_lines _ _ (gs_writestr st)) as [w|]; simpl; [|reflexivity].
    destruct (for_each _ (snr_list (gs_self st)) (gs_star_list st)) as [sl|]; simpl;
      [|reflexivity].
    unfold add_prefix. simpl.
    repeat rewrite <- string_app_assoc. repeat rewrite <- app_assoc. reflexivity.
  - destruct (template_lines _ _ (gs_writestr st)) as [w|]; simpl; [|reflexivity].
    destruct (for_each _ (snr_list (gs_self st)) (gs_star_list st)) as [sl|]; simpl;
      [|reflexivity].
    unfold add_prefix. simpl. repeat rewrite <- app_assoc. reflexivity.
Qed.

Lemma string_app_nil_r (a : string) : (a +:+ "")%string = a.
Proof.
  induction a as [|x a IH]; [reflexivity|].
  change (String x (a +:+ "") = String x a)%string. f_equal. exact IH.
Qed.

(** X10.  Building the manifest of a list of spectra in two calls, the
    second on the instance and heap the first leaves, allocates the ids,
    fills the store and leaves the heap as one call on the whole list does;
    the manifest of the whole list is the manifest of the first call
    followed by the lines (without the header) of the second. *)
Theorem manifest_batches `{PyRuntime} (o : gset string -> list string)
    (self self1 self2 : FourFS) (h h1 h2 : heap)
    (l1 l2 : list (Spectrum * option Spectrum)) (resolution : option float)
    (t1 t2 : template_list) :
  generate_4fs_template_list o self h l1 resolution = Ok (self1, h1, t1) ->
  generate_4fs_template_list o self1 h1 l2 resolution = Ok (self2, h2, t2) ->
  exists lines,
    template_file t2 = (template_list_header +:+ lines)%string /\
    generate_4fs_template_list o self h (l1 ++ l2) resolution =
      Ok (self2, h2,
          mkTemplateList (template_file t1 +:+ lines)
            (template_numbers t1 ++ template_numbers t2)).
Proof.
  unfold generate_4fs_template_list. intros H1 H2.
  apply bind_Ok in H1 as (st1 & Hl1 & H1). injection H1 as <- <- <-.
  apply bind_Ok in H2 as (st2 & Hl2 & H2). injection H2 as <- <- <-.
  set (res := Some _) in *.
  (* the second loop, started from nothing *)
  assert (Hhead :
            for_each (generate_step o res) l2
              (mkGenState (gs_self st1) (gs_heap st1) template_list_header [] []) =
            (st' ← for_each (generate_step o res) l2
                     (mkGenState (gs_self st1) (gs_heap st1) "" [] []);
             Ok (add_prefix template_list_header [] [] st')))
    by exact (for_each_prefix (add_prefix template_list_header [] [])
                (generate_step o res) (generate_step_prefix o res _ _ _) l2
                (mkGenState (gs_self st1) (gs_heap st1) "" [] [])).
  rewrite Hl2 in Hhead.
  destruct (for_each (generate_step o res) l2
              (mkGenState (gs_self st1) (gs_heap st1) "" [] [])) as [st0|] eqn:Hl0;
    [|discriminate].
  simpl in Hhead. injection Hhead as Hst2.
  (* the same loop, started from what the first leaves *)
  pose proof (for_each_prefix (add_prefix (gs_writestr st1) (gs_star_list st1)
                                 (gs_written st1))
                (generate_step o res) (generate_step_prefix o res _ _ _) l2
                (mkGenState (gs_self st1) (gs_heap st1) "" [] [])) as Htail.
  unfold add_prefix in Htail at 1. simpl in Htail.
  rewrite string_app_nil_r, !app_nil_r, Hl0 in Htail. simpl in Htail.
  assert (Hst1 : mkGenState (gs_self st1) (gs_heap st1) (gs_writestr st1)
                   (gs_star_list st1) (gs_written st1) = st1) by (destruct st1; reflexivity).
  rewrite Hst1 in Htail.
  exists (gs_writestr st0). split; [rewrite Hst2; reflexivity|].
  rewrite for_each_app, Hl1. simpl. rewrite Htail. simpl.
  pose proof (generate_loop _ _ _ _ _ Hl1) as (_ & _ & Hc1 & _).
  pose proof (generate_loop _ _ _ _ _ Hl0) as (_ & _ & Hc0 & _).
  simpl in Hc1, Hc0. rewrite Hst2. simpl. rewrite Hc0, Hc1.
  f_equal. f_equal. f_equal.
  replace (template_counter self + Z.of_nat (length l1) + Z.of_nat (length l2) - 1 + 1 -
           template_counter self) with (Z.of_nat (length l1) + Z.of_nat (length l2)) by lia.
  rewrite seqZ_app by lia. f_equal; f_equal; lia.
Qed.

Lemma manifest_batches_witness :
  exists self2 h2 t,
    Sample.batch Sample.fresh_instance Sample.caller_heap
      (Sample.spectra_list ++ Sample.spectra_list) = Ok (self2, h2, t) /\
    template_numbers t = [0; 1].
Proof.
  destruct (succeeded_Ok (Sample.batch Sample.fresh_instance Sample.caller_heap
                            Sample.spectra_list) ltac:(vm_compute; reflexivity))
    as [[[self1 h1] t1] Hrun1].
  assert (Hsecond : match Sample.batch Sample.fresh_instance Sample.caller_heap
                            Sample.spectra_list with
                    | Ok (self1, h1, _) =>
                        succeeded (Sample.batch self1 h1 Sample.spectra_list)
                    | Raise _ => false
                    end = true) by (vm_compute; reflexivity).
  rewrite Hrun1 in Hsecond.
  destruct (succeeded_Ok _ Hsecond) as [[[self2 h2] t2] Hrun2].
  destruct (@manifest_batches Sample.runtime Sample.order_a Sample.fresh_instance self1 self2
              Sample.caller_heap h1 h2 Sample.spectra_list Sample.spectra_list
              (Some 50000%float) t1 t2 Hrun1 Hrun2) as (lines & _ & Hall).
  eexists self2, h2, _. split; [exact Hall|]. simpl.
  assert (Hn : match Sample.batch Sample.fresh_instance Sample.caller_heap
                       Sample.spectra_list with
               | Ok (self1, h1, t1) =>
                   match Sample.batch self1 h1 Sample.spectra_list with
                   | Ok (_, _, t2) => template_numbers t1 ++ template_numbers t2
                   | Raise _ => []
                   end
               | Raise _ => []
               end = [0; 1]) by (vm_compute; reflexivity).
  rewrite Hrun1, Hrun2 in Hn. exact Hn.
Defined.

(** X11.  The flux array of the input spectrum is renormalised in place,
    so the continuum-only template of a pair is made from the flux the
    first template was written with, not from the flux the caller passed:
    its data is that renormalised flux divided by the continuum-normalised
    flux, renormalised a second time. *)
Theorem continuum_template_from_renormalised `{PyRuntime} (o : gset string -> list string)
    (res : option float) (st st' : gen_state) (sp cn : Spectrum) :
  generate_step o res st (sp, Some cn) = Ok st' ->
  exists name t name_c t_c quotient m m_c,
    gs_written st' = gs_written st ++ [(name, t); (name_c, t_c)] /\
    hdu_data t = map (fun x => fmul x (renormalisation_factor (gs_self st) m)) (values sp) /\
    np_div (hdu_data t) (values cn) = Ok quotient /\
    hdu_data t_c =
      map (fun x => fmul x (renormalisation_factor (gs_self st) m_c)) quotient.
Proof.
  unfold generate_step. intros Hs.
  apply bind_Ok in Hs as (md & _ & Hs).
  apply bind_Ok in Hs as (obj_name & _ & Hs).
  unfold dict_copy in Hs. cbv zeta in Hs.
  apply bind_Ok in Hs as ([t sp1] & Ht & Hs).
  apply bind_Ok in Hs as (written & Hw & Hs).
  apply bind_Ok in Hs as (writestr & _ & Hs).
  apply bind_Ok in Hs as (star_list & _ & Hs).
  injection Hs as <-. simpl.
  apply bind_Ok in Hw as ([t_c sp2] & Htc & Hw). injection Hw as <-.
  apply make_fits_inv in Ht as (data & in_place & m & Hd & _ & Ht & Hsp1 & _).
  unfold template_data in Hd.
  apply bind_Ok in Hd as (u & Hhash & Hd). simpl in Hd. injection Hd as <- <-.
  apply make_fits_inv in Htc as (data_c & in_place_c & m_c & Hdc & _ & Htc & _).
  unfold template_data in Hdc.
  apply bind_Ok in Hdc as (u' & _ & Hdc). simpl in Hdc.
  apply bind_Ok in Hdc as (quotient & Hq & Hdc). injection Hdc as <- <-.
  rewrite Hsp1 in Hq. simpl in Hq.
  eexists _, t, _, t_c, quotient, m, m_c.
  split; [rewrite <- app_assoc; reflexivity|].
  split; [exact Ht|]. split; [exact Hq | exact Htc].
Qed.

Lemma continuum_template_from_renormalised_witness :
  exists st' name t name_c t_c,
    @generate_step Sample.runtime Sample.order_a (Some 1%float)
      (mkGenState Sample.fresh_instance Sample.caller_heap "" [] [])
      (Sample.star, Some Sample.star_cn) = Ok st' /\
    gs_written st' = [(name, t); (name_c, t_c)] /\
    np_div (hdu_data t) (values Sample.star_cn) = Ok (hdu_data t_c).
Proof.
  destruct (succeeded_Ok
              (@generate_step Sample.runtime Sample.order_a (Some 1%float)
                 (mkGenState Sample.fresh_instance Sample.caller_heap "" [] [])
                 (Sample.star, Some Sample.star_cn)) ltac:(vm_compute; reflexivity))
    as [st' Hrun].
  destruct (@continuum_template_from_renormalised Sample.runtime Sample.order_a
              (Some 1%float) _ st' Sample.star Sample.star_cn Hrun)
    as (name & t & name_c & t_c & quotient & m & m_c & Hw & _ & Hq & Htc).
  change (gs_written st' = [(name, t); (name_c, t_c)]) in Hw.
  exists st', name, t, name_c, t_c. split; [exact Hrun|]. split; [exact Hw|].
  rewrite Hq. f_equal.
  assert (Hb : match @generate_step Sample.runtime Sample.order_a (Some 1%float)
                       (mkGenState Sample.fresh_instance Sample.caller_heap "" [] [])
                       (Sample.star, Some Sample.star_cn) with
               | Ok st' =>
                   match gs_written st' with
                   | [(_, t); (_, t_c)] =>
                       match np_div (hdu_data t) (values Sample.star_cn) with
                       | Ok q => Some (q, hdu_data t_c)
                       | Raise _ => None
                       end
                   | _ => None
                   end
               | Raise _ => None
               end = Some ([1; 4; 3]%float, [1; 4; 3]%float)) by (vm_compute; reflexivity).
  rewrite Hrun in Hb. cbv beta iota in Hb. rewrite Hw in Hb. cbv beta iota in Hb.
  rewrite Hq in Hb. congruence.
Defined.




(* ===================================================================== *)
(** * The constructor, the modes and the whole pipeline *)
(* ===================================================================== *)

(** X13.  The constructor raises [AssertionError] whenever a mode that is
    switched on does not have three SNR definitions, before anything is
    written; it raises as well when an entry of [snr_definitions] has fewer
    than three fields.  When it returns, each mode that is switched on has
    three definitions, the instance starts with counter 0 and an empty
    store, a mode that is switched off has no definitions, the distinct
    definitions are the non-empty names of the modes that are switched on
    ([None] and the empty string never count, nor does a name given only
    for a mode that is off), and the files written are the parameter file
    of each mode that is on, HRS first, then [rulelist.txt] and
    [ruleset.txt]. *)
Theorem FourFS_init_spec `{PyRuntime} (pid : Z) (writable : bool) (path : string)
    (mag : pynum) (unreddened : bool) (band : string) (snrs : option (list pynum))
    (per_pixel : bool) (windows : option (list (list pyval))) (lrs_on hrs_on : bool)
    (lrs hrs : option (list (option string))) (identifier : string) :
  let lrs_use := default default_use_snr_definitions lrs in
  let hrs_use := default default_use_snr_definitions hrs in
  let built := FourFS_init pid writable path mag unreddened band snrs per_pixel windows
                 lrs_on hrs_on lrs hrs identifier in
  ((lrs_on = true /\ length lrs_use <> 3%nat) \/ (hrs_on = true /\ length hrs_use <> 3%nat) ->
   built = Raise AssertionError) /\
  ((exists window, window ∈ default default_snr_definitions windows /\
                   (length window < 3)%nat) ->
   exists e, built = Raise e) /\
  (forall self files, built = Ok (self, files) ->
     writable = true /\
     (lrs_on = true -> length lrs_use = 3%nat) /\
     (hrs_on = true -> length hrs_use = 3%nat) /\
     template_counter self = 0 /\ metadata_store self = ∅ /\
     lrs_use_snr_definitions self = (if lrs_on then lrs_use else []) /\
     hrs_use_snr_definitions self = (if hrs_on then hrs_use else []) /\
     (forall s : string,
        s ∈ distinct_snr_definitions self <->
        s <> ""%string /\
        ((lrs_on = true /\ Some s ∈ lrs_use) \/ (hrs_on = true /\ Some s ∈ hrs_use))) /\
     map fst files =
       (if hrs_on then [os_path_join (tmp_dir self) "ETC_input_params_HRS.txt"] else []) ++
       (if lrs_on then [os_path_join (tmp_dir self) "ETC_input_params_LRS.txt"] else []) ++
       [os_path_join (tmp_dir self) "rulelist.txt";
        os_path_join (tmp_dir self) "ruleset.txt"]).
Proof.
  cbv zeta. unfold FourFS_init. cbv zeta.
  set (lrs_use := default default_use_snr_definitions lrs).
  set (hrs_use := default default_use_snr_definitions hrs).
  split; [|split].
  - intros [[-> Hl]|[-> Hh]].
    + rewrite (bool_decide_eq_false_2 _ Hl). reflexivity.
    + destruct lrs_on; simpl.
      * destruct (bool_decide_reflect (length lrs_use = 3%nat)); simpl; [|reflexivity].
        rewrite (bool_decide_eq_false_2 _ Hh). reflexivity.
      * rewrite (bool_decide_eq_false_2 _ Hh). reflexivity.
  - intros (window & Hin & Hlen).
    destruct (if lrs_on then py_assert _ else Ok ()) as [[]|]; simpl; [|eauto].
    destruct (if hrs_on then py_assert _ else Ok ()) as [[]|]; simpl; [|eauto].
    destruct writable; simpl; [|eauto].
    assert (Hline : exists e0, rulelist_line per_pixel window = Raise e0).
    { unfold rulelist_line.
      destruct window as [|x0 [|x1 [|x2 window]]]; simpl in Hlen |- *; try lia; eauto.
      destruct (div_ten x1); simpl; eauto. }
    destruct Hline as [e0 Hline].
    destruct (map_result_fail (rulelist_line per_pixel)
                (default default_snr_definitions windows) window e0 Hin Hline)
      as [e ->]. simpl. eauto.
  - intros self files Hb.
    apply bind_Ok in Hb as ([] & Hl & Hb). apply bind_Ok in Hb as ([] & Hh & Hb).
    apply bind_Ok in Hb as ([] & Hw & Hb).
    apply bind_Ok in Hb as (lines & _ & Hb). apply bind_Ok in Hb as (ruleset & _ & Hb).
    injection Hb as <- <-. cbn [template_counter metadata_store lrs_use_snr_definitions
      hrs_use_snr_definitions distinct_snr_definitions tmp_dir].
    split; [destruct writable; [reflexivity | discriminate]|].
    split.
    { intros ->. apply py_assert_Ok in Hl. apply bool_decide_eq_true in Hl. exact Hl. }
    split.
    { intros ->. apply py_assert_Ok in Hh. apply bool_decide_eq_true in Hh. exact Hh. }
    repeat (split; [reflexivity|]). split.
    + intros s. rewrite elem_of_list_to_set, list_elem_of_omap. split.
      * intros (d & Hin & Hd). destruct d as [n|]; [|discriminate]. simpl in Hd.
        destruct (bool_decide_reflect (n = "")) as [|Hne]; [discriminate|].
        injection Hd as ->. split; [exact Hne|].
        apply elem_of_app in Hin as [Hin|Hin].
        -- left. destruct lrs_on; [auto | inversion Hin].
        -- right. destruct hrs_on; [auto | inversion Hin].
      * intros (Hne & Hin). exists (Some s). split.
        -- apply elem_of_app. destruct Hin as [[-> Hin]|[-> Hin]]; auto.
        -- simpl. rewrite bool_decide_eq_false_2 by exact Hne. reflexivity.
    + rewrite !map_app. destruct hrs_on, lrs_on; reflexivity.
Qed.

(** X14.  The combiner cannot be used for a mode the instance has no
    definitions for (a mode switched off at construction): with at least
    one template and one SNR, and a summary that reads, the first arm of
    the first pair raises [IndexError]. *)
Theorem inactive_mode_not_combinable `{PyRuntime}
    (self : FourFS) (h : heap) (fs : filesystem) (i : Z) (template_numbers : list Z)
    (path setup : string) (snr : pynum) (snrs : list pynum) :
  (if bool_decide (setup = "LRS") then lrs_use_snr_definitions self
   else hrs_use_snr_definitions self) = [] ->
  snr_list self = snr :: snrs ->
  succeeded (read_exposure_times fs path) = true ->
  combine_spectra self h fs (i :: template_numbers) path setup = Raise IndexError.
Proof.
  intros Hdefs Hsnr Hread. unfold combine_spectra. cbv zeta. rewrite Hdefs.
  destruct (read_exposure_times fs path) as [times|]; [|discriminate]. simpl.
  unfold combine_template_step at 1. rewrite Hsnr. simpl. reflexivity.
Qed.

Lemma inactive_mode_not_combinable_witness :
  @combine_spectra Sample.runtime Sample.instance Sample.manifest_heap Sample.outdir
    [0] "outdir_LRS" "HRS" = Raise IndexError.
Proof.
  apply (@inactive_mode_not_combinable Sample.runtime Sample.instance Sample.manifest_heap
           Sample.outdir 0 [] "outdir_LRS" "HRS" (NInt 20) [NInt 50; NInt 80]).
  - reflexivity.
  - reflexivity.
  - vm_compute. reflexivity.
Defined.

(** X15.  The three definitions of a mode cannot mix [None] with names:
    when they are not all equal and one of them is [None], every pair ends
    in the [TypeError] of [",".join(snr_definitions)] at the latest, so the
    combiner returns nothing as soon as it has one pair to combine. *)
Theorem unset_arm_definition_aborts `{PyRuntime}
    (self : FourFS) (h : heap) (fs : filesystem) (template_numbers : list Z)
    (path setup : string) (i : Z) (snr : pynum) (d0 d1 d2 : option string) :
  reverse (if bool_decide (setup = "LRS") then lrs_use_snr_definitions self
           else hrs_use_snr_definitions self) = [d0; d1; d2] ->
  d0 <> d1 \/ d1 <> d2 ->
  d0 = None \/ d1 = None \/ d2 = None ->
  i ∈ template_numbers -> snr ∈ snr_list self ->
  exists e, combine_spectra self h fs template_numbers path setup = Raise e.
Proof.
  intros Hdefs Hne Hnone Hi Hsnr. unfold combine_spectra. cbv zeta. rewrite Hdefs.
  destruct (read_exposure_times fs path) as [times|e]; [|simpl; eauto]. simpl.
  assert (Hvalue : snr_definition_value [d0; d1; d2] = Raise TypeError).
  { unfold snr_definition_value. simpl.
    destruct (bool_decide_reflect (d0 = d1)) as [He|_]; simpl.
    - destruct (bool_decide_reflect (d1 = d2)) as [He'|_]; simpl; [tauto|].
      destruct d0, d1, d2; simpl; try reflexivity; intuition congruence.
    - destruct d0, d1, d2; simpl; try reflexivity; intuition congruence. }
  assert (Hpair : forall h0 rc, exists e,
             combine_pair self h0 fs times [d0; d1; d2] path setup i snr rc = Raise e).
  { intros h0 rc.
    destruct (combine_pair self h0 fs times [d0; d1; d2] path setup i snr rc)
      as [[h1 e]|e] eqn:Hc; [|eauto].
    apply combine_pair_heap in Hc as (ls & h2 & lsp & _ & Hattach & _).
    apply attach_metadata_spec in Hattach as (_ & _ & ? & ? & sd & _ & _ & Hsd & _).
    rewrite Hvalue in Hsd. discriminate. }
  assert (Htemplate : forall st, exists e,
             combine_template_step self fs times [d0; d1; d2] path setup st i = Raise e).
  { intros [[h0 rc] out]. unfold combine_template_step.
    destruct (for_each_fail (combine_snr_step self fs times [d0; d1; d2] path setup i)
                (snr_list self) snr Hsnr) with (s := mkCombineState h0 rc []) as [e ->].
    - intros st. unfold combine_snr_step.
      destruct (Hpair (cs_heap st) (cs_run_counter st + 1)) as [e ->]. simpl. eauto.
    - simpl. eauto. }
  destruct (for_each_fail _ template_numbers i Hi Htemplate (h, 0, [])) as [e ->].
  simpl. eauto.
Qed.

Lemma unset_arm_definition_aborts_witness :
  exists e, @combine_spectra Sample.runtime Sample.instance_unset Sample.manifest_heap
              Sample.outdir [0] "outdir_LRS" "LRS" = Raise e.
Proof.
  apply (@unset_arm_definition_aborts Sample.runtime Sample.instance_unset
           Sample.manifest_heap Sample.outdir [0] "outdir_LRS" "LRS" 0 (NInt 20)
           (Some "MEDIANSNR"%string) None (Some "MEDIANSNR"%string)).
  - reflexivity.
  - left. discriminate.
  - right. left. reflexivity.
  - apply list_elem_of_In. left. reflexivity.
  - apply list_elem_of_In. left. reflexivity.
Defined.

Lemma generate_loop_modes `{PyRuntime} (o : gset string -> list string) (res : option float)
    (spectra : list (Spectrum * option Spectrum)) (st st' : gen_state) :
  for_each (generate_step o res) spectra st = Ok st' ->
  run_lrs (gs_self st') = run_lrs (gs_self st) /\
  run_hrs (gs_self st') = run_hrs (gs_self st).
Proof.
  revert st. induction spectra as [|[sp cn] spectra IH]; intros st Hloop; simpl in Hloop.
  - injection Hloop as <-. auto.
  - apply bind_Ok in Hloop as (st1 & Hstep & Hloop).
    apply generate_step_inv in Hstep as (md & _ & _ & Hself).
    apply IH in Hloop as [Hl Hh]. rewrite Hself in Hl, Hh. simpl in Hl, Hh. auto.
Qed.

(** X16.  When [process_spectra] returns, the 4FS binary was found, the
    output has one item per mode the instance runs, LRS before HRS, each
    holding one item per spectrum passed in, keyed by the ids counted from
    the instance's counter, and the counter has advanced by the number of
    spectra. *)
Theorem process_spectra_modes `{PyRuntime} (o : gset string -> list string)
    (binary_exists : bool) (fs : filesystem) (self self' : FourFS) (h h' : heap)
    (spectra : list (Spectrum * option Spectrum)) (resolution : option float)
    (output : list (string * output_dict)) :
  process_spectra o binary_exists fs self h spectra resolution = Ok (self', h', output) ->
  binary_exists = true /\
  map fst output = active_modes self /\
  Forall (fun item =>
            map fst item.2 = seqZ (template_counter self) (Z.of_nat (length spectra)))
    output /\
  template_counter self' = template_counter self + Z.of_nat (length spectra).
Proof.
  unfold process_spectra. intros Hp.
  apply bind_Ok in Hp as ([[self1 h1] ti] & Hgen & Hp).
  apply bind_Ok in Hp as (u & Hbin & Hp).
  apply bind_Ok in Hp as ([h2 out] & Hmodes & Hp). injection Hp as <- <- <-.
  destruct binary_exists; [|discriminate]. split; [reflexivity|].
  match type of Hmodes with
  | for_each ?f _ _ = _ => set (body := f) in *
  end.
  assert (Hbody : forall modes st0 st1,
             for_each body modes st0 = Ok st1 ->
             map fst st1.2 = map fst st0.2 ++ map fst (List.filter snd modes) /\
             (Forall (fun item => map fst item.2 = template_numbers ti) st0.2 ->
              Forall (fun item => map fst item.2 = template_numbers ti) st1.2)).
  { induction modes as [|[mode active] modes IH]; intros [h0 out0] st1 Hm; simpl in Hm.
    - injection Hm as <-. simpl. rewrite app_nil_r. auto.
    - destruct active; simpl in Hm.
      + apply bind_Ok in Hm as ([h3 out3] & Hstep & Hm).
        apply bind_Ok in Hstep as ([h4 stitched] & Hcomb & Hstep).
        injection Hstep as <- <-. apply output_keys_loop in Hcomb as Hkeys.
        apply IH in Hm as [Hk Hall]. simpl in *. split.
        * rewrite Hk, map_app, <- app_assoc. reflexivity.
        * intros Hold. apply Hall. apply Forall_app. split; [exact Hold|].
          constructor; [exact Hkeys | constructor].
      + apply IH in Hm as [Hk Hall]. simpl in *. auto. }
  apply Hbody in Hmodes as [Hk Hall]. clear Hbody body.
  unfold generate_4fs_template_list in Hgen.
  apply bind_Ok in Hgen as (st & Hloop & Hgen). injection Hgen as <- <- <-.
  pose proof (generate_loop _ _ _ _ _ Hloop) as (_ & _ & Hc & _).
  pose proof (generate_loop_modes _ _ _ _ _ Hloop) as [Hl Hh].
  simpl in Hc, Hl, Hh, Hk, Hall. rewrite Hc in Hall.
  replace (template_counter self + Z.of_nat (length spectra) - 1 + 1 - template_counter self)
    with (Z.of_nat (length spectra)) in Hall by lia.
  split; [|split; [apply Hall; constructor | exact Hc]].
  rewrite Hk, Hl, Hh. unfold active_modes.
  destruct (run_lrs self), (run_hrs self); reflexivity.
Qed.

Lemma process_spectra_modes_witness :
  exists self' h' output,
    Sample.processed = Ok (self', h', output) /\ map fst output = ["LRS"%string].
Proof.
  destruct (succeeded_Ok Sample.processed ltac:(vm_compute; reflexivity))
    as [[[self' h'] output] Hrun].
  exists self', h', output. split; [exact Hrun|].
  exact (proj1 (proj2 (@process_spectra_modes Sample.runtime Sample.order_a true
                         Sample.outdir Sample.fresh_instance self' Sample.caller_heap h'
                         Sample.spectra_list (Some 50000%float) output Hrun))).
Defined.

(* ===================================================================== *)
(** * The FITS header of a template, and a partial continuum exposure *)
(* ===================================================================== *)

Lemma np_min_elem (l : list float) (m : float) : np_min l = Ok m -> m ∈ l.
Proof.
  destruct l as [|x l]; [discriminate|]. simpl. intros [= <-].
  assert (Hgen : forall l' acc,
             fold_left (fun m item =>
                          if PrimFloat.is_nan m then m
                          else if PrimFloat.is_nan item then item
                          else if flt item m then item else m) l' acc ∈ acc :: l').
  { induction l' as [|y l' IH]; intros acc; simpl; [left|].
    specialize (IH (if PrimFloat.is_nan acc then acc
                    else if PrimFloat.is_nan y then y
                    else if flt y acc then y else acc)).
    apply elem_of_cons in IH as [->|IH].
    - destruct (PrimFloat.is_nan acc); [left|].
      destruct (PrimFloat.is_nan y); [right; left|].
      destruct (flt y acc); [right; left | left].
    - right. right. exact IH. }
  apply Hgen.
Qed.

Lemma SF_le_trans (x c y : spec_float) :
  SFleb x c = true -> SFleb c y = true -> SFleb x y = true.
Proof.
  unfold SFleb.
  destruct x as [sx|sx| |sx mx ex], c as [sc|sc| |sc mc ec], y as [sy|sy| |sy my ey];
    simpl; try discriminate; try reflexivity;
    repeat match goal with b : bool |- _ => destruct b end;
    simpl; try discriminate; try reflexivity.
  all: change (Pos.compare_cont Eq) with Pos.compare.
  all: destruct (Z.compare_spec ex ec), (Z.compare_spec ec ey), (Z.compare_spec ex ey);
       try discriminate; try reflexivity; try lia; subst.
  all: destruct (Pos.compare_spec mx mc), (Pos.compare_spec mc my), (Pos.compare_spec mx my);
       simpl; try discriminate; try reflexivity; try lia.
Qed.

Lemma SF_lt_le (x y : spec_float) : SFltb x y = true -> SFleb x y = true.
Proof. unfold SFltb, SFleb. destruct (SFcompare x y) as [[| |]|]; congruence. Qed.

Lemma fle_trans (x c y : float) : fle x c = true -> fle c y = true -> fle x y = true.
Proof. unfold fle. rewrite !leb_spec. apply SF_le_trans. Qed.

Lemma flt_fle (x y : float) : flt x y = true -> fle x y = true.
Proof. unfold flt, fle. rewrite ltb_spec, leb_spec. apply SF_lt_le. Qed.

Lemma fle_refl (x : float) : PrimFloat.is_nan x = false -> fle x x = true.
Proof.
  intros Hn. unfold fle. rewrite leb_spec. unfold SFleb.
  rewrite SFcompare_refl; [reflexivity|].
  intros Hx. apply is_nan_spec in Hx. congruence.
Qed.

(** A result of [np.min] that is not NaN is below every element. *)
Lemma np_min_least (l : list float) (m : float) :
  np_min l = Ok m -> PrimFloat.is_nan m = false -> Forall (fun x => fle m x = true) l.
Proof.
  destruct l as [|x l]; [discriminate|]. simpl. intros [= <-].
  set (f := fun m item : float =>
              if PrimFloat.is_nan m then m
              else if PrimFloat.is_nan item then item
              else if flt item m then item else m).
  assert (Hgen : forall l' acc,
             PrimFloat.is_nan (fold_left f l' acc) = false ->
             PrimFloat.is_nan acc = false /\ fle (fold_left f l' acc) acc = true /\
             Forall (fun x => fle (fold_left f l' acc) x = true) l').
  { induction l' as [|y l' IH]; intros acc Hn; simpl in *.
    - split; [exact Hn|]. split; [apply fle_refl; exact Hn | constructor].
    - destruct (IH _ Hn) as (Hacc' & Hle & Hall).
      set (m := fold_left f l' (f acc y)) in *.
      assert (Hf : f acc y = if PrimFloat.is_nan acc then acc
                             else if PrimFloat.is_nan y then y
                             else if flt y acc then y else acc) by reflexivity.
      rewrite Hf in Hacc', Hle. clear Hf.
      destruct (PrimFloat.is_nan acc) eqn:Hna; [congruence|].
      destruct (PrimFloat.is_nan y) eqn:Hny; [congruence|].
      split; [reflexivity|].
      destruct (flt y acc) eqn:Hlt.
      + split; [exact (fle_trans _ _ _ Hle (flt_fle _ _ Hlt))|].
        constructor; [exact Hle | exact Hall].
      + split; [exact Hle|]. constructor; [|exact Hall].
        apply (fle_trans _ acc); [exact Hle|].
        rewrite (fle_negb_fgt acc y Hna Hny). unfold fgt.
        change (PrimFloat.ltb y acc) with (flt y acc). rewrite Hlt. reflexivity. }
  intros Hn. destruct (Hgen l x Hn) as (_ & Hle & Hall). constructor; assumption.
Qed.

(** X17.  A template can only be written for a raster of two pixels or
    more, none of them NaN.  Its header then gives as [CRVAL1] the smallest
    wavelength of the raster (one of its wavelengths, and [<=] every one of
    them, wherever it stands), as [CDELT1] the spacing of the first two
    pixels, whatever the other spacings are, and as [ABMAG] the reference
    magnitude; [RESOLUTN] is written exactly when a resolution is passed;
    and none of these values is NaN or infinite. *)
Theorem template_header `{PyRuntime} (self : FourFS) (h : heap) (sp : Spectrum)
    (cn : option Spectrum) (res : option float) (continuum_only : bool)
    (t : FitsTemplate) (sp' : Spectrum) :
  make_fits_spectral_template self h sp cn res continuum_only = Ok (t, sp') ->
  (exists w0 w1 rest,
     wavelengths sp = w0 :: w1 :: rest /\ CDELT1 t = fsub w1 w0) /\
  CRVAL1 t ∈ wavelengths sp /\
  Forall (fun w => fle (CRVAL1 t) w = true) (wavelengths sp) /\
  ABMAG t = reference_magnitude self /\
  (RESOLUTN t = None <-> res = None) /\
  Forall (fun v => PrimFloat.is_nan v = false /\ PrimFloat.is_infinity v = false)
    (CRVAL1 t :: CDELT1 t :: ABMAG t :: option_list (RESOLUTN t)).
Proof.
  intros Hm.
  apply make_fits_inv in Hm
    as (data & in_place & m & _ & _ & _ & _ & Hmin & Hc1 & Hdelta & Hc2 & Hab & Hc3 & Hres).
  apply header_card_Ok in Hc3 as (_ & Hab1 & Hab2).
  apply header_card_Ok in Hc1 as (_ & Hn1 & Hi1).
  apply header_card_Ok in Hc2 as (_ & Hn2 & Hi2).
  split; [exact Hdelta|].
  split; [apply np_min_elem; exact Hmin|].
  split; [apply np_min_least; assumption|].
  split; [exact Hab|].
  split.
  { destruct res.
    - destruct Hres as (v & -> & _). split; discriminate.
    - rewrite Hres. split; reflexivity. }
  repeat (constructor; [auto|]).
  destruct res.
  - destruct Hres as (v & -> & _ & Hv). apply header_card_Ok in Hv as (_ & Hn & Hi).
    simpl. constructor; [auto | constructor].
  - rewrite Hres. constructor.
Qed.

Lemma template_header_witness :
  exists t sp',
    @make_fits_spectral_template Sample.runtime Sample.fresh_instance Sample.caller_heap
      Sample.star_unsorted None (Some 1%float) false = Ok (t, sp') /\
    CRVAL1 t = 5000%float /\ CDELT1 t = (-3000)%float.
Proof.
  destruct (succeeded_Ok
              (@make_fits_spectral_template Sample.runtime Sample.fresh_instance
                 Sample.caller_heap Sample.star_unsorted None (Some 1%float) false)
              ltac:(vm_compute; reflexivity)) as [[t sp'] Hrun].
  exists t, sp'. split; [exact Hrun|].
  destruct (@template_header Sample.runtime Sample.fresh_instance Sample.caller_heap
              Sample.star_unsorted None (Some 1%float) false t sp' Hrun)
    as ((w0 & w1 & rest & Hw & Hd) & _).
  assert (Hv : match @make_fits_spectral_template Sample.runtime Sample.fresh_instance
                       Sample.caller_heap Sample.star_unsorted None (Some 1%float) false with
               | Ok (t, _) => Some (CRVAL1 t)
               | Raise _ => None
               end = Some 5000%float) by (vm_compute; reflexivity).
  rewrite Hrun in Hv. injection Hv as Hv. split; [exact Hv|].
  rewrite Hd. simpl in Hw. injection Hw as <- <- _. vm_compute. reflexivity.
Defined.

(** X18.  Whether a pair has a continuum-only exposure is decided on the
    blue arm alone: when the blue file of the continuum-only exposure of a
    requested template exists but one of its three files cannot be opened,
    the whole call of the combiner raises. *)
Theorem partial_continuum_aborts `{PyRuntime}
    (self : FourFS) (h : heap) (fs : filesystem) (template_numbers : list Z)
    (path setup : string) (i : Z) (snr : pynum) (band : string) :
  i ∈ template_numbers -> snr ∈ snr_list self ->
  os_path_exists fs (continuum_filename path setup i "blue") = true ->
  band ∈ bands ->
  fits_open fs (continuum_filename path setup i band) = Raise IOError ->
  exists e, combine_spectra self h fs template_numbers path setup = Raise e.
Proof.
  intros Hi Hsnr Hblue Hband Hopen. unfold combine_spectra. cbv zeta.
  set (defs := reverse _).
  destruct (read_exposure_times fs path) as [times|e]; [|simpl; eauto]. simpl.
  assert (Hpair : forall h0 rc, exists e,
             combine_pair self h0 fs times defs path setup i snr rc = Raise e).
  { intros h0 rc. unfold combine_pair.
    destruct (map_result _ _) as [d|]; simpl; [|eauto].
    destruct (stitch_arms setup d) as [st|]; simpl; [|eauto].
    rewrite Hblue. unfold recover_continuum, normalise_by_continuum, continuum_fluences.
    destruct (map_result_fail (fits_open fs) (map (continuum_filename path setup i) bands)
                (continuum_filename path setup i band) IOError) as [e ->].
    - apply list_elem_of_fmap. exists band. split; [reflexivity | exact Hband].
    - exact Hopen.
    - simpl. eauto. }
  assert (Htemplate : forall st, exists e,
             combine_template_step self fs times defs path setup st i = Raise e).
  { intros [[h0 rc] out]. unfold combine_template_step.
    destruct (for_each_fail (combine_snr_step self fs times defs path setup i)
                (snr_list self) snr Hsnr) with (s := mkCombineState h0 rc []) as [e ->].
    - intros st. unfold combine_snr_step.
      destruct (Hpair (cs_heap st) (cs_run_counter st + 1)) as [e ->]. simpl. eauto.
    - simpl. eauto. }
  destruct (for_each_fail _ template_numbers i Hi Htemplate (h, 0, [])) as [e ->].
  simpl. eauto.
Qed.

Lemma partial_continuum_aborts_witness :
  exists e, @combine_spectra Sample.runtime Sample.instance Sample.manifest_heap
              Sample.outdir_partial_continuum [0] "outdir_LRS" "LRS" = Raise e.
Proof.
  apply (@partial_continuum_aborts Sample.runtime Sample.instance Sample.manifest_heap
           Sample.outdir_partial_continuum [0] "outdir_LRS" "LRS" 0 (NInt 20) "green").
  - apply list_elem_of_In. left. reflexivity.
  - apply list_elem_of_In. left. reflexivity.
  - vm_compute. reflexivity.
  - apply list_elem_of_In. right. left. reflexivity.
  - vm_compute. reflexivity.
Defined.
